(** * kcp-libuv: the session layer over one UDP socket

    A shallow embedding of [KCPConnection] (src/kcp_connection.cpp),
    [KCPServer] (src/kcp_server.cpp) and [KCPClient] (src/kcp_client.cpp).

    The reliable-transport engine (ikcp) and libuv are external
    collaborators: the engine is an interface ([Engine]), the platform
    services the code calls (the monotonic clock, [uv_udp_send]) another
    ([Platform]).  Calls that leave the layer (user callbacks, engine
    calls, datagrams handed to libuv, the log lines the proofs refer to)
    are recorded in a trace of [Event]s.

    Application callbacks are observed through the trace: a data or
    close callback of the application does not call back into the
    layer, and the new-connection handler does no more than replace the
    callbacks of the session it is given.  The two adapters the server
    registers on its sessions are modelled by what they run,
    [on_connection_data] and [on_connection_close]. *)

From Stdlib Require Import ZArith List Lia Bool.
From stdpp Require Import base option list gmap.
Import ListNotations.

Local Open Scope Z_scope.

(** ** Machine integers and datagram bytes *)

(** [uint32_t] arithmetic: values are kept in [0, 2^32). *)
Definition u32 (x : Z) : Z := x mod 2 ^ 32.

Definition byte_val (b : Byte.byte) : Z := Z.of_N (Byte.to_N b).

(** The [uint32_t] read at the start of [data]: the first four bytes,
    least significant first
    (the source reads them in native order and documents it as
    little-endian).  The receive buffer is 64KB, bytes past the datagram
    read as whatever the buffer holds; here as zero. *)
Definition read_u32 (data : list Byte.byte) : Z :=
  let b i := byte_val (nth i data Byte.x00) in
  b 0%nat + 256 * b 1%nat + 65536 * b 2%nat + 16777216 * b 3%nat.

(** [struct sockaddr]: an IPv4 address and a port. *)
Record sockaddr := { sin_addr : Z; sin_port : Z }.

(** [sizeof(struct sockaddr_in)] and [sizeof(struct sockaddr_storage)]. *)
Definition sizeof_sockaddr_in : Z := 16.
Definition sizeof_sockaddr_storage : Z := 128.

(** ** Session state and callbacks *)

Inductive State := CONNECTING | CONNECTED | DISCONNECTING | DISCONNECTED.

Definition State_eqb (a b : State) : bool :=
  match a, b with
  | CONNECTING, CONNECTING | CONNECTED, CONNECTED
  | DISCONNECTING, DISCONNECTING | DISCONNECTED, DISCONNECTED => true
  | _, _ => false
  end.

(** [DataCallback]: what a session's [data_callback_] may hold.
    [data_server] is the lambda the server installs, which runs
    [KCPServer::on_connection_data]; [data_user u] is a callback supplied
    by the application, observed through the trace only. *)
Inductive DataCallback := data_server | data_user (u : nat).

(** [CloseCallback]: [close_server] is the lambda the server installs,
    which runs [KCPServer::on_connection_close]; [close_user u] is an
    application callback. *)
Inductive CloseCallback := close_server | close_user (u : nat).

(** [NewConnectionCallback]: the application's new-session handler.  As
    in examples/server_main.cpp it may replace the callbacks of the
    session it is given. *)
Record NewConnectionCallback := {
  nc_set_data : option DataCallback;
  nc_set_close : option CloseCallback
}.

Inductive Event :=
| EvNewConnection (conv : Z)
| EvData (cb : DataCallback) (conv : Z) (data : list Byte.byte)
| EvClose (cb : CloseCallback) (conv : Z)
| EvUdpSend (addr : sockaddr) (buf : list Byte.byte) (len : Z)
| EvKcpInput (conv : Z) (data : list Byte.byte) (len : Z)
| EvKcpSend (conv : Z) (data : list Byte.byte) (len : Z)
| EvKcpUpdate (conv : Z) (current : Z)
| EvStateChange (conv : Z) (st : State)
| EvWarnOversize (conv : Z) (len : Z).

Definition trace := list Event.

(** ** The external collaborators *)

(** The ikcp engine as the session uses it.  [ikcp_recv] gives [None]
    where the C function returns a negative length.  [ikcp_update] also
    gives the datagrams the engine hands to its output callback while it
    flushes.  [rcv_pending] bounds the messages still to be received:
    the engine's receive queue is finite, and sending does not fill it. *)
Class Engine := {
  ikcpcb : Type;
  ikcp_create : Z -> ikcpcb;
  ikcp_nodelay : ikcpcb -> Z -> Z -> Z -> Z -> ikcpcb;
  ikcp_wndsize : ikcpcb -> Z -> Z -> ikcpcb;
  ikcp_setmtu : ikcpcb -> Z -> ikcpcb;
  ikcp_input : ikcpcb -> list Byte.byte -> Z -> Z * ikcpcb;
  ikcp_send : ikcpcb -> list Byte.byte -> Z -> Z * ikcpcb;
  ikcp_update : ikcpcb -> Z -> ikcpcb * list (list Byte.byte);
  ikcp_recv : ikcpcb -> option (list Byte.byte * ikcpcb);
  ikcp_waitsnd : ikcpcb -> Z;
  rcv_pending : ikcpcb -> nat;
  ikcp_recv_pending : forall k msg k',
    ikcp_recv k = Some (msg, k') -> (rcv_pending k' < rcv_pending k)%nat;
  ikcp_send_pending : forall k data len,
    (rcv_pending (snd (ikcp_send k data len)) <= rcv_pending k)%nat
}.

(** What the code asks of the platform: the n-th reading of
    [std::chrono::steady_clock] in milliseconds, the result of
    [uv_udp_send] for a destination and a buffer, and libuv's
    [UV_UDP_PARTIAL] flag bit. *)
Class Platform := {
  steady_clock_ms : nat -> Z;
  uv_udp_send : sockaddr -> list Byte.byte -> Z -> Z;
  UV_UDP_PARTIAL : Z
}.

(** Results of code that can leave defined behaviour (a dangling
    pointer, an invalidated iterator, a copy that reads past its source
    object) or whose loop is bounded here by fuel. *)
Inductive outcome (A : Type) :=
| Done (a : A)
| Undefined
| OutOfFuel.
Arguments Done {A} a.
Arguments Undefined {A}.
Arguments OutOfFuel {A}.

Definition obind {A B} (o : outcome A) (f : A -> outcome B) : outcome B :=
  match o with
  | Done a => f a
  | Undefined => Undefined
  | OutOfFuel => OutOfFuel
  end.

#[global] Instance outcome_bind : MBind outcome :=
  fun A B f o => obind o f.
#[global] Instance outcome_ret : MRet outcome := fun A a => Done a.

(** ** KCPConnection *)

Section Connection.
Context {E : Engine} {P : Platform}.

Record KCPConnection := {
  kcp_ : option ikcpcb;
  conv_ : Z;
  udp_handle_ : option nat;
  addr_ : sockaddr;
  state_ : State;
  last_active_time_ : Z;
  data_callback_ : option DataCallback;
  close_callback_ : option CloseCallback
}.

Definition set_kcp (c : KCPConnection) (k : option ikcpcb) : KCPConnection :=
  {| kcp_ := k; conv_ := conv_ c; udp_handle_ := udp_handle_ c;
     addr_ := addr_ c; state_ := state_ c;
     last_active_time_ := last_active_time_ c;
     data_callback_ := data_callback_ c;
     close_callback_ := close_callback_ c |}.

Definition set_state (c : KCPConnection) (st : State) : KCPConnection :=
  {| kcp_ := kcp_ c; conv_ := conv_ c; udp_handle_ := udp_handle_ c;
     addr_ := addr_ c; state_ := st;
     last_active_time_ := last_active_time_ c;
     data_callback_ := data_callback_ c;
     close_callback_ := close_callback_ c |}.

Definition update_active_time (c : KCPConnection) (current : Z)
  : KCPConnection :=
  {| kcp_ := kcp_ c; conv_ := conv_ c; udp_handle_ := udp_handle_ c;
     addr_ := addr_ c; state_ := state_ c;
     last_active_time_ := current;
     data_callback_ := data_callback_ c;
     close_callback_ := close_callback_ c |}.

Definition set_data_callback (c : KCPConnection) (cb : option DataCallback)
  : KCPConnection :=
  {| kcp_ := kcp_ c; conv_ := conv_ c; udp_handle_ := udp_handle_ c;
     addr_ := addr_ c; state_ := state_ c;
     last_active_time_ := last_active_time_ c;
     data_callback_ := cb;
     close_callback_ := close_callback_ c |}.

Definition set_close_callback (c : KCPConnection) (cb : option CloseCallback)
  : KCPConnection :=
  {| kcp_ := kcp_ c; conv_ := conv_ c; udp_handle_ := udp_handle_ c;
     addr_ := addr_ c; state_ := state_ c;
     last_active_time_ := last_active_time_ c;
     data_callback_ := data_callback_ c;
     close_callback_ := cb |}.

(** The constructor: state CONNECTING, last active 0, a fresh engine. *)
Definition new_KCPConnection (conv : Z) (udp_handle : option nat)
    (addr : sockaddr) : KCPConnection :=
  {| kcp_ := Some (ikcp_create conv); conv_ := conv;
     udp_handle_ := udp_handle; addr_ := addr; state_ := CONNECTING;
     last_active_time_ := 0;
     data_callback_ := None; close_callback_ := None |}.

(** The constructor as it reads its argument: it copies
    [sizeof(struct sockaddr_storage)] bytes from [addr] (the [memcpy]
    of kcp_connection.cpp:14), whatever object [addr] points to.
    [extent] is the number of bytes that can be read at [addr]; a
    shorter object makes the copy read past it.  [new_KCPConnection]
    above is the constructor on an address object of full size, which
    is what the sender address libuv passes to the server is taken to
    be. *)
Definition new_KCPConnection_from (extent : Z) (conv : Z)
    (udp_handle : option nat) (addr : sockaddr) : outcome KCPConnection :=
  if extent <? sizeof_sockaddr_storage then Undefined
  else Done (new_KCPConnection conv udp_handle addr).

(** [init_kcp] configures the engine (it uses [kcp_] unchecked). *)
Definition init_kcp (c : KCPConnection)
    (nodelay interval resend nc sndwnd rcvwnd mtu : Z) : KCPConnection :=
  set_kcp c
    ((fun k =>
        ikcp_setmtu
          (ikcp_wndsize (ikcp_nodelay k nodelay interval resend nc)
             sndwnd rcvwnd) mtu) <$> kcp_ c).

Definition get_waitsnd (c : KCPConnection) : Z :=
  match kcp_ c with
  | None => 0
  | Some k => ikcp_waitsnd k
  end.

(** [output]: one [uv_udp_send] of the whole buffer to the peer. *)
Definition output (c : KCPConnection) (buf : list Byte.byte) (len : Z)
  : Z * trace :=
  match udp_handle_ c with
  | None => (-1, [])
  | Some _ =>
      let ret := uv_udp_send (addr_ c) buf len in
      (if ret <? 0 then ret else 0, [EvUdpSend (addr_ c) buf len])
  end.

Definition send (c : KCPConnection) (data : list Byte.byte) (len : Z)
  : Z * KCPConnection * trace :=
  match kcp_ c with
  | None => (-1, c, [])
  | Some k =>
      if negb (State_eqb (state_ c) CONNECTED) then (-1, c, [])
      else
        let '(ret, k') := ikcp_send k data len in
        (if ret <? 0 then ret else 0, set_kcp c (Some k'),
         [EvKcpSend (conv_ c) data len])
  end.

Definition send_udp_direct (c : KCPConnection) (data : list Byte.byte)
    (len : Z) : Z * trace :=
  match udp_handle_ c with
  | None => (-1, [])
  | Some _ =>
      if negb (State_eqb (state_ c) CONNECTED) then (-1, [])
      else
        let warn := if 1472 <? len then [EvWarnOversize (conv_ c) len]
                    else [] in
        let '(ret, tr) := output c data len in
        (if ret <? 0 then ret else 0, warn ++ tr)
  end.

Definition input (c : KCPConnection) (data : list Byte.byte) (len : Z)
  : Z * KCPConnection * trace :=
  match kcp_ c with
  | None => (-1, c, [])
  | Some k =>
      let '(ret, k') := ikcp_input k data len in
      (if ret <? 0 then ret else 0, set_kcp c (Some k'),
       [EvKcpInput (conv_ c) data len])
  end.

(** [update]: the engine's tick; the datagrams it flushes go through
    [udp_output] to [output]. *)
Definition update (c : KCPConnection) (current : Z) : KCPConnection * trace :=
  match kcp_ c with
  | None => (c, [])
  | Some k =>
      let '(k', outs) := ikcp_update k current in
      let c' := set_kcp c (Some k') in
      (c', EvKcpUpdate (conv_ c) current
           :: flat_map (fun buf => snd (output c' buf (Z.of_nat (length buf))))
                outs)
  end.

(** The data callback as [recv] invokes it.  The server's adapter runs
    [on_connection_data], which echoes through [send]. *)
Definition run_data_callback (c : KCPConnection) (msg : list Byte.byte)
  : KCPConnection * trace :=
  match data_callback_ c with
  | None => (c, [])
  | Some data_server =>
      let '(_, c', tr) := send c msg (Z.of_nat (length msg)) in
      (c', EvData data_server (conv_ c) msg :: tr)
  | Some (data_user u) => (c, [EvData (data_user u) (conv_ c) msg])
  end.

(** The [while (true)] of [recv]: one message per turn until the engine
    has none.  The loop uses [kcp_] unchecked. *)
Fixpoint recv_loop (fuel : nat) (c : KCPConnection) (has_data : bool)
  : outcome (bool * KCPConnection * trace) :=
  match kcp_ c with
  | None => Undefined
  | Some k =>
      match ikcp_recv k with
      | None => Done (has_data, c, [])
      | Some (msg, k') =>
          match fuel with
          | O => OutOfFuel
          | S fuel' =>
              let '(c1, tr1) := run_data_callback (set_kcp c (Some k')) msg in
              '(r, c2, tr2) ← recv_loop fuel' c1 true;
              Done (r, c2, tr1 ++ tr2)
          end
      end
  end.

Definition recv (c : KCPConnection) : outcome (bool * KCPConnection * trace) :=
  match kcp_ c with
  | None => Done (false, c, [])
  | Some k => recv_loop (rcv_pending k) c false
  end.

Definition is_timeout (c : KCPConnection) (current timeout : Z) : bool :=
  timeout <? u32 (current - last_active_time_ c).

(** [close].  The trace has the two logged state changes and the call of
    the close callback; what the callback does to its owner is the
    owner's part ([run_close_callbacks] below).  The send queue is read
    ([get_waitsnd]) for the log only: both branches go on to
    DISCONNECTED. *)
Definition close (c : KCPConnection) : KCPConnection * trace :=
  if State_eqb (state_ c) DISCONNECTED then (c, [])
  else
    let '(c1, tr1) :=
      if State_eqb (state_ c) CONNECTING || State_eqb (state_ c) CONNECTED
      then (set_state c DISCONNECTING,
            [EvStateChange (conv_ c) DISCONNECTING])
      else (c, []) in
    let c2 := set_state c1 DISCONNECTED in
    (c2, tr1 ++ EvStateChange (conv_ c) DISCONNECTED
             :: match close_callback_ c2 with
                | Some cb => [EvClose cb (conv_ c)]
                | None => []
                end).

End Connection.

(** The seven engine tunables both multiplexers keep and hand to
    [init_kcp]. *)
Record KcpConfig := {
  kcp_nodelay_ : Z;
  kcp_interval_ : Z;
  kcp_resend_ : Z;
  kcp_nc_ : Z;
  kcp_sndwnd_ : Z;
  kcp_rcvwnd_ : Z;
  kcp_mtu_ : Z
}.

Definition default_config : KcpConfig :=
  {| kcp_nodelay_ := 1; kcp_interval_ := 10; kcp_resend_ := 2; kcp_nc_ := 1;
     kcp_sndwnd_ := 128; kcp_rcvwnd_ := 128; kcp_mtu_ := 1400 |}.

(** The results libuv gives to the calls of one [bind_and_listen] or
    [connect]: [uv_ip4_addr], [uv_udp_bind], [uv_udp_recv_start] and
    [uv_timer_start], each negative on failure. *)
Record uv_results := {
  r_ip4_addr : Z;
  r_bind : Z;
  r_recv_start : Z;
  r_timer_start : Z
}.

(** ** KCPServer *)

Module Server.
Section Server.
Context {E : Engine} {P : Platform}.

(** [connections_] is the [std::map] from conv to session; a pointer to
    a session is its key.  [timer_active_], [recv_active_] and
    [loop_stopped_] stand for the libuv timer, the receive watcher and
    [uv_stop]; [clock_reads_] counts the readings of the clock taken. *)
Record KCPServer := {
  running_ : bool;
  timer_active_ : bool;
  recv_active_ : bool;
  loop_stopped_ : bool;
  timeout_ : Z;
  config_ : KcpConfig;
  connections_ : gmap Z KCPConnection;
  new_connection_callback_ : option NewConnectionCallback;
  clock_reads_ : nat
}.

Definition set_connections (s : KCPServer) (m : gmap Z KCPConnection)
  : KCPServer :=
  {| running_ := running_ s; timer_active_ := timer_active_ s;
     recv_active_ := recv_active_ s; loop_stopped_ := loop_stopped_ s;
     timeout_ := timeout_ s; config_ := config_ s;
     connections_ := m;
     new_connection_callback_ := new_connection_callback_ s;
     clock_reads_ := clock_reads_ s |}.

(** The constructor: not running, timeout 30000 ms, the default
    tunables, no session. *)
Definition new_KCPServer : KCPServer :=
  {| running_ := false; timer_active_ := false; recv_active_ := false;
     loop_stopped_ := false; timeout_ := 30000; config_ := default_config;
     connections_ := ∅; new_connection_callback_ := None;
     clock_reads_ := 0 |}.

Definition get_current_ms (s : KCPServer) : Z * KCPServer :=
  (u32 (steady_clock_ms (clock_reads_ s)),
   {| running_ := running_ s; timer_active_ := timer_active_ s;
      recv_active_ := recv_active_ s; loop_stopped_ := loop_stopped_ s;
      timeout_ := timeout_ s; config_ := config_ s;
      connections_ := connections_ s;
      new_connection_callback_ := new_connection_callback_ s;
      clock_reads_ := S (clock_reads_ s) |}).

Definition stop (s : KCPServer) : KCPServer * trace :=
  if negb (running_ s) then (s, [])
  else
    ({| running_ := false; timer_active_ := false; recv_active_ := false;
        loop_stopped_ := true;
        timeout_ := timeout_ s; config_ := config_ s;
        connections_ := connections_ s;
        new_connection_callback_ := new_connection_callback_ s;
        clock_reads_ := clock_reads_ s |}, []).

(** The destructor: [stop()], then [connections_.clear()], which drops
    the sessions (their destructors release the engines). *)
Definition destroy (s : KCPServer) : KCPServer * trace :=
  let '(s1, tr) := stop s in
  (set_connections s1 ∅, tr).

(** The application's new-session handler run on the stored session. *)
Definition run_new_connection_callback (cb : NewConnectionCallback)
    (c : KCPConnection) : KCPConnection :=
  let c1 := match nc_set_data cb with
            | Some d => set_data_callback c (Some d)
            | None => c
            end in
  match nc_set_close cb with
  | Some f => set_close_callback c1 (Some f)
  | None => c1
  end.

(** [find_or_create_connection]; the session it returns is the one
    stored under [conv] in the result. *)
Definition find_or_create_connection (s : KCPServer) (conv : Z)
    (addr : sockaddr) : KCPServer * trace :=
  match connections_ s !! conv with
  | Some _ => (s, [])
  | None =>
      let conn := new_KCPConnection conv (Some 0%nat) addr in
      let conn := init_kcp conn (kcp_nodelay_ (config_ s))
                    (kcp_interval_ (config_ s)) (kcp_resend_ (config_ s))
                    (kcp_nc_ (config_ s)) (kcp_sndwnd_ (config_ s))
                    (kcp_rcvwnd_ (config_ s)) (kcp_mtu_ (config_ s)) in
      let conn := set_state conn CONNECTED in
      let '(now, s1) := get_current_ms s in
      let conn := update_active_time conn now in
      let conn := set_data_callback conn (Some data_server) in
      let conn := set_close_callback conn (Some close_server) in
      let s2 := set_connections s1 (<[conv := conn]> (connections_ s1)) in
      match new_connection_callback_ s2 with
      | None => (s2, [])
      | Some cb =>
          (set_connections s2
             (<[conv := run_new_connection_callback cb conn]>
                (connections_ s2)),
           [EvNewConnection conv])
      end
  end.

Definition remove_connection (s : KCPServer) (conv : Z) : KCPServer :=
  match connections_ s !! conv with
  | Some _ => set_connections s (delete conv (connections_ s))
  | None => s
  end.

(** What the close callbacks fired in [tr] do to the server: the
    server's own adapter runs [on_connection_close], that is
    [remove_connection]; application callbacks leave the table alone. *)
Definition run_close_callbacks (tr : trace) (s : KCPServer) : KCPServer :=
  foldl (fun s e =>
           match e with
           | EvClose close_server conv => remove_connection s conv
           | _ => s
           end) s tr.

(** [handle_udp_data].  [find_or_create_connection] never gives a null
    session; the session it returns is then used through its pointer,
    here its key. *)
Definition handle_udp_data (s : KCPServer) (data : list Byte.byte) (len : Z)
    (addr : sockaddr) : outcome (KCPServer * trace) :=
  if len <? 24 then Done (s, [])
  else
    let conv := read_u32 data in
    let '(s1, tr1) := find_or_create_connection s conv addr in
    let '(now, s2) := get_current_ms s1 in
    match connections_ s2 !! conv with
    | None => Undefined
    | Some conn =>
        let conn := update_active_time conn now in
        let '(_, conn, tr2) := input conn data len in
        '(_, conn, tr3) ← recv conn;
        Done (set_connections s2 (<[conv := conn]> (connections_ s2)),
              tr1 ++ tr2 ++ tr3)
    end.

Definition on_udp_recv (s : KCPServer) (nread : Z) (buf : list Byte.byte)
    (addr : option sockaddr) (flags : Z) : outcome (KCPServer * trace) :=
  if nread <? 0 then Done (s, [])
  else if nread =? 0 then Done (s, [])
  else
    match addr with
    | None => Done (s, [])
    | Some a =>
        if negb (Z.land flags UV_UDP_PARTIAL =? 0) then Done (s, [])
        else handle_udp_data s buf nread a
    end.

(** Iterators of [connections_]: a node of the ordered map is named by
    its key, [None] is [end()]. *)
Definition min_key (ks : list Z) : option Z :=
  foldr (fun k acc => Some (match acc with
                            | None => k
                            | Some a => Z.min k a
                            end)) None ks.

Definition begin_ (m : gmap Z KCPConnection) : option Z :=
  min_key (map_to_list m).*1.

Definition next_ (k : Z) (m : gmap Z KCPConnection) : option Z :=
  min_key (filter (fun k' => k < k') (map_to_list m).*1).

(** [connections_.erase(it)]: defined only while the node of [it] is in
    the map; gives the map without it and the iterator after it. *)
Definition erase_it (k : Z) (m : gmap Z KCPConnection)
  : outcome (gmap Z KCPConnection * option Z) :=
  match m !! k with
  | None => Undefined
  | Some _ => Done (delete k m, next_ k m)
  end.

(** The [for] loop of [update_connections] from iterator [it] on; each
    turn visits one session, so the number of sessions is fuel enough.
    A session closed through the server's adapter is erased (and
    destroyed) while [close()] still runs; the loss of defined behaviour
    is reported at the erase that follows. *)
Fixpoint sweep_loop (fuel : nat) (current : Z) (it : option Z)
    (s : KCPServer) : outcome (KCPServer * trace) :=
  match it with
  | None => Done (s, [])
  | Some k =>
      match fuel with
      | O => OutOfFuel
      | S fuel' =>
          match connections_ s !! k with
          | None => Undefined
          | Some conn =>
              if is_timeout conn current (timeout_ s) then
                let '(conn', tr) := close conn in
                let s1 := run_close_callbacks tr
                            (set_connections s
                               (<[k := conn']> (connections_ s))) in
                '(m, nxt) ← erase_it k (connections_ s1);
                '(s2, tr2) ← sweep_loop fuel' current nxt
                                (set_connections s1 m);
                Done (s2, tr ++ tr2)
              else
                let '(c1, tr1) := update conn current in
                '(_, c2, tr2) ← recv c1;
                let s1 := set_connections s
                            (<[k := c2]> (connections_ s)) in
                '(s2, tr3) ← sweep_loop fuel' current
                                (next_ k (connections_ s1)) s1;
                Done (s2, tr1 ++ tr2 ++ tr3)
          end
      end
  end.

Definition update_connections (s : KCPServer)
  : outcome (KCPServer * trace) :=
  let '(current, s1) := get_current_ms s in
  sweep_loop (size (connections_ s1)) current (begin_ (connections_ s1)) s1.

Definition on_timer (s : KCPServer) : outcome (KCPServer * trace) :=
  update_connections s.

Definition set_new_connection_callback (s : KCPServer)
    (cb : option NewConnectionCallback) : KCPServer :=
  {| running_ := running_ s; timer_active_ := timer_active_ s;
     recv_active_ := recv_active_ s; loop_stopped_ := loop_stopped_ s;
     timeout_ := timeout_ s; config_ := config_ s;
     connections_ := connections_ s;
     new_connection_callback_ := cb;
     clock_reads_ := clock_reads_ s |}.

Definition set_timeout (s : KCPServer) (timeout : Z) : KCPServer :=
  {| running_ := running_ s; timer_active_ := timer_active_ s;
     recv_active_ := recv_active_ s; loop_stopped_ := loop_stopped_ s;
     timeout_ := timeout; config_ := config_ s;
     connections_ := connections_ s;
     new_connection_callback_ := new_connection_callback_ s;
     clock_reads_ := clock_reads_ s |}.

Definition set_kcp_config (s : KCPServer)
    (nodelay interval resend nc sndwnd rcvwnd mtu : Z) : KCPServer :=
  {| running_ := running_ s; timer_active_ := timer_active_ s;
     recv_active_ := recv_active_ s; loop_stopped_ := loop_stopped_ s;
     timeout_ := timeout_ s;
     config_ := {| kcp_nodelay_ := nodelay; kcp_interval_ := interval;
                   kcp_resend_ := resend; kcp_nc_ := nc;
                   kcp_sndwnd_ := sndwnd; kcp_rcvwnd_ := rcvwnd;
                   kcp_mtu_ := mtu |};
     connections_ := connections_ s;
     new_connection_callback_ := new_connection_callback_ s;
     clock_reads_ := clock_reads_ s |}.

(** [bind_and_listen]: the four libuv calls in order, each failure
    returned at once with what the earlier calls started left as it
    is; [running_] is set after the last one only. *)
Definition bind_and_listen (s : KCPServer) (uv : uv_results)
  : Z * KCPServer :=
  if r_ip4_addr uv <? 0 then (r_ip4_addr uv, s)
  else if r_bind uv <? 0 then (r_bind uv, s)
  else if r_recv_start uv <? 0 then (r_recv_start uv, s)
  else
    let s1 :=
      {| running_ := running_ s; timer_active_ := timer_active_ s;
         recv_active_ := true; loop_stopped_ := loop_stopped_ s;
         timeout_ := timeout_ s; config_ := config_ s;
         connections_ := connections_ s;
         new_connection_callback_ := new_connection_callback_ s;
         clock_reads_ := clock_reads_ s |} in
    if r_timer_start uv <? 0 then (r_timer_start uv, s1)
    else
      (0, {| running_ := true; timer_active_ := true;
             recv_active_ := true; loop_stopped_ := loop_stopped_ s;
             timeout_ := timeout_ s; config_ := config_ s;
             connections_ := connections_ s;
             new_connection_callback_ := new_connection_callback_ s;
             clock_reads_ := clock_reads_ s |}).

(** The application calls [close()] on the session it holds a pointer
    to, the one stored under [k]; the close callback then acts on the
    table.  After the callback returns, [close()] reads [conv_] of its
    session for the last log line (kcp_connection.cpp:364): when the
    callback erased the session from the table, which destroys it, that
    read is undefined. *)
Definition close_session (s : KCPServer) (k : Z)
  : outcome (KCPServer * trace) :=
  match connections_ s !! k with
  | None => Undefined
  | Some conn =>
      let '(conn', tr) := close conn in
      let s1 := run_close_callbacks tr
                  (set_connections s (<[k := conn']> (connections_ s))) in
      match connections_ s1 !! k with
      | None => Undefined
      | Some _ => Done (s1, tr)
      end
  end.

End Server.
End Server.

(** ** KCPClient *)

Module Client.
Section Client.
Context {E : Engine} {P : Platform}.

Record KCPClient := {
  running_ : bool;
  timer_active_ : bool;
  recv_active_ : bool;
  loop_stopped_ : bool;
  config_ : KcpConfig;
  connection_ : option KCPConnection;
  clock_reads_ : nat
}.

Definition new_KCPClient : KCPClient :=
  {| running_ := false; timer_active_ := false; recv_active_ := false;
     loop_stopped_ := false; config_ := default_config;
     connection_ := None; clock_reads_ := 0 |}.

Definition set_connection (cl : KCPClient) (c : option KCPConnection)
  : KCPClient :=
  {| running_ := running_ cl; timer_active_ := timer_active_ cl;
     recv_active_ := recv_active_ cl; loop_stopped_ := loop_stopped_ cl;
     config_ := config_ cl; connection_ := c;
     clock_reads_ := clock_reads_ cl |}.

Definition get_current_ms (cl : KCPClient) : Z * KCPClient :=
  (u32 (steady_clock_ms (clock_reads_ cl)),
   {| running_ := running_ cl; timer_active_ := timer_active_ cl;
      recv_active_ := recv_active_ cl; loop_stopped_ := loop_stopped_ cl;
      config_ := config_ cl; connection_ := connection_ cl;
      clock_reads_ := S (clock_reads_ cl) |}).

(** [disconnect]: stops the timer and reception, closes the session and
    drops it. *)
Definition disconnect (cl : KCPClient) : KCPClient * trace :=
  match connection_ cl with
  | None => (cl, [])
  | Some c =>
      let '(_, tr) := close c in
      ({| running_ := false; timer_active_ := false; recv_active_ := false;
          loop_stopped_ := loop_stopped_ cl; config_ := config_ cl;
          connection_ := None; clock_reads_ := clock_reads_ cl |}, tr)
  end.

Definition stop (cl : KCPClient) : KCPClient * trace :=
  if negb (running_ cl) then (cl, [])
  else
    let '(cl1, tr) := disconnect cl in
    ({| running_ := running_ cl1; timer_active_ := timer_active_ cl1;
        recv_active_ := recv_active_ cl1; loop_stopped_ := true;
        config_ := config_ cl1; connection_ := connection_ cl1;
        clock_reads_ := clock_reads_ cl1 |}, tr).

Definition handle_udp_data (cl : KCPClient) (data : list Byte.byte)
    (len : Z) : outcome (KCPClient * trace) :=
  match connection_ cl with
  | None => Done (cl, [])
  | Some conn =>
      let '(now, cl1) := get_current_ms cl in
      let conn := update_active_time conn now in
      let '(_, conn, tr1) := input conn data len in
      '(_, conn, tr2) ← recv conn;
      Done (set_connection cl1 (Some conn), tr1 ++ tr2)
  end.

Definition on_udp_recv (cl : KCPClient) (nread : Z) (buf : list Byte.byte)
    (addr : option sockaddr) (flags : Z) : outcome (KCPClient * trace) :=
  if nread <? 0 then Done (cl, [])
  else if (nread =? 0) || negb (bool_decide (is_Some addr))
  then Done (cl, [])
  else if negb (Z.land flags UV_UDP_PARTIAL =? 0) then Done (cl, [])
  else handle_udp_data cl buf nread.

Definition update_connection (cl : KCPClient)
  : outcome (KCPClient * trace) :=
  match connection_ cl with
  | None => Done (cl, [])
  | Some conn =>
      let '(current, cl1) := get_current_ms cl in
      let '(conn, tr1) := update conn current in
      '(_, conn, tr2) ← recv conn;
      Done (set_connection cl1 (Some conn), tr1 ++ tr2)
  end.

(** [connect]: refused while a connection exists; then the libuv calls
    in order, each failure returned at once.  The session is created
    (CONNECTED, stamped with the clock) before the timer is started, so
    a failing [uv_timer_start] leaves it in place with [running_]
    false.  The constructor is given the address of the local
    [struct sockaddr_in server_addr]; [extent] is the number of bytes
    that can be read there. *)
Definition connect_from (extent : Z) (cl : KCPClient) (server_addr : sockaddr)
    (conv : Z) (uv : uv_results) : outcome (Z * KCPClient) :=
  match connection_ cl with
  | Some _ => Done (-1, cl)
  | None =>
      if r_ip4_addr uv <? 0 then Done (r_ip4_addr uv, cl)
      else if r_bind uv <? 0 then Done (r_bind uv, cl)
      else if r_recv_start uv <? 0 then Done (r_recv_start uv, cl)
      else
        let cl1 :=
          {| running_ := running_ cl; timer_active_ := timer_active_ cl;
             recv_active_ := true; loop_stopped_ := loop_stopped_ cl;
             config_ := config_ cl; connection_ := connection_ cl;
             clock_reads_ := clock_reads_ cl |} in
        conn ← new_KCPConnection_from extent conv (Some 0%nat) server_addr;
        let conn := init_kcp conn (kcp_nodelay_ (config_ cl))
                      (kcp_interval_ (config_ cl)) (kcp_resend_ (config_ cl))
                      (kcp_nc_ (config_ cl)) (kcp_sndwnd_ (config_ cl))
                      (kcp_rcvwnd_ (config_ cl)) (kcp_mtu_ (config_ cl)) in
        let conn := set_state conn CONNECTED in
        let '(now, cl2) := get_current_ms cl1 in
        let conn := update_active_time conn now in
        let cl3 := set_connection cl2 (Some conn) in
        if r_timer_start uv <? 0 then Done (r_timer_start uv, cl3)
        else
          Done (0, {| running_ := true; timer_active_ := true;
                      recv_active_ := recv_active_ cl3;
                      loop_stopped_ := loop_stopped_ cl3;
                      config_ := config_ cl3; connection_ := connection_ cl3;
                      clock_reads_ := clock_reads_ cl3 |})
  end.

(** [KCPClient::connect] as the language defines it: the object at
    [&server_addr] is a [struct sockaddr_in], 16 bytes, of which the
    constructor reads 128. *)
Definition connect (cl : KCPClient) (server_addr : sockaddr) (conv : Z)
    (uv : uv_results) : outcome (Z * KCPClient) :=
  connect_from sizeof_sockaddr_in cl server_addr conv uv.

(** [KCPClient::send]. *)
Definition send (cl : KCPClient) (data : list Byte.byte) (len : Z)
  : Z * KCPClient * trace :=
  match connection_ cl with
  | None => (-1, cl, [])
  | Some c =>
      let '(ret, c', tr) := send c data len in
      (ret, set_connection cl (Some c'), tr)
  end.

(** [KCPClient::set_data_callback] and [set_close_callback]: forwarded
    to the connection when there is one, dropped otherwise. *)
Definition set_data_callback (cl : KCPClient)
    (cb : option DataCallback) : KCPClient :=
  match connection_ cl with
  | Some c => set_connection cl (Some (set_data_callback c cb))
  | None => cl
  end.

Definition set_close_callback (cl : KCPClient)
    (cb : option CloseCallback) : KCPClient :=
  match connection_ cl with
  | Some c => set_connection cl (Some (set_close_callback c cb))
  | None => cl
  end.

Definition set_kcp_config (cl : KCPClient)
    (nodelay interval resend nc sndwnd rcvwnd mtu : Z) : KCPClient :=
  {| running_ := running_ cl; timer_active_ := timer_active_ cl;
     recv_active_ := recv_active_ cl; loop_stopped_ := loop_stopped_ cl;
     config_ := {| kcp_nodelay_ := nodelay; kcp_interval_ := interval;
                   kcp_resend_ := resend; kcp_nc_ := nc;
                   kcp_sndwnd_ := sndwnd; kcp_rcvwnd_ := rcvwnd;
                   kcp_mtu_ := mtu |};
     connection_ := connection_ cl;
     clock_reads_ := clock_reads_ cl |}.

Definition is_connected (cl : KCPClient) : bool :=
  match connection_ cl with
  | Some c => State_eqb (state_ c) CONNECTED
  | None => false
  end.

Definition on_timer (cl : KCPClient) : outcome (KCPClient * trace) :=
  update_connection cl.

End Client.
End Client.

(** ** A small engine and platform for concrete evaluations

    [simple_engine] is an in-memory instance of [Engine]: a datagram is
    a 24-byte header that starts with the conv, followed by one message;
    nothing is lost or reordered.  Like ikcp it rejects a datagram
    shorter than its header or carrying another conv, queues sends until
    the next update, and records the time of the last update. *)

Record simple_kcp := {
  sk_conv : Z;
  sk_current : Z;
  sk_mtu : Z;
  sk_rcv_queue : list (list Byte.byte);
  sk_snd_queue : list (list Byte.byte)
}.

Definition byte_of_Z (z : Z) : Byte.byte :=
  match Byte.of_N (Z.to_N (z mod 256)) with
  | Some b => b
  | None => Byte.x00
  end.

Definition simple_header (conv : Z) : list Byte.byte :=
  [byte_of_Z conv; byte_of_Z (conv / 256); byte_of_Z (conv / 65536);
   byte_of_Z (conv / 16777216)] ++ repeat Byte.x00 20.

Definition simple_input (k : simple_kcp) (data : list Byte.byte) (len : Z)
  : Z * simple_kcp :=
  if (len <? 24) || negb (read_u32 data =? sk_conv k) then (-1, k)
  else (0, {| sk_conv := sk_conv k; sk_current := sk_current k;
              sk_mtu := sk_mtu k;
              sk_rcv_queue :=
                sk_rcv_queue k ++ [skipn 24 (firstn (Z.to_nat len) data)];
              sk_snd_queue := sk_snd_queue k |}).

Definition simple_send (k : simple_kcp) (data : list Byte.byte) (len : Z)
  : Z * simple_kcp :=
  if len <? 0 then (-1, k)
  else (0, {| sk_conv := sk_conv k; sk_current := sk_current k;
              sk_mtu := sk_mtu k; sk_rcv_queue := sk_rcv_queue k;
              sk_snd_queue :=
                sk_snd_queue k ++ [firstn (Z.to_nat len) data] |}).

Definition simple_update (k : simple_kcp) (current : Z)
  : simple_kcp * list (list Byte.byte) :=
  ({| sk_conv := sk_conv k; sk_current := current; sk_mtu := sk_mtu k;
      sk_rcv_queue := sk_rcv_queue k; sk_snd_queue := [] |},
   map (fun msg => simple_header (sk_conv k) ++ msg) (sk_snd_queue k)).

Definition simple_recv (k : simple_kcp)
  : option (list Byte.byte * simple_kcp) :=
  match sk_rcv_queue k with
  | [] => None
  | msg :: q =>
      Some (msg, {| sk_conv := sk_conv k; sk_current := sk_current k;
                    sk_mtu := sk_mtu k; sk_rcv_queue := q;
                    sk_snd_queue := sk_snd_queue k |})
  end.

Lemma simple_recv_pending k msg k' :
  simple_recv k = Some (msg, k') ->
  (length (sk_rcv_queue k') < length (sk_rcv_queue k))%nat.
Proof.
  unfold simple_recv. destruct (sk_rcv_queue k) as [|m q] eqn:Hq; [done|].
  intros [= <- <-]. simpl. lia.
Defined.

Lemma simple_send_pending k data len :
  (length (sk_rcv_queue (snd (simple_send k data len)))
   <= length (sk_rcv_queue k))%nat.
Proof. unfold simple_send. destruct (len <? 0); simpl; lia. Defined.

#[local] Instance simple_engine : Engine := {|
  ikcpcb := simple_kcp;
  ikcp_create conv :=
    {| sk_conv := conv; sk_current := 0; sk_mtu := 1400;
       sk_rcv_queue := []; sk_snd_queue := [] |};
  ikcp_nodelay k _ _ _ _ := k;
  ikcp_wndsize k _ _ := k;
  ikcp_setmtu k mtu :=
    {| sk_conv := sk_conv k; sk_current := sk_current k; sk_mtu := mtu;
       sk_rcv_queue := sk_rcv_queue k; sk_snd_queue := sk_snd_queue k |};
  ikcp_input := simple_input;
  ikcp_send := simple_send;
  ikcp_update := simple_update;
  ikcp_recv := simple_recv;
  ikcp_waitsnd k := Z.of_nat (length (sk_snd_queue k));
  rcv_pending k := length (sk_rcv_queue k);
  ikcp_recv_pending := simple_recv_pending;
  ikcp_send_pending := simple_send_pending
|}.

(** A platform whose clock gives [readings] one after the other (and
    then stays at [last readings]), whose sends succeed, and with
    libuv's value of [UV_UDP_PARTIAL]. *)
Definition list_platform (readings : list Z) : Platform :=
  {| steady_clock_ms := fun n => nth n readings (List.last readings 0);
     uv_udp_send := fun _ _ _ => 0;
     UV_UDP_PARTIAL := 2 |}.

Definition peer1 : sockaddr := {| sin_addr := 2130706433; sin_port := 40000 |}.

(** A 24-byte datagram for conv [conv] with the message [msg]. *)
Definition datagram (conv : Z) (msg : list Byte.byte) : list Byte.byte :=
  simple_header conv ++ msg.

Definition hello : list Byte.byte := [Byte.x68; Byte.x69].


(** ** Observations on traces and repeated calls *)

(** Every session of the table is stored under its own conv. *)
Definition keys_are_convs {E : Engine} (s : Server.KCPServer) : Prop :=
  forall k c, Server.connections_ s !! k = Some c -> conv_ c = k.

(** The engine [init_kcp] leaves in a session created for [conv] under
    the tunables [cfg]. *)
Definition configured_engine {E : Engine} (cfg : KcpConfig) (conv : Z)
  : ikcpcb :=
  ikcp_setmtu
    (ikcp_wndsize
       (ikcp_nodelay (ikcp_create conv) (kcp_nodelay_ cfg)
          (kcp_interval_ cfg) (kcp_resend_ cfg) (kcp_nc_ cfg))
       (kcp_sndwnd_ cfg) (kcp_rcvwnd_ cfg))
    (kcp_mtu_ cfg).

Fixpoint count_events (p : Event -> bool) (tr : trace) : nat :=
  match tr with
  | [] => 0%nat
  | e :: tr' => ((if p e then 1 else 0) + count_events p tr')%nat
  end.

Definition is_close_call (e : Event) : bool :=
  match e with EvClose _ _ => true | _ => false end.

Definition is_new_connection (conv : Z) (e : Event) : bool :=
  match e with EvNewConnection c => c =? conv | _ => false end.

(** A session that the sweep at [now] closes through the server's own
    close adapter: timed out, not yet DISCONNECTED, adapter still set. *)
Definition erased_by_adapter {E : Engine} (timeout now : Z)
    (c : KCPConnection) : bool :=
  is_timeout c now timeout
  && negb (State_eqb (state_ c) DISCONNECTED)
  && match close_callback_ c with
     | Some close_server => true
     | _ => false
     end.

(** The entry [kc] of the table of [s] is timed out at the clock reading
    the next sweep of [s] takes. *)
Definition timed_out_at {E : Engine} {P : Platform} (s : Server.KCPServer)
    (kc : Z * KCPConnection) : Prop :=
  is_timeout (snd kc) (u32 (steady_clock_ms (Server.clock_reads_ s)))
    (Server.timeout_ s) = true.

#[global] Instance timed_out_at_dec {E : Engine} {P : Platform}
    (s : Server.KCPServer) (kc : Z * KCPConnection) :
  Decision (timed_out_at s kc) :=
  decide (is_timeout (snd kc) (u32 (steady_clock_ms (Server.clock_reads_ s)))
            (Server.timeout_ s) = true).

(** The keys of [X] the loop still has to visit from iterator [it]. *)
Definition pending (it : option Z) (X : gset Z) : gset Z :=
  match it with
  | None => ∅
  | Some j => filter (fun k => j <= k) X
  end.

(** What [recv] may emit for session [conv]: a delivery to its data
    callback, or the echo the server's adapter sends back. *)
Definition is_delivery_event (conv : Z) (e : Event) : bool :=
  match e with
  | EvData _ c _ => c =? conv
  | EvKcpSend c _ _ => c =? conv
  | _ => false
  end.

(** [s'] has the settings of [s]: everything but the table and the
    count of clock readings. *)
Definition same_settings {E : Engine} (s s' : Server.KCPServer) : Prop :=
  Server.running_ s' = Server.running_ s /\
  Server.timer_active_ s' = Server.timer_active_ s /\
  Server.recv_active_ s' = Server.recv_active_ s /\
  Server.loop_stopped_ s' = Server.loop_stopped_ s /\
  Server.timeout_ s' = Server.timeout_ s /\
  Server.config_ s' = Server.config_ s /\
  Server.new_connection_callback_ s' = Server.new_connection_callback_ s.

Definition is_update_for (conv : Z) (e : Event) : bool :=
  match e with EvKcpUpdate c _ => c =? conv | _ => false end.

(** What the server's data adapter emits for one delivered message on a
    CONNECTED session: the delivery, then the echo through [send]. *)
Definition echo_events (conv : Z) (msg : list Byte.byte) : trace :=
  [EvData data_server conv msg; EvKcpSend conv msg (Z.of_nat (length msg))].

(** A session as the server keeps it: stored under its conv, CONNECTED,
    with its engine and the server's UDP handle. *)
Definition session_ok {E : Engine} (k : Z) (c : KCPConnection) : Prop :=
  conv_ c = k /\ state_ c = CONNECTED /\ is_Some (kcp_ c)
  /\ is_Some (udp_handle_ c).

(** Every session of the table is as the server keeps it. *)
Definition table_ok {E : Engine} (s : Server.KCPServer) : Prop :=
  forall k c, Server.connections_ s !! k = Some c -> session_ok k c.

(** The calls that reach a server: from the application
    ([bind_and_listen], the setters, [stop]) and from libuv (a datagram,
    a timer tick). *)
Inductive server_call :=
| SrvBind (uv : uv_results)
| SrvSetTimeout (timeout : Z)
| SrvSetConfig (nodelay interval resend nc sndwnd rcvwnd mtu : Z)
| SrvSetCallback (cb : option NewConnectionCallback)
| SrvDatagram (nread : Z) (buf : list Byte.byte) (addr : option sockaddr)
    (flags : Z)
| SrvTimer
| SrvStop.

Definition server_step {E : Engine} {P : Platform} (s : Server.KCPServer)
    (call : server_call) : outcome (Server.KCPServer * trace) :=
  match call with
  | SrvBind uv => Done (snd (Server.bind_and_listen s uv), [])
  | SrvSetTimeout t => Done (Server.set_timeout s t, [])
  | SrvSetConfig nodelay interval resend nc sndwnd rcvwnd mtu =>
      Done (Server.set_kcp_config s nodelay interval resend nc sndwnd rcvwnd
              mtu, [])
  | SrvSetCallback cb => Done (Server.set_new_connection_callback s cb, [])
  | SrvDatagram nread buf addr flags => Server.on_udp_recv s nread buf addr flags
  | SrvTimer => Server.on_timer s
  | SrvStop => Done (Server.stop s)
  end.

Fixpoint server_run {E : Engine} {P : Platform} (s : Server.KCPServer)
    (calls : list server_call) : outcome (Server.KCPServer * trace) :=
  match calls with
  | [] => Done (s, [])
  | call :: rest =>
      '(s1, tr1) ← server_step s call;
      '(s2, tr2) ← server_run s1 rest;
      Done (s2, tr1 ++ tr2)
  end.

(** A client as its own calls keep it: a connection, when there is
    one, is CONNECTED with its engine and UDP handle; a running client
    has a connection, its timer and reception; without a connection
    neither timer nor reception is on. *)
Definition client_ok {E : Engine} (cl : Client.KCPClient) : Prop :=
  (forall c, Client.connection_ cl = Some c ->
             state_ c = CONNECTED /\ is_Some (kcp_ c)
             /\ is_Some (udp_handle_ c)) /\
  (Client.running_ cl = true ->
   is_Some (Client.connection_ cl) /\ Client.timer_active_ cl = true
   /\ Client.recv_active_ cl = true) /\
  (Client.connection_ cl = None ->
   Client.timer_active_ cl = false /\ Client.recv_active_ cl = false).

(** The calls that reach a client.  A [connect] comes with the number
    of bytes that can be read at its local server address (16 as the
    language has it, see [Client.connect]). *)
Inductive client_call :=
| CliConnect (extent : Z) (server_addr : sockaddr) (conv : Z)
    (uv : uv_results)
| CliSend (data : list Byte.byte) (len : Z)
| CliSetData (cb : option DataCallback)
| CliSetClose (cb : option CloseCallback)
| CliSetConfig (nodelay interval resend nc sndwnd rcvwnd mtu : Z)
| CliDatagram (nread : Z) (buf : list Byte.byte) (addr : option sockaddr)
    (flags : Z)
| CliTimer
| CliDisconnect
| CliStop.

Definition client_step {E : Engine} {P : Platform} (cl : Client.KCPClient)
    (call : client_call) : outcome (Client.KCPClient * trace) :=
  match call with
  | CliConnect extent a conv uv =>
      '(_, cl') ← Client.connect_from extent cl a conv uv;
      Done (cl', [])
  | CliSend data len =>
      let '(_, cl', tr) := Client.send cl data len in Done (cl', tr)
  | CliSetData cb => Done (Client.set_data_callback cl cb, [])
  | CliSetClose cb => Done (Client.set_close_callback cl cb, [])
  | CliSetConfig nodelay interval resend nc sndwnd rcvwnd mtu =>
      Done (Client.set_kcp_config cl nodelay interval resend nc sndwnd rcvwnd
              mtu, [])
  | CliDatagram nread buf addr flags => Client.on_udp_recv cl nread buf addr flags
  | CliTimer => Client.on_timer cl
  | CliDisconnect => Done (Client.disconnect cl)
  | CliStop => Done (Client.stop cl)
  end.

Fixpoint client_run {E : Engine} {P : Platform} (cl : Client.KCPClient)
    (calls : list client_call) : outcome (Client.KCPClient * trace) :=
  match calls with
  | [] => Done (cl, [])
  | call :: rest =>
      '(cl1, tr1) ← client_step cl call;
      '(cl2, tr2) ← client_run cl1 rest;
      Done (cl2, tr1 ++ tr2)
  end.

(** libuv results of a call in which every step succeeds. *)
Definition uv_ok : uv_results :=
  {| r_ip4_addr := 0; r_bind := 0; r_recv_start := 0; r_timer_start := 0 |}.

(** The same with [uv_timer_start] failing (-22, EINVAL). *)
Definition uv_timer_fails : uv_results :=
  {| r_ip4_addr := 0; r_bind := 0; r_recv_start := 0; r_timer_start := -22 |}.

(** The close callback called in [tr] was the server's adapter.  It
    runs [on_connection_close], which erases the session from
    [connections_]; once [find_or_create_connection] has returned, the
    table's [shared_ptr] is the session's only owner (the application
    is handed raw pointers), so the session is destroyed inside its own
    callback.  An application callback leaves the session alone. *)
Definition destroyed_by_callback (tr : trace) : bool :=
  existsb (fun e => match e with
                    | EvClose close_server _ => true
                    | _ => false
                    end) tr.

(** One [close()] through a pointer to the session.  After the callback
    returns, [close()] reads [conv_] for its last log line
    (kcp_connection.cpp:364): undefined when the callback destroyed the
    session. *)
Definition close_call {E : Engine} (c : KCPConnection)
  : outcome (KCPConnection * trace) :=
  let '(c1, tr1) := close c in
  if destroyed_by_callback tr1 then Undefined else Done (c1, tr1).

(** [close()] called [n] times in a row through one pointer. *)
Fixpoint close_times {E : Engine} (n : nat) (c : KCPConnection)
  : outcome (KCPConnection * trace) :=
  match n with
  | O => Done (c, [])
  | S n' =>
      '(c1, tr1) ← close_call c;
      '(c2, tr2) ← close_times n' c1;
      Done (c2, tr1 ++ tr2)
  end.

(** The messages a session pulls from engine [k] while the server's
    data adapter is on it: what [ikcp_recv] returns, call after call,
    each message put back into the engine by the echo ([ikcp_send])
    before the next call, until [ikcp_recv] has nothing; [k'] is the
    engine left. *)
Inductive echo_pulls {E : Engine}
  : ikcpcb -> list (list Byte.byte) -> ikcpcb -> Prop :=
| echo_pulls_done k :
    ikcp_recv k = None -> echo_pulls k [] k
| echo_pulls_next k msg k1 msgs k' :
    ikcp_recv k = Some (msg, k1) ->
    echo_pulls (snd (ikcp_send k1 msg (Z.of_nat (length msg)))) msgs k' ->
    echo_pulls k (msg :: msgs) k'.

(** A server-side session for conv 7 as the constructor leaves it, last
    active at [t0] and in state [st]. *)
Definition session7 (st : State) (t0 : Z) : KCPConnection :=
  update_active_time
    (set_state (new_KCPConnection 7 (Some 0%nat) peer1) st) t0.

(** The same session with the two adapters the server registers on the
    sessions it creates. *)
Definition server_session7 (st : State) (t0 : Z) : KCPConnection :=
  set_close_callback
    (set_data_callback (session7 st t0) (Some data_server))
    (Some close_server).

(** That session after [app_handler] below replaced its callbacks. *)
Definition app_session7 (st : State) (t0 : Z) : KCPConnection :=
  set_close_callback
    (set_data_callback (session7 st t0) (Some (data_user 1)))
    (Some (close_user 1)).

(** A server that is running with the table [m], timeout 30000 ms. *)
Definition running_server (m : gmap Z KCPConnection)
    (cb : option NewConnectionCallback) : Server.KCPServer :=
  {| Server.running_ := true; Server.timer_active_ := true;
     Server.recv_active_ := true; Server.loop_stopped_ := false;
     Server.timeout_ := 30000; Server.config_ := default_config;
     Server.connections_ := m; Server.new_connection_callback_ := cb;
     Server.clock_reads_ := 0 |}.

(** An application handler that installs its own two callbacks, as
    examples/server_main.cpp does. *)
Definition app_handler : NewConnectionCallback :=
  {| nc_set_data := Some (data_user 1); nc_set_close := Some (close_user 1) |}.

(** A client that is running with the connection [c]. *)
Definition connected_client (c : KCPConnection) : Client.KCPClient :=
  {| Client.running_ := true; Client.timer_active_ := true;
     Client.recv_active_ := true; Client.loop_stopped_ := false;
     Client.config_ := default_config; Client.connection_ := Some c;
     Client.clock_reads_ := 0 |}.

(** The platform of the runs below: the clock reads 1000, 1000, then
    40000 ms. *)
Definition clock : Platform := list_platform [1000; 1000; 40000].

Definition peer2 : sockaddr := {| sin_addr := 167772161; sin_port := 9 |}.

(** The server-side session for conv 7 after it was given the datagram
    that carries [hello]: its engine holds that one message. *)
Definition fed_session7 : KCPConnection :=
  snd (fst (input (server_session7 CONNECTED 1000) (datagram 7 hello) 26)).

(** A client session for conv 7 with an application close callback. *)
Definition client_session7 : KCPConnection :=
  set_close_callback (session7 CONNECTED 0) (Some (close_user 2)).

(** A payload of 2000 bytes, above the 1472 of [send_udp_direct]. *)
Definition big_payload : list Byte.byte := repeat Byte.x41 2000.

(** * Properties *)

(** ** The session *)

Section ConnectionFacts.
Context {E : Engine} {P : Platform}.

Lemma u32_range x : 0 <= u32 x < 2 ^ 32.
Proof. unfold u32. apply Z.mod_pos_bound. lia. Qed.

Lemma u32_small x : 0 <= x < 2 ^ 32 -> u32 x = x.
Proof. unfold u32. intros. apply Z.mod_small. lia. Qed.

(** Subtracting two wrapped readings gives the elapsed time whenever
    less than 2^32 ms went by. *)
Lemma u32_elapsed (T0 T : Z) :
  0 <= T - T0 < 2 ^ 32 -> u32 (u32 T - u32 T0) = T - T0.
Proof.
  intros H. unfold u32.
  rewrite <- Zminus_mod. apply Z.mod_small. lia.
Qed.

Lemma State_eqb_eq a b : State_eqb a b = true <-> a = b.
Proof. destruct a, b; simpl; split; congruence. Qed.

Lemma State_eqb_neq a b : State_eqb a b = false <-> a <> b.
Proof. destruct a, b; simpl; split; congruence. Qed.

(** C6 (as amended): [is_timeout] is true exactly when the wrapped
    difference [now - last_active] exceeds [timeout]; for clock values
    less than 2^32 ms apart this is the elapsed time, wrap or no wrap.
    One millisecond past the timeout is timed out when
    [timeout < 2^32 - 1], one millisecond before it is not when
    [1 <= timeout]. *)
Theorem is_timeout_wraparound (c : KCPConnection) (timeout : Z) :
  0 <= last_active_time_ c < 2 ^ 32 ->
  0 <= timeout < 2 ^ 32 ->
  (forall now, is_timeout c now timeout = true
               <-> timeout < (now - last_active_time_ c) mod 2 ^ 32) /\
  (forall T0 T, last_active_time_ c = u32 T0 -> 0 <= T - T0 < 2 ^ 32 ->
                (is_timeout c (u32 T) timeout = true <-> timeout < T - T0)) /\
  (timeout < 2 ^ 32 - 1 ->
   is_timeout c (u32 (last_active_time_ c + timeout + 1)) timeout = true) /\
  (1 <= timeout ->
   is_timeout c (u32 (last_active_time_ c + timeout - 1)) timeout = false).
Proof.
  intros Ht0 Hto. unfold is_timeout.
  split; [|split; [|split]].
  - intros now. rewrite Z.ltb_lt. reflexivity.
  - intros T0 T -> HT. rewrite Z.ltb_lt, u32_elapsed by lia. reflexivity.
  - intros Hlt. apply Z.ltb_lt.
    set (t0 := last_active_time_ c) in *.
    replace (u32 (t0 + timeout + 1) - t0)
      with (u32 (t0 + timeout + 1) - u32 t0) by (rewrite (u32_small t0); lia).
    rewrite u32_elapsed; lia.
  - intros Hge. apply Z.ltb_ge.
    set (t0 := last_active_time_ c) in *.
    replace (u32 (t0 + timeout - 1) - t0)
      with (u32 (t0 + timeout - 1) - u32 t0) by (rewrite (u32_small t0); lia).
    rewrite u32_elapsed; lia.
Qed.

(** ** close *)

Lemma close_disconnected (c : KCPConnection) :
  state_ c = DISCONNECTED -> close c = (c, []).
Proof. intros H. unfold close. rewrite H. reflexivity. Qed.

Lemma close_first (c : KCPConnection) :
  state_ c <> DISCONNECTED ->
  close c =
    (set_state c DISCONNECTED,
     (if State_eqb (state_ c) CONNECTING || State_eqb (state_ c) CONNECTED
      then [EvStateChange (conv_ c) DISCONNECTING] else [])
     ++ EvStateChange (conv_ c) DISCONNECTED
        :: match close_callback_ c with
           | Some cb => [EvClose cb (conv_ c)]
           | None => []
           end).
Proof.
  intros H. unfold close.
  apply State_eqb_neq in H. rewrite H.
  destruct (State_eqb (state_ c) CONNECTING || State_eqb (state_ c) CONNECTED);
    reflexivity.
Qed.

Lemma count_events_app p tr1 tr2 :
  count_events p (tr1 ++ tr2) = (count_events p tr1 + count_events p tr2)%nat.
Proof. induction tr1 as [|e tr1 IH]; simpl; [reflexivity|]. rewrite IH. lia. Qed.

(** The server's adapter is called by [close()] exactly on a session
    that carries it and is not yet DISCONNECTED. *)
Lemma destroyed_by_close (c : KCPConnection) :
  destroyed_by_callback (snd (close c))
  = negb (State_eqb (state_ c) DISCONNECTED)
    && match close_callback_ c with
       | Some close_server => true
       | _ => false
       end.
Proof.
  unfold close.
  destruct (state_ c); simpl; destruct (close_callback_ c) as [[|u]|];
    reflexivity.
Qed.

Lemma close_call_disconnected (c : KCPConnection) :
  state_ c = DISCONNECTED -> close_call c = Done (c, []).
Proof.
  intros H. unfold close_call. rewrite (close_disconnected c H). reflexivity.
Qed.

Lemma close_times_disconnected n (c : KCPConnection) :
  state_ c = DISCONNECTED -> close_times n c = Done (c, []).
Proof.
  intros H. induction n as [|n IH]; simpl; [reflexivity|].
  rewrite (close_call_disconnected c H). simpl. rewrite IH. reflexivity.
Qed.

(** C5: [close()] called [N > 1] times on a session that is not yet
    DISCONNECTED.  When the close callback is not the server's adapter
    (an application callback, or none), the first call passes through
    DISCONNECTING (from CONNECTING or CONNECTED) to DISCONNECTED and
    calls the callback, once; a further call changes nothing and emits
    nothing; so the [N] calls leave the state DISCONNECTED with the
    callback called exactly once.  When the callback is the adapter the
    server registers, the session is destroyed inside the first call,
    which goes on to read it: that call, and with it the [N] calls,
    have no defined result. *)
Theorem close_idempotent (c : KCPConnection) (N : nat) :
  state_ c <> DISCONNECTED ->
  (1 < N)%nat ->
  (close_callback_ c <> Some close_server ->
   let '(c1, tr1) := close c in
   state_ c1 = DISCONNECTED /\
   tr1 = (if State_eqb (state_ c) CONNECTING || State_eqb (state_ c) CONNECTED
          then [EvStateChange (conv_ c) DISCONNECTING] else [])
         ++ EvStateChange (conv_ c) DISCONNECTED
            :: match close_callback_ c with
               | Some cb => [EvClose cb (conv_ c)]
               | None => []
               end /\
   count_events is_close_call tr1
   = match close_callback_ c with Some _ => 1%nat | None => 0%nat end /\
   close_call c = Done (c1, tr1) /\
   close_call c1 = Done (c1, []) /\
   close_times N c = Done (c1, tr1)) /\
  (close_callback_ c = Some close_server ->
   close_call c = Undefined /\ close_times N c = Undefined).
Proof.
  intros Hst HN.
  pose proof (destroyed_by_close c) as Hd.
  pose proof (close_first c Hst) as Hfirst.
  apply State_eqb_neq in Hst. rewrite Hst in Hd. simpl in Hd.
  split.
  - intros Hcb.
    assert (Hno : destroyed_by_callback (snd (close c)) = false).
    { rewrite Hd. destruct (close_callback_ c) as [[|u]|]; congruence. }
    assert (Hcall : close_call c = Done (close c)).
    { unfold close_call. destruct (close c) as [c1 tr1]. simpl in Hno.
      rewrite Hno. reflexivity. }
    rewrite Hfirst in Hcall |- *.
    split; [reflexivity|]. split; [reflexivity|]. split.
    { rewrite count_events_app. simpl.
      destruct (State_eqb (state_ c) CONNECTING || State_eqb (state_ c) CONNECTED),
               (close_callback_ c); reflexivity. }
    split; [exact Hcall|].
    split; [apply close_call_disconnected; reflexivity|].
    destruct N as [|N]; [lia|]. simpl. rewrite Hcall. simpl.
    rewrite close_times_disconnected by reflexivity. simpl.
    rewrite app_nil_r. reflexivity.
  - intros Hcb. rewrite Hcb in Hd.
    assert (Hcall : close_call c = Undefined).
    { unfold close_call. destruct (close c) as [c1 tr1]. simpl in Hd.
      rewrite Hd. reflexivity. }
    split; [exact Hcall|].
    destruct N as [|N]; [lia|]. simpl. rewrite Hcall. reflexivity.
Qed.

End ConnectionFacts.

(** ** Calls on a session that is not CONNECTED *)

Section SessionGuards.
Context {E : Engine} {P : Platform}.

Lemma set_kcp_same (c : KCPConnection) : set_kcp c (kcp_ c) = c.
Proof. destruct c; reflexivity. Qed.

Lemma set_kcp_twice (c : KCPConnection) k1 k2 :
  set_kcp (set_kcp c k1) k2 = set_kcp c k2.
Proof. reflexivity. Qed.

(** C3: what the three calls do in state DISCONNECTED.  [send] is
    refused and changes nothing, as [send_udp_direct] is.  [input] and
    [update] lack that test: they keep the session DISCONNECTED and
    every field other than the engine as it was, but an engine that
    exists is still given the datagram and the tick, against the claim;
    they do nothing only on a session without engine. *)
Theorem disconnected_calls (c : KCPConnection) (data : list Byte.byte)
    (len current : Z) :
  state_ c = DISCONNECTED ->
  send c data len = (-1, c, []) /\
  (forall k, kcp_ c = Some k ->
     input c data len =
       (let ret := fst (ikcp_input k data len) in if ret <? 0 then ret else 0,
        set_kcp c (Some (snd (ikcp_input k data len))),
        [EvKcpInput (conv_ c) data len]) /\
     fst (update c current) = set_kcp c (Some (fst (ikcp_update k current))) /\
     head (snd (update c current)) = Some (EvKcpUpdate (conv_ c) current)) /\
  (kcp_ c = None ->
     input c data len = (-1, c, []) /\ update c current = (c, [])) /\
  state_ (snd (fst (input c data len))) = DISCONNECTED /\
  state_ (fst (update c current)) = DISCONNECTED.
Proof.
  intros Hst. split; [|split; [|split; [|split]]].
  - unfold send. destruct (kcp_ c); [|reflexivity].
    rewrite Hst. reflexivity.
  - intros k Hk. unfold input, update. rewrite Hk.
    destruct (ikcp_input k data len) as [ret k'].
    destruct (ikcp_update k current) as [k2 outs].
    simpl. repeat split.
  - intros Hk. unfold input, update. rewrite Hk. split; reflexivity.
  - unfold input. destruct (kcp_ c) as [k|]; [|exact Hst].
    destruct (ikcp_input k data len). exact Hst.
  - unfold update. destruct (kcp_ c) as [k|]; [|exact Hst].
    destruct (ikcp_update k current). exact Hst.
Qed.

(** C8: [send_udp_direct] is refused unless the session is CONNECTED.
    On a CONNECTED session (with its UDP handle) the payload goes out as
    one [uv_udp_send] of the whole buffer, whatever its length; a length
    above 1472 only adds the warning, and the result is 0 whenever
    libuv accepts the datagram. *)
Theorem send_udp_direct_policy (c : KCPConnection) (data : list Byte.byte)
    (len : Z) :
  (state_ c <> CONNECTED -> send_udp_direct c data len = (-1, [])) /\
  (state_ c = CONNECTED -> is_Some (udp_handle_ c) ->
   send_udp_direct c data len =
     (let ret := uv_udp_send (addr_ c) data len in if ret <? 0 then ret else 0,
      (if 1472 <? len then [EvWarnOversize (conv_ c) len] else [])
      ++ [EvUdpSend (addr_ c) data len]) /\
   (0 <= uv_udp_send (addr_ c) data len ->
    fst (send_udp_direct c data len) = 0)).
Proof.
  split.
  - intros Hst. unfold send_udp_direct.
    destruct (udp_handle_ c); [|reflexivity].
    apply State_eqb_neq in Hst. rewrite Hst. reflexivity.
  - intros Hst [h Hh]. unfold send_udp_direct, output. rewrite Hh, Hst. simpl.
    destruct (uv_udp_send (addr_ c) data len <? 0) eqn:Hret.
    + rewrite Hret. split; [reflexivity|].
      intros Hge. apply Z.ltb_lt in Hret. lia.
    + split; reflexivity.
Qed.

(** ** recv terminates *)

Lemma run_data_callback_engine (c : KCPConnection) msg k :
  kcp_ c = Some k ->
  exists k1 tr,
    run_data_callback c msg = (set_kcp c (Some k1), tr) /\
    (rcv_pending k1 <= rcv_pending k)%nat /\
    Forall (fun e => is_delivery_event (conv_ c) e = true) tr.
Proof.
  intros Hk. unfold run_data_callback.
  destruct (data_callback_ c) as [[|u]|].
  - unfold send. rewrite Hk.
    destruct (negb (State_eqb (state_ c) CONNECTED)).
    + exists k, [EvData data_server (conv_ c) msg].
      rewrite <- Hk, set_kcp_same. split; [reflexivity|]. split; [lia|].
      constructor; [simpl; apply Z.eqb_refl | constructor].
    + pose proof (ikcp_send_pending k msg (Z.of_nat (length msg))) as Hp.
      destruct (ikcp_send k msg (Z.of_nat (length msg))) as [ret k1].
      exists k1, [EvData data_server (conv_ c) msg;
                  EvKcpSend (conv_ c) msg (Z.of_nat (length msg))].
      split; [reflexivity|]. split; [exact Hp|].
      repeat constructor; simpl; apply Z.eqb_refl.
  - exists k, [EvData (data_user u) (conv_ c) msg].
    rewrite <- Hk, set_kcp_same. split; [reflexivity|]. split; [lia|].
    constructor; [simpl; apply Z.eqb_refl | constructor].
  - exists k, []. rewrite <- Hk, set_kcp_same. split; [reflexivity|].
    split; [lia | constructor].
Qed.

Lemma recv_loop_done (fuel : nat) :
  forall (c : KCPConnection) (b : bool) k,
    kcp_ c = Some k -> (rcv_pending k <= fuel)%nat ->
    exists r c' tr,
      recv_loop fuel c b = Done (r, c', tr) /\
      c' = set_kcp c (kcp_ c') /\
      Forall (fun e => is_delivery_event (conv_ c) e = true) tr.
Proof.
  induction fuel as [|fuel IH]; intros c b k Hk Hle.
  - simpl. rewrite Hk.
    destruct (ikcp_recv k) as [[msg k']|] eqn:Hr.
    + apply ikcp_recv_pending in Hr. lia.
    + exists b, c, []. rewrite set_kcp_same. repeat split. constructor.
  - simpl. rewrite Hk.
    destruct (ikcp_recv k) as [[msg k']|] eqn:Hr.
    + apply ikcp_recv_pending in Hr.
      destruct (run_data_callback_engine (set_kcp c (Some k')) msg k' eq_refl)
        as (k1 & tr1 & Hcb & Hp1 & Htr1).
      rewrite Hcb, set_kcp_twice.
      destruct (IH (set_kcp c (Some k1)) true k1 eq_refl ltac:(lia))
        as (r & c' & tr2 & Hrec & Hc' & Htr2).
      rewrite Hrec. simpl.
      exists r, c', (tr1 ++ tr2). split; [reflexivity|]. split.
      * rewrite Hc'. reflexivity.
      * apply Forall_app. split; assumption.
    + exists b, c, []. rewrite set_kcp_same. repeat split. constructor.
Qed.

(** [recv] always returns: it ends because the engine has no further
    message, it changes nothing of the session but the engine, and it
    emits deliveries for this session only. *)
Lemma recv_done (c : KCPConnection) :
  exists r c' tr,
    recv c = Done (r, c', tr) /\
    c' = set_kcp c (kcp_ c') /\
    Forall (fun e => is_delivery_event (conv_ c) e = true) tr.
Proof.
  unfold recv. destruct (kcp_ c) as [k|] eqn:Hk.
  - apply (recv_loop_done _ c false k Hk). lia.
  - exists false, c, []. rewrite set_kcp_same. repeat split. constructor.
Qed.

End SessionGuards.

(** ** The server: stop and short datagrams *)

Section ServerFacts.
Context {E : Engine} {P : Platform}.

(** C7: a datagram shorter than the 24-byte header is dropped by
    [handle_udp_data], and so by [on_udp_recv]: the server, its table
    and every session stay as they were and nothing is emitted (no
    session, no new [last_active_time_], no engine input). *)
Theorem short_datagram_dropped (s : Server.KCPServer)
    (data : list Byte.byte) (len : Z) (addr : sockaddr) :
  len < 24 ->
  Server.handle_udp_data s data len addr = Done (s, []) /\
  forall a flags, Server.on_udp_recv s len data a flags = Done (s, []).
Proof.
  intros Hlen.
  assert (H : Server.handle_udp_data s data len addr = Done (s, [])).
  { unfold Server.handle_udp_data.
    apply Z.ltb_lt in Hlen. rewrite Hlen. reflexivity. }
  split; [exact H|].
  intros a flags. unfold Server.on_udp_recv.
  destruct (len <? 0); [reflexivity|].
  destruct (len =? 0); [reflexivity|].
  destruct a as [a|]; [|reflexivity].
  destruct (negb (Z.land flags UV_UDP_PARTIAL =? 0)); [reflexivity|].
  unfold Server.handle_udp_data.
  apply Z.ltb_lt in Hlen. rewrite Hlen. reflexivity.
Qed.

(** C1 (as amended): [stop()] on a running server stops the timer, the
    reception and the loop, and nothing else: the timeout, the
    tunables, the new-connection handler, the count of clock readings
    and the table with its sessions are as before, and no callback is
    called.  A further [stop()] does nothing.
    The destructor runs [stop()] and then clears the table, again
    without calling any callback; everything else is as [stop()] left
    it. *)
Theorem stop_keeps_sessions (s : Server.KCPServer) :
  Server.running_ s = true ->
  Server.running_ (fst (Server.stop s)) = false /\
  Server.timer_active_ (fst (Server.stop s)) = false /\
  Server.recv_active_ (fst (Server.stop s)) = false /\
  Server.loop_stopped_ (fst (Server.stop s)) = true /\
  Server.connections_ (fst (Server.stop s)) = Server.connections_ s /\
  snd (Server.stop s) = [] /\
  Server.connections_ (fst (Server.destroy s)) = ∅ /\
  Server.timeout_ (fst (Server.stop s)) = Server.timeout_ s /\
  Server.config_ (fst (Server.stop s)) = Server.config_ s /\
  Server.new_connection_callback_ (fst (Server.stop s))
  = Server.new_connection_callback_ s /\
  Server.clock_reads_ (fst (Server.stop s)) = Server.clock_reads_ s /\
  Server.stop (fst (Server.stop s)) = (fst (Server.stop s), []) /\
  Server.destroy s
  = (Server.set_connections (fst (Server.stop s)) ∅, []).
Proof.
  intros Hrun. unfold Server.destroy, Server.stop. rewrite Hrun. simpl.
  repeat split.
Qed.

End ServerFacts.

(** ** The server: demultiplexing *)

Section Demux.
Context {E : Engine} {P : Platform}.

Lemma delivery_not_new_connection conv conv' tr :
  Forall (fun e => is_delivery_event conv e = true) tr ->
  count_events (is_new_connection conv') tr = 0%nat.
Proof.
  induction 1 as [|e tr He _ IH]; simpl; [reflexivity|].
  rewrite IH. destruct e; simpl in *; try discriminate; reflexivity.
Qed.

Lemma input_shape (c : KCPConnection) data len :
  snd (fst (input c data len))
  = set_kcp c (kcp_ (snd (fst (input c data len)))) /\
  (is_Some (kcp_ c) -> snd (input c data len) = [EvKcpInput (conv_ c) data len]) /\
  (forall conv',
     count_events (is_new_connection conv') (snd (input c data len)) = 0%nat).
Proof.
  unfold input. destruct (kcp_ c) as [k|] eqn:Hk.
  - destruct (ikcp_input k data len) as [ret k']. simpl. repeat split.
  - simpl. rewrite <- Hk, set_kcp_same. repeat split.
    intros [? ?]. congruence.
Qed.

(** The session [find_or_create_connection] stores for an unknown conv. *)
Lemma find_or_create_fresh (s : Server.KCPServer) conv addr :
  Server.connections_ s !! conv = None ->
  exists c1,
    Server.find_or_create_connection s conv addr
    = (Server.set_connections (snd (Server.get_current_ms s))
         (<[conv := c1]> (Server.connections_ s)),
       match Server.new_connection_callback_ s with
       | Some _ => [EvNewConnection conv]
       | None => []
       end) /\
    kcp_ c1 = Some (configured_engine (Server.config_ s) conv) /\
    conv_ c1 = conv /\ addr_ c1 = addr /\ state_ c1 = CONNECTED /\
    last_active_time_ c1 = fst (Server.get_current_ms s).
Proof.
  intros Hnone. unfold Server.find_or_create_connection. rewrite Hnone.
  simpl. destruct (Server.new_connection_callback_ s) as [cb|].
  - eexists. split.
    + simpl. rewrite insert_insert_eq. reflexivity.
    + unfold Server.run_new_connection_callback.
      destruct (nc_set_data cb), (nc_set_close cb); simpl; repeat split.
  - eexists. split; [reflexivity|]. simpl. repeat split.
Qed.

(** [handle_udp_data] on a datagram of at least 24 bytes whose conv is
    not in the table: the session is created, stamped with the second
    clock reading, fed the datagram and drained. *)
Lemma handle_udp_data_fresh (s : Server.KCPServer) data len addr :
  24 <= len ->
  Server.connections_ s !! read_u32 data = None ->
  exists s' c tr3,
    Server.handle_udp_data s data len addr
    = Done (s',
            match Server.new_connection_callback_ s with
            | Some _ => [EvNewConnection (read_u32 data)]
            | None => []
            end ++ EvKcpInput (read_u32 data) data len :: tr3) /\
    Server.connections_ s' = <[read_u32 data := c]> (Server.connections_ s) /\
    conv_ c = read_u32 data /\ addr_ c = addr /\ state_ c = CONNECTED /\
    last_active_time_ c = u32 (steady_clock_ms (S (Server.clock_reads_ s))) /\
    Forall (fun e => is_delivery_event (read_u32 data) e = true) tr3.
Proof.
  intros Hlen Hnone.
  destruct (find_or_create_fresh s (read_u32 data) addr Hnone)
    as (c1 & Hfc & Hk1 & Hconv1 & Haddr1 & Hst1 & _).
  unfold Server.handle_udp_data.
  apply Z.ltb_ge in Hlen. rewrite Hlen, Hfc. simpl.
  rewrite lookup_insert_eq.
  set (c2 := update_active_time c1 _).
  pose proof (input_shape c2 data len) as (Hin1 & Hin2 & _).
  specialize (Hin2 ltac:(subst c2; simpl; rewrite Hk1; eauto)).
  destruct (input c2 data len) as [[ret c3] tr2]. simpl in Hin1, Hin2.
  destruct (recv_done c3) as (r & c4 & tr3 & Hrecv & Hc4 & Htr3).
  rewrite Hrecv. simpl.
  eexists _, c4, tr3. split; [|split].
  - subst tr2. subst c2. simpl. rewrite Hconv1. reflexivity.
  - simpl. apply insert_insert_eq.
  - rewrite Hc4, Hin1. subst c2. simpl.
    rewrite Hin1 in Htr3. simpl in Htr3. rewrite Hconv1 in Htr3.
    repeat split; assumption.
Qed.

(** The same on a conv already in the table: no session is created and
    the stored one keeps everything but its activity stamp and engine. *)
Lemma handle_udp_data_known (s : Server.KCPServer) data len addr c0 :
  24 <= len ->
  Server.connections_ s !! read_u32 data = Some c0 ->
  exists s' c tr,
    Server.handle_udp_data s data len addr = Done (s', tr) /\
    Server.connections_ s' = <[read_u32 data := c]> (Server.connections_ s) /\
    c = set_kcp (update_active_time c0
                   (u32 (steady_clock_ms (Server.clock_reads_ s))))
          (kcp_ c) /\
    count_events (is_new_connection (read_u32 data)) tr = 0%nat.
Proof.
  intros Hlen Hsome.
  unfold Server.handle_udp_data, Server.find_or_create_connection.
  apply Z.ltb_ge in Hlen. rewrite Hlen, Hsome. simpl. rewrite Hsome.
  set (c2 := update_active_time c0 _).
  pose proof (input_shape c2 data len) as (Hin1 & _ & Hin3).
  destruct (input c2 data len) as [[ret c3] tr2]. simpl in Hin1, Hin3.
  destruct (recv_done c3) as (r & c4 & tr3 & Hrecv & Hc4 & Htr3).
  rewrite Hrecv. simpl.
  eexists _, c4, (tr2 ++ tr3). split; [reflexivity|]. split; [reflexivity|].
  split.
  - rewrite Hc4 at 1. rewrite Hin1. reflexivity.
  - rewrite count_events_app.
    rewrite (delivery_not_new_connection _ _ _ Htr3).
    rewrite Hin3. reflexivity.
Qed.

Lemma read_u32_zero (data : list Byte.byte) :
  firstn 4 data = repeat Byte.x00 4 -> read_u32 data = 0.
Proof.
  destruct data as [|b0 [|b1 [|b2 [|b3 rest]]]]; simpl; try discriminate.
  intros [= -> -> -> ->]. reflexivity.
Qed.

(** C4: after [handle_udp_data] on a datagram of at least 24 bytes, the
    table (whose sessions are stored under their convs) holds a session
    under the datagram's conv and no other session has that conv.  When
    the conv was unknown, the table grew by that one session, which
    [find_or_create_connection] bound to the sender's address, gave an
    engine configured with the server's tunables and marked CONNECTED;
    with a new-connection handler registered, the handler is called
    exactly once, as the first event of the call, before the engine
    input and before any delivery.  A known conv creates nothing and
    calls no handler. *)
Theorem demux_one_session (s : Server.KCPServer) (data : list Byte.byte)
    (len : Z) (addr : sockaddr) :
  keys_are_convs s ->
  24 <= len ->
  exists s' tr c,
    Server.handle_udp_data s data len addr = Done (s', tr) /\
    keys_are_convs s' /\
    Server.connections_ s' !! read_u32 data = Some c /\
    conv_ c = read_u32 data /\
    (forall k c', Server.connections_ s' !! k = Some c' ->
                  conv_ c' = read_u32 data -> k = read_u32 data) /\
    (Server.connections_ s !! read_u32 data = None ->
     size (Server.connections_ s') = S (size (Server.connections_ s)) /\
     addr_ c = addr /\ state_ c = CONNECTED /\
     (exists s1 tr1 c1,
        Server.find_or_create_connection s (read_u32 data) addr = (s1, tr1) /\
        Server.connections_ s1 !! read_u32 data = Some c1 /\
        kcp_ c1 = Some (configured_engine (Server.config_ s) (read_u32 data)) /\
        addr_ c1 = addr /\ state_ c1 = CONNECTED) /\
     (forall cb, Server.new_connection_callback_ s = Some cb ->
        exists tr',
          tr = EvNewConnection (read_u32 data)
               :: EvKcpInput (read_u32 data) data len :: tr' /\
          count_events (is_new_connection (read_u32 data)) tr = 1%nat /\
          Forall (fun e => is_delivery_event (read_u32 data) e = true) tr')) /\
    (is_Some (Server.connections_ s !! read_u32 data) ->
     size (Server.connections_ s') = size (Server.connections_ s) /\
     count_events (is_new_connection (read_u32 data)) tr = 0%nat).
Proof.
  intros Hok Hlen.
  destruct (Server.connections_ s !! read_u32 data) as [c0|] eqn:Hl.
  - destruct (handle_udp_data_known s data len addr c0 Hlen Hl)
      as (s' & c & tr & Hrun & Hmap & Hc & Hcount).
    assert (Hconv : conv_ c = read_u32 data).
    { rewrite Hc. simpl. apply (Hok _ _ Hl). }
    assert (Hok' : keys_are_convs s').
    { intros k c'. rewrite Hmap. rewrite lookup_insert.
      case_decide as Hk; [intros [= <-]; congruence | apply Hok]. }
    exists s', tr, c. split; [exact Hrun|]. split; [exact Hok'|].
    split; [rewrite Hmap; apply lookup_insert_eq|].
    split; [exact Hconv|].
    split; [intros k c' Hk Hcv; rewrite <- Hcv; symmetry; apply (Hok' _ _ Hk)|].
    split; [discriminate|].
    intros _. split; [|exact Hcount].
    rewrite Hmap. apply map_size_insert_Some. eauto.
  - destruct (handle_udp_data_fresh s data len addr Hlen Hl)
      as (s' & c & tr3 & Hrun & Hmap & Hconv & Haddr & Hst & _ & Htr3).
    assert (Hok' : keys_are_convs s').
    { intros k c'. rewrite Hmap. rewrite lookup_insert.
      case_decide as Hk; [intros [= <-]; congruence | apply Hok]. }
    eexists s', _, c. split; [exact Hrun|]. split; [exact Hok'|].
    split; [rewrite Hmap; apply lookup_insert_eq|].
    split; [exact Hconv|].
    split; [intros k c' Hk Hcv; rewrite <- Hcv; symmetry; apply (Hok' _ _ Hk)|].
    split; [|intros [? ?]; discriminate].
    intros _.
    split; [rewrite Hmap; apply map_size_insert_None; exact Hl|].
    split; [exact Haddr|]. split; [exact Hst|]. split.
    + destruct (find_or_create_fresh s (read_u32 data) addr Hl)
        as (c1 & Hfc & Hk1 & _ & Haddr1 & Hst1 & _).
      eexists _, _, c1. split; [exact Hfc|]. simpl.
      split; [apply lookup_insert_eq|]. repeat split; assumption.
    + intros cb Hcb. rewrite Hcb. exists tr3.
      split; [reflexivity|]. split; [|exact Htr3].
      simpl. rewrite Z.eqb_refl.
      rewrite (delivery_not_new_connection _ _ _ Htr3). reflexivity.
Qed.

(** The unknown-conv case with the engine followed through: the session
    stored is the drain of the session [c_in] whose engine is the newly
    configured one after [ikcp_input] took the datagram. *)
Lemma handle_udp_data_fresh_fed (s : Server.KCPServer) data len addr :
  24 <= len ->
  Server.connections_ s !! read_u32 data = None ->
  exists s' c c_in r tr3,
    Server.handle_udp_data s data len addr
    = Done (s',
            match Server.new_connection_callback_ s with
            | Some _ => [EvNewConnection (read_u32 data)]
            | None => []
            end ++ EvKcpInput (read_u32 data) data len :: tr3) /\
    Server.connections_ s' = <[read_u32 data := c]> (Server.connections_ s) /\
    kcp_ c_in
    = Some (snd (ikcp_input
                   (configured_engine (Server.config_ s) (read_u32 data))
                   data len)) /\
    conv_ c_in = read_u32 data /\ addr_ c_in = addr /\
    state_ c_in = CONNECTED /\
    recv c_in = Done (r, c, tr3) /\
    c = set_kcp c_in (kcp_ c) /\
    Forall (fun e => is_delivery_event (read_u32 data) e = true) tr3.
Proof.
  intros Hlen Hnone.
  destruct (find_or_create_fresh s (read_u32 data) addr Hnone)
    as (c1 & Hfc & Hk1 & Hconv1 & Haddr1 & Hst1 & _).
  unfold Server.handle_udp_data.
  apply Z.ltb_ge in Hlen. rewrite Hlen, Hfc. simpl.
  rewrite lookup_insert_eq.
  unfold input. simpl. rewrite Hk1.
  destruct (ikcp_input (configured_engine (Server.config_ s) (read_u32 data))
              data len) as [ret k'] eqn:Hin.
  set (c3 := set_kcp _ _).
  destruct (recv_done c3) as (r & c4 & tr3 & Hrecv & Hc4 & Htr3).
  rewrite Hrecv. simpl.
  eexists _, c4, c3, r, tr3. split.
  { rewrite Hconv1. reflexivity. }
  split; [simpl; apply insert_insert_eq|].
  split; [reflexivity|].
  split; [exact Hconv1|]. split; [exact Haddr1|]. split; [exact Hst1|].
  split; [exact Hrecv|]. split; [exact Hc4|].
  subst c3. simpl in Htr3. rewrite Hconv1 in Htr3. exact Htr3.
Qed.

(** C9: the conv is not checked against zero.  A datagram of at least
    24 bytes that starts with four zero bytes, arriving while the table
    has no session 0, makes [handle_udp_data] add to the table a
    CONNECTED session with conv 0 bound to the sender, call a registered
    new-connection handler for it, once and first, and give the
    datagram to its engine: the session stored is the drain of the
    session whose engine, newly created for conv 0 and configured with
    the server's tunables, took the datagram through [ikcp_input]; the
    events are the handler's call, the engine input, and the deliveries
    of the drain. *)
Theorem demux_accepts_conv_zero (s : Server.KCPServer)
    (data : list Byte.byte) (len : Z) (addr : sockaddr) :
  24 <= len ->
  firstn 4 data = repeat Byte.x00 4 ->
  Server.connections_ s !! 0 = None ->
  exists s' tr c,
    Server.handle_udp_data s data len addr = Done (s', tr) /\
    Server.connections_ s' !! 0 = Some c /\
    size (Server.connections_ s') = S (size (Server.connections_ s)) /\
    conv_ c = 0 /\ state_ c = CONNECTED /\ addr_ c = addr /\
    In (EvKcpInput 0 data len) tr /\
    (forall cb, Server.new_connection_callback_ s = Some cb ->
                head tr = Some (EvNewConnection 0)) /\
    Server.connections_ s' = <[0 := c]> (Server.connections_ s) /\
    exists c_in r tr3,
      kcp_ c_in
      = Some (snd (ikcp_input (configured_engine (Server.config_ s) 0)
                     data len)) /\
      conv_ c_in = 0 /\ addr_ c_in = addr /\ state_ c_in = CONNECTED /\
      recv c_in = Done (r, c, tr3) /\
      tr = match Server.new_connection_callback_ s with
           | Some _ => [EvNewConnection 0]
           | None => []
           end ++ EvKcpInput 0 data len :: tr3 /\
      Forall (fun e => is_delivery_event 0 e = true) tr3 /\
      count_events (is_new_connection 0) tr
      = match Server.new_connection_callback_ s with
        | Some _ => 1%nat
        | None => 0%nat
        end.
Proof.
  intros Hlen Hzero Hnone.
  apply read_u32_zero in Hzero.
  rewrite <- Hzero in Hnone.
  destruct (handle_udp_data_fresh_fed s data len addr Hlen Hnone)
    as (s' & c & c_in & r & tr3 & Hrun & Hmap & Hk & Hconv & Haddr & Hst
        & Hrecv & Hc & Htr3).
  rewrite Hzero in *.
  eexists s', _, c. split; [exact Hrun|].
  split; [rewrite Hmap; apply lookup_insert_eq|].
  split; [rewrite Hmap; apply map_size_insert_None; exact Hnone|].
  split; [rewrite Hc; exact Hconv|].
  split; [rewrite Hc; exact Hst|].
  split; [rewrite Hc; exact Haddr|].
  split; [apply in_or_app; right; left; reflexivity|].
  split; [intros cb Hcb; rewrite Hcb; reflexivity|].
  split; [exact Hmap|].
  exists c_in, r, tr3.
  split; [exact Hk|]. split; [exact Hconv|]. split; [exact Haddr|].
  split; [exact Hst|]. split; [exact Hrecv|]. split; [reflexivity|].
  split; [exact Htr3|].
  rewrite count_events_app. simpl.
  rewrite (delivery_not_new_connection _ _ _ Htr3).
  destruct (Server.new_connection_callback_ s); reflexivity.
Qed.

End Demux.

(** ** The server: the sweep *)

Section Iterators.
Context {E : Engine}.

Lemma min_key_None (l : list Z) : Server.min_key l = None -> l = [].
Proof. destruct l; [reflexivity | discriminate]. Qed.

Lemma min_key_Some (l : list Z) (a : Z) :
  Server.min_key l = Some a -> a ∈ l /\ forall b, b ∈ l -> a <= b.
Proof.
  revert a. induction l as [|x l IH]; intros a; simpl; [discriminate|].
  destruct (Server.min_key l) as [m|] eqn:Hm.
  - destruct (IH m eq_refl) as [Hin Hle]. intros [= <-]. split.
    + destruct (Z.min_spec x m) as [[_ ->]|[_ ->]];
        [left | right; exact Hin].
    + intros b Hb. apply elem_of_cons in Hb as [->|Hb]; [lia|].
      specialize (Hle b Hb). lia.
  - apply min_key_None in Hm. subst l. intros [= <-]. split; [left|].
    intros b Hb. apply elem_of_cons in Hb as [->|Hb]; [lia|].
    inversion Hb.
Qed.

Lemma key_elem (m : gmap Z KCPConnection) (k : Z) :
  k ∈ (map_to_list m).*1 <-> is_Some (m !! k).
Proof.
  rewrite list_elem_of_fmap. split.
  - intros [[k' c] [-> Hin]]. apply elem_of_map_to_list in Hin. eauto.
  - intros [c Hc]. exists (k, c). split; [reflexivity|].
    apply elem_of_map_to_list. exact Hc.
Qed.

Lemma begin_Some (m : gmap Z KCPConnection) (a : Z) :
  Server.begin_ m = Some a ->
  is_Some (m !! a) /\ forall b, is_Some (m !! b) -> a <= b.
Proof.
  intros H. apply min_key_Some in H as [Hin Hle]. split.
  - apply key_elem. exact Hin.
  - intros b Hb. apply Hle, key_elem. exact Hb.
Qed.

Lemma begin_None (m : gmap Z KCPConnection) :
  Server.begin_ m = None -> m = ∅.
Proof.
  intros H. apply min_key_None in H.
  apply fmap_nil_inv in H. apply map_to_list_empty_iff. exact H.
Qed.

Lemma next_Some (k : Z) (m : gmap Z KCPConnection) (a : Z) :
  Server.next_ k m = Some a ->
  k < a /\ is_Some (m !! a) /\
  forall b, is_Some (m !! b) -> k < b -> a <= b.
Proof.
  intros H. apply min_key_Some in H as [Hin Hle].
  apply list_elem_of_filter in Hin as [Hka Hin].
  split; [exact Hka|]. split; [apply key_elem; exact Hin|].
  intros b Hb Hkb. apply Hle. apply list_elem_of_filter.
  split; [exact Hkb | apply key_elem; exact Hb].
Qed.

Lemma next_None (k : Z) (m : gmap Z KCPConnection) :
  Server.next_ k m = None -> forall b, is_Some (m !! b) -> b <= k.
Proof.
  intros H b Hb. apply min_key_None in H.
  destruct (Z_le_gt_dec b k) as [Hle|Hgt]; [exact Hle|].
  assert (Hin : b ∈ filter (fun k' => k < k') (map_to_list m).*1).
  { apply list_elem_of_filter. split; [lia | apply key_elem; exact Hb]. }
  rewrite H in Hin. inversion Hin.
Qed.

(** The iterator after [k] depends on the keys above [k] only. *)
Lemma next_ext (k : Z) (m1 m2 : gmap Z KCPConnection) :
  (forall b, k < b -> (is_Some (m1 !! b) <-> is_Some (m2 !! b))) ->
  Server.next_ k m1 = Server.next_ k m2.
Proof.
  intros Hdom.
  destruct (Server.next_ k m1) as [a1|] eqn:H1,
           (Server.next_ k m2) as [a2|] eqn:H2.
  - apply next_Some in H1 as (Hk1 & Hin1 & Hle1).
    apply next_Some in H2 as (Hk2 & Hin2 & Hle2).
    f_equal. apply Z.le_antisymm.
    + apply Hle1; [apply Hdom; assumption | assumption].
    + apply Hle2; [apply Hdom; assumption | assumption].
  - apply next_Some in H1 as (Hk1 & Hin1 & _).
    pose proof (next_None _ _ H2 a1 (proj1 (Hdom a1 Hk1) Hin1)). lia.
  - apply next_Some in H2 as (Hk2 & Hin2 & _).
    pose proof (next_None _ _ H1 a2 (proj2 (Hdom a2 Hk2) Hin2)). lia.
  - reflexivity.
Qed.

Lemma next_insert_same (k : Z) (m : gmap Z KCPConnection) c :
  Server.next_ k (<[k := c]> m) = Server.next_ k m.
Proof.
  apply next_ext. intros b Hb. rewrite lookup_insert_ne by lia. reflexivity.
Qed.

Lemma next_delete_same (k : Z) (m : gmap Z KCPConnection) :
  Server.next_ k (delete k m) = Server.next_ k m.
Proof.
  apply next_ext. intros b Hb. rewrite lookup_delete_ne by lia. reflexivity.
Qed.

(** A key above [k] gives an iterator after [k], at or before it. *)
Lemma next_reaches (k b : Z) (m : gmap Z KCPConnection) :
  is_Some (m !! b) -> k < b ->
  exists a, Server.next_ k m = Some a /\ k < a <= b /\ is_Some (m !! a).
Proof.
  intros Hb Hkb. destruct (Server.next_ k m) as [a|] eqn:Hn.
  - apply next_Some in Hn as (Hka & Hin & Hle).
    exists a. split; [reflexivity|]. split; [|exact Hin].
    split; [exact Hka | apply Hle; assumption].
  - pose proof (next_None _ _ Hn b Hb). lia.
Qed.

Lemma pending_step (j a : Z) (X Y : gset Z) :
  j ∈ X -> j < a -> Y ⊆ X ->
  (size (pending (Some a) Y) < size (pending (Some j) X))%nat.
Proof.
  intros Hj Hja HYX. apply subset_size. unfold pending. split.
  - intros x Hx. apply elem_of_filter in Hx as [Hax Hx].
    apply elem_of_filter. split; [lia | apply HYX, Hx].
  - intros Hsub.
    assert (Hin : j ∈ filter (fun k => a <= k) Y).
    { apply Hsub. apply elem_of_filter. split; [lia | exact Hj]. }
    apply elem_of_filter in Hin as [Hle _]. lia.
Qed.

Lemma pending_le_size (it : option Z) (m : gmap Z KCPConnection) :
  (size (pending it (dom m)) <= size m)%nat.
Proof.
  rewrite <- size_dom. apply subseteq_size. destruct it as [j|]; simpl.
  - intros x Hx. apply elem_of_filter in Hx as [_ Hx]. exact Hx.
  - set_solver.
Qed.

End Iterators.

Section Sweep.
Context {E : Engine} {P : Platform}.

Lemma update_shape (c : KCPConnection) (current : Z) :
  fst (update c current) = set_kcp c (kcp_ (fst (update c current))).
Proof.
  unfold update. destruct (kcp_ c) as [k|] eqn:Hk.
  - destruct (ikcp_update k current). reflexivity.
  - simpl. symmetry. apply set_kcp_same.
Qed.

(** [close()] on the session stored under its conv, followed by what
    its callback does to the table: the server's adapter erases the
    entry, anything else leaves the closed session in place. *)
Lemma close_in_table (s : Server.KCPServer) (k : Z) (c : KCPConnection) :
  conv_ c = k ->
  Server.run_close_callbacks (snd (close c))
    (Server.set_connections s (<[k := fst (close c)]> (Server.connections_ s)))
  = Server.set_connections s
      (if negb (State_eqb (state_ c) DISCONNECTED)
          && match close_callback_ c with
             | Some close_server => true
             | _ => false
             end
       then delete k (Server.connections_ s)
       else <[k := fst (close c)]> (Server.connections_ s)).
Proof.
  intros Hconv. destruct (State_eqb (state_ c) DISCONNECTED) eqn:Hst.
  - apply State_eqb_eq in Hst. rewrite (close_disconnected c Hst). reflexivity.
  - apply State_eqb_neq in Hst. rewrite (close_first c Hst). simpl.
    unfold Server.run_close_callbacks. rewrite foldl_app.
    replace (foldl _ _ (if State_eqb (state_ c) CONNECTING
                           || State_eqb (state_ c) CONNECTED
                        then [EvStateChange (conv_ c) DISCONNECTING] else []))
      with (Server.set_connections s
              (<[k := set_state c DISCONNECTED]> (Server.connections_ s)))
      by (destruct (State_eqb (state_ c) CONNECTING
                    || State_eqb (state_ c) CONNECTED); reflexivity).
    destruct (close_callback_ c) as [[|u]|]; simpl; try reflexivity.
    unfold Server.remove_connection. simpl.
    rewrite Hconv, lookup_insert_eq. simpl.
    rewrite delete_insert_eq. reflexivity.
Qed.

(** One turn of the loop at a session stored under its conv. *)
Lemma sweep_loop_step (fuel : nat) (now k : Z) (s : Server.KCPServer)
    (c : KCPConnection) :
  Server.connections_ s !! k = Some c ->
  conv_ c = k ->
  Server.sweep_loop (S fuel) now (Some k) s
  = if is_timeout c now (Server.timeout_ s) then
      if erased_by_adapter (Server.timeout_ s) now c then Undefined
      else
        '(s2, tr2) ← Server.sweep_loop fuel now
                        (Server.next_ k (Server.connections_ s))
                        (Server.set_connections s
                           (delete k (Server.connections_ s)));
        Done (s2, snd (close c) ++ tr2)
    else
      '(_, c2, tr2) ← recv (fst (update c now));
      '(s2, tr3) ← Server.sweep_loop fuel now
                      (Server.next_ k (Server.connections_ s))
                      (Server.set_connections s
                         (<[k := c2]> (Server.connections_ s)));
      Done (s2, snd (update c now) ++ tr2 ++ tr3).
Proof.
  intros Hk Hconv. simpl. rewrite Hk.
  unfold erased_by_adapter.
  destruct (is_timeout c now (Server.timeout_ s)) eqn:Hto.
  - pose proof (close_in_table s k c Hconv) as Hclose.
    destruct (close c) as [c' tr] eqn:Hc. simpl in Hclose. rewrite Hclose.
    simpl.
    destruct (negb (State_eqb (state_ c) DISCONNECTED)
              && match close_callback_ c with
                 | Some close_server => true
                 | _ => false
                 end) eqn:Had.
    + unfold Server.erase_it. simpl. rewrite lookup_delete_eq. reflexivity.
    + unfold Server.erase_it. simpl. rewrite lookup_insert_eq. simpl.
      rewrite delete_insert_eq, next_insert_same. reflexivity.
  - destruct (update c now) as [c1 tr1]. simpl.
    destruct (recv c1) as [[[r c2] tr2]| |]; simpl; try reflexivity.
    rewrite next_insert_same. reflexivity.
Qed.

Lemma pending_nonempty (j : Z) (X : gset Z) (fuel : nat) :
  j ∈ X -> (size (pending (Some j) X) <= fuel)%nat -> exists f, fuel = S f.
Proof.
  intros Hj Hle. destruct fuel as [|f]; [|eauto].
  assert (Hz : size (pending (Some j) X) = 0%nat) by lia.
  apply size_empty_iff in Hz.
  assert (Hin : j ∈ pending (Some j) X).
  { apply elem_of_filter. split; [lia | exact Hj]. }
  rewrite Hz in Hin. set_solver.
Qed.

Lemma keys_are_convs_delete (s : Server.KCPServer) (k : Z) :
  keys_are_convs s ->
  keys_are_convs (Server.set_connections s (delete k (Server.connections_ s))).
Proof.
  intros Hok j c. simpl. intros H.
  apply lookup_delete_Some in H as [_ H]. apply (Hok _ _ H).
Qed.

Lemma keys_are_convs_insert (s : Server.KCPServer) (k : Z) c :
  keys_are_convs s -> conv_ c = k ->
  keys_are_convs (Server.set_connections s (<[k := c]> (Server.connections_ s))).
Proof.
  intros Hok Hc j c'. simpl. rewrite lookup_insert.
  case_decide as Hj; [intros [= <-]; congruence | apply Hok].
Qed.

(** The sweep from [j] on has no defined result when a session at or
    after [j] is closed through the server's adapter. *)
Lemma sweep_loop_undefined (now : Z) (fuel : nat) :
  forall (j : Z) (s : Server.KCPServer),
    keys_are_convs s ->
    is_Some (Server.connections_ s !! j) ->
    (exists k c, j <= k /\ Server.connections_ s !! k = Some c /\
                 erased_by_adapter (Server.timeout_ s) now c = true) ->
    (size (pending (Some j) (dom (Server.connections_ s))) <= fuel)%nat ->
    Server.sweep_loop fuel now (Some j) s = Undefined.
Proof.
  induction fuel as [|fuel IH]; intros j s Hok [cj Hj] (k & c & Hjk & Hk & Hbad) Hfuel.
  { destruct (pending_nonempty j (dom (Server.connections_ s)) 0%nat)
      as [f Hf]; [apply elem_of_dom; eauto | exact Hfuel | discriminate]. }
  rewrite (sweep_loop_step fuel now j s cj Hj (Hok _ _ Hj)).
  assert (Hnext : forall m' : gmap Z KCPConnection,
            j <> k ->
            (forall b, j < b -> m' !! b = Server.connections_ s !! b) ->
            dom m' ⊆ dom (Server.connections_ s) ->
            keys_are_convs (Server.set_connections s m') ->
            Server.sweep_loop fuel now
              (Server.next_ j (Server.connections_ s))
              (Server.set_connections s m') = Undefined).
  { intros m' Hne Hsame Hsub Hok'.
    destruct (next_reaches j k (Server.connections_ s)) as (a & Ha & Hrange & Hina);
      [eauto | lia |].
    rewrite Ha. apply IH.
    - exact Hok'.
    - simpl. rewrite Hsame by lia. exact Hina.
    - exists k, c. simpl. rewrite Hsame by lia.
      split; [lia|]. split; assumption.
    - unfold Server.set_connections. cbn [Server.connections_].
      pose proof (pending_step j a (dom (Server.connections_ s)) (dom m')
                    ltac:(apply elem_of_dom; eauto) ltac:(lia) Hsub).
      lia. }
  destruct (is_timeout cj now (Server.timeout_ s)) eqn:Hto.
  - destruct (erased_by_adapter (Server.timeout_ s) now cj) eqn:Hadj;
      [reflexivity|].
    rewrite Hnext; [reflexivity | | | |].
    + intros ->. congruence.
    + intros b Hb. apply lookup_delete_ne. lia.
    + rewrite dom_delete_L. intros x Hx.
      apply elem_of_difference in Hx as [Hx _]. exact Hx.
    + apply keys_are_convs_delete, Hok.
  - assert (Hne : j <> k).
    { intros ->. unfold erased_by_adapter in Hbad.
      assert (c = cj) by congruence. subst c. rewrite Hto in Hbad.
      discriminate. }
    destruct (recv_done (fst (update cj now))) as (r & c2 & tr2 & Hrecv & Hc2 & _).
    rewrite Hrecv. simpl.
    rewrite Hnext; [reflexivity | exact Hne | | |].
    + intros b Hb. apply lookup_insert_ne. lia.
    + rewrite dom_insert_L. intros x Hx.
      apply elem_of_union in Hx as [Hx|Hx]; [|exact Hx].
      apply elem_of_singleton in Hx. subst x. apply elem_of_dom. eauto.
    + apply keys_are_convs_insert; [exact Hok|].
      rewrite Hc2, update_shape. simpl. apply (Hok _ _ Hj).
Qed.

(** C2 (where the code departs from it): when some session of the table
    is timed out at the time of the sweep, not yet DISCONNECTED, and
    still has the close adapter the server registered, the sweep has no
    defined result.  [close()] calls the adapter, which erases the
    session's node from the table; the loop then calls
    [connections_.erase(it)] on the iterator of that erased node. *)
Theorem sweep_erases_twice (s : Server.KCPServer) (k : Z)
    (c : KCPConnection) :
  keys_are_convs s ->
  Server.connections_ s !! k = Some c ->
  state_ c <> DISCONNECTED ->
  close_callback_ c = Some close_server ->
  is_timeout c (u32 (steady_clock_ms (Server.clock_reads_ s)))
    (Server.timeout_ s) = true ->
  Server.update_connections s = Undefined.
Proof.
  intros Hok Hk Hst Hcb Hto.
  unfold Server.update_connections, Server.get_current_ms.
  cbv beta iota. cbn [Server.connections_].
  destruct (Server.begin_ (Server.connections_ s)) as [j|] eqn:Hb.
  - pose proof (begin_Some _ _ Hb) as [Hj Hmin].
    apply sweep_loop_undefined.
    + intros k' c'. apply Hok.
    + exact Hj.
    + exists k, c. split; [apply Hmin; eauto|]. split; [exact Hk|].
      unfold erased_by_adapter. cbn [Server.timeout_].
      apply State_eqb_neq in Hst. rewrite Hto, Hst, Hcb. reflexivity.
    + apply pending_le_size.
  - apply begin_None in Hb. rewrite Hb, lookup_empty in Hk. discriminate.
Qed.


Lemma pending_elem (j k : Z) (X : gset Z) :
  k ∈ pending (Some j) X <-> j <= k /\ k ∈ X.
Proof. unfold pending. apply elem_of_filter. Qed.

(** From the iterator after [j] on, the loop has the keys above [j]
    left. *)
Lemma pending_next_elem (j k : Z) (m m' : gmap Z KCPConnection) :
  (forall b, j < b -> m' !! b = m !! b) ->
  k ∈ pending (Server.next_ j m) (dom m') <-> j < k /\ k ∈ dom m'.
Proof.
  intros Hsame.
  assert (Hdom : j < k -> k ∈ dom m' -> is_Some (m !! k)).
  { intros Hjk Hk. apply elem_of_dom in Hk. rewrite <- Hsame; assumption. }
  destruct (Server.next_ j m) as [a|] eqn:Hn.
  - apply next_Some in Hn as (Hja & _ & Hmin). rewrite pending_elem. split.
    + intros [Hak Hk]. split; [lia | exact Hk].
    + intros [Hjk Hk]. split; [|exact Hk]. apply Hmin; auto.
  - simpl. split; [set_solver|].
    intros [Hjk Hk]. pose proof (next_None _ _ Hn k (Hdom Hjk Hk)). lia.
Qed.

(** The sweep from [it] on, when no session still to visit is closed
    through the server's adapter: it ends, and the table keeps the
    sessions already passed and, of those still to visit, the ones that
    are not timed out. *)
Lemma sweep_loop_safe (now : Z) (fuel : nat) :
  forall (it : option Z) (s : Server.KCPServer),
    keys_are_convs s ->
    (forall j, it = Some j -> is_Some (Server.connections_ s !! j)) ->
    (forall k c, k ∈ pending it (dom (Server.connections_ s)) ->
                 Server.connections_ s !! k = Some c ->
                 erased_by_adapter (Server.timeout_ s) now c = false) ->
    (size (pending it (dom (Server.connections_ s))) <= fuel)%nat ->
    exists s' tr,
      Server.sweep_loop fuel now it s = Done (s', tr) /\
      keys_are_convs s' /\
      forall k, is_Some (Server.connections_ s' !! k) <->
                exists c, Server.connections_ s !! k = Some c /\
                          (k ∈ pending it (dom (Server.connections_ s)) ->
                           is_timeout c now (Server.timeout_ s) = false).
Proof.
  induction fuel as [|fuel IH]; intros it s Hok Hvalid Hsafe Hfuel.
  { destruct it as [j|].
    - destruct (Hvalid j eq_refl) as [cj Hj].
      destruct (pending_nonempty j (dom (Server.connections_ s)) 0%nat)
        as [f Hf]; [apply elem_of_dom; eauto | exact Hfuel | discriminate].
    - exists s, []. split; [reflexivity|]. split; [exact Hok|].
      intros k. split; [intros [c Hc]; exists c; split; [exact Hc|set_solver]|].
      intros (c & Hc & _). eauto. }
  destruct it as [j|].
  2:{ exists s, []. split; [reflexivity|]. split; [exact Hok|].
      intros k. split; [intros [c Hc]; exists c; split; [exact Hc|set_solver]|].
      intros (c & Hc & _). eauto. }
  destruct (Hvalid j eq_refl) as [cj Hj].
  assert (Hjin : j ∈ dom (Server.connections_ s)) by (apply elem_of_dom; eauto).
  assert (Hcj : erased_by_adapter (Server.timeout_ s) now cj = false).
  { apply (Hsafe j cj); [apply pending_elem; split; [lia | exact Hjin] | exact Hj]. }
  rewrite (sweep_loop_step fuel now j s cj Hj (Hok _ _ Hj)).
  (* what the rest of the loop gives on a table [m'] that agrees with
     the present one above [j] *)
  assert (Hrest : forall m' : gmap Z KCPConnection,
            (forall b, j <> b -> m' !! b = Server.connections_ s !! b) ->
            dom m' ⊆ dom (Server.connections_ s) ->
            keys_are_convs (Server.set_connections s m') ->
            exists s' tr,
              Server.sweep_loop fuel now
                (Server.next_ j (Server.connections_ s))
                (Server.set_connections s m') = Done (s', tr) /\
              keys_are_convs s' /\
              forall k, is_Some (Server.connections_ s' !! k) <->
                        exists c, m' !! k = Some c /\
                                  (j < k ->
                                   is_timeout c now (Server.timeout_ s) = false)).
  { intros m' Hsame Hsub Hok'.
    assert (Hsame' : forall b, j < b -> m' !! b = Server.connections_ s !! b)
      by (intros b Hb; apply Hsame; lia).
    destruct (IH (Server.next_ j (Server.connections_ s))
                (Server.set_connections s m') Hok') as (s' & tr & Hrun & Hok'' & Hiff).
    - intros a Ha. apply next_Some in Ha as (Hja & Hina & _).
      cbn [Server.connections_ Server.set_connections].
      rewrite Hsame'; assumption.
    - cbn [Server.connections_ Server.set_connections Server.timeout_].
      intros k c Hk Hc.
      apply pending_next_elem in Hk as [Hjk Hk]; [|exact Hsame'].
      apply (Hsafe k c).
      + apply pending_elem. split; [lia | apply Hsub, Hk].
      + rewrite <- Hsame'; assumption.
    - cbn [Server.connections_ Server.set_connections].
      destruct (Server.next_ j (Server.connections_ s)) as [a|] eqn:Hn.
      + apply next_Some in Hn as (Hja & _ & _).
        pose proof (pending_step j a (dom (Server.connections_ s)) (dom m')
                      Hjin Hja Hsub). lia.
      + unfold pending. rewrite size_empty. lia.
    - exists s', tr. split; [exact Hrun|]. split; [exact Hok''|].
      intros k. rewrite Hiff.
      cbn [Server.connections_ Server.set_connections Server.timeout_].
      split; intros (c & Hc & Hto); exists c; (split; [exact Hc|]); intros Hk.
      + apply Hto. apply pending_next_elem; [exact Hsame'|].
        split; [exact Hk | apply elem_of_dom; eauto].
      + apply pending_next_elem in Hk as [Hjk _]; [|exact Hsame'].
        apply Hto, Hjk. }
  rewrite Hcj.
  destruct (is_timeout cj now (Server.timeout_ s)) eqn:Hto.
  - destruct (Hrest (delete j (Server.connections_ s))) as (s' & tr & Hrun & Hok' & Hiff).
    + intros b Hb. apply lookup_delete_ne. exact Hb.
    + rewrite dom_delete_L. intros x Hx.
      apply elem_of_difference in Hx as [Hx _]. exact Hx.
    + apply keys_are_convs_delete, Hok.
    + rewrite Hrun. simpl. eexists s', _. split; [reflexivity|].
      split; [exact Hok'|]. intros k. rewrite Hiff.
      destruct (decide (k = j)) as [->|Hne].
      * rewrite lookup_delete_eq. split; [intros (c & Hc & _); discriminate|].
        intros (c & Hc & Hk). assert (c = cj) by congruence. subst c.
        rewrite Hk in Hto; [discriminate|].
        apply pending_elem. split; [lia | exact Hjin].
      * rewrite lookup_delete_ne by congruence.
        split; intros (c & Hc & Hk); exists c; (split; [exact Hc|]); intros Hin.
        -- apply pending_elem in Hin as [Hle _]. apply Hk. lia.
        -- apply Hk. apply pending_elem. split; [lia | apply elem_of_dom; eauto].
  - destruct (recv_done (fst (update cj now))) as (r & c2 & tr2 & Hrecv & Hc2 & _).
    rewrite Hrecv. simpl.
    destruct (Hrest (<[j := c2]> (Server.connections_ s))) as (s' & tr & Hrun & Hok' & Hiff).
    + intros b Hb. apply lookup_insert_ne. exact Hb.
    + rewrite dom_insert_L. intros x Hx.
      apply elem_of_union in Hx as [Hx|Hx]; [|exact Hx].
      apply elem_of_singleton in Hx. subst x. exact Hjin.
    + apply keys_are_convs_insert; [exact Hok|].
      rewrite Hc2, update_shape. simpl. apply (Hok _ _ Hj).
    + rewrite Hrun. simpl. eexists s', _. split; [reflexivity|].
      split; [exact Hok'|]. intros k. rewrite Hiff.
      destruct (decide (k = j)) as [->|Hne].
      * rewrite lookup_insert_eq. split.
        -- intros _. exists cj. split; [exact Hj | intros _; exact Hto].
        -- intros _. exists c2. split; [reflexivity | lia].
      * rewrite lookup_insert_ne by congruence.
        split; intros (c & Hc & Hk); exists c; (split; [exact Hc|]); intros Hin.
        -- apply pending_elem in Hin as [Hle _]. apply Hk. lia.
        -- apply Hk. apply pending_elem. split; [lia | apply elem_of_dom; eauto].
Qed.

(** When no session of the table is closed through the server's adapter
    (none is timed out, or the application replaced the adapter), the
    sweep ends with exactly the sessions that are not timed out: of [N]
    sessions with [M] timed out, [N - M] remain. *)
Theorem sweep_leaves_live_sessions (s : Server.KCPServer) :
  keys_are_convs s ->
  (forall k c, Server.connections_ s !! k = Some c ->
               erased_by_adapter (Server.timeout_ s)
                 (u32 (steady_clock_ms (Server.clock_reads_ s))) c = false) ->
  exists s' tr,
    Server.update_connections s = Done (s', tr) /\
    keys_are_convs s' /\
    dom (Server.connections_ s')
    = dom (filter (fun kc => ~ timed_out_at s kc) (Server.connections_ s)) /\
    size (Server.connections_ s')
    = (size (Server.connections_ s)
       - size (filter (timed_out_at s) (Server.connections_ s)))%nat.
Proof.
  intros Hok Hsafe.
  unfold Server.update_connections, Server.get_current_ms.
  cbv beta iota. cbn [Server.connections_].
  set (now := u32 (steady_clock_ms (Server.clock_reads_ s))) in *.
  match goal with
  | |- context [Server.sweep_loop _ _ _ ?s1] => set (s1' := s1)
  end.
  assert (Hall : forall k,
            k ∈ pending (Server.begin_ (Server.connections_ s))
                  (dom (Server.connections_ s))
            <-> k ∈ dom (Server.connections_ s)).
  { intros k. destruct (Server.begin_ (Server.connections_ s)) as [j|] eqn:Hb.
    - apply begin_Some in Hb as [_ Hmin]. rewrite pending_elem.
      split; [intros [_ H]; exact H|].
      intros Hk. split; [|exact Hk]. apply Hmin, elem_of_dom, Hk.
    - apply begin_None in Hb. rewrite Hb. simpl. set_solver. }
  destruct (sweep_loop_safe now (size (Server.connections_ s))
              (Server.begin_ (Server.connections_ s)) s1')
    as (s' & tr & Hrun & Hok' & Hiff).
  - intros k c. apply Hok.
  - intros j Hj. apply begin_Some in Hj as [Hj _]. exact Hj.
  - intros k c _ Hc. apply (Hsafe k c Hc).
  - apply (pending_le_size _ (Server.connections_ s)).
  - exists s', tr. split; [exact Hrun|]. split; [exact Hok'|].
    assert (Hdom : dom (Server.connections_ s')
                   = dom (filter (fun kc => ~ timed_out_at s kc)
                            (Server.connections_ s))).
    { apply set_eq. intros k. rewrite !elem_of_dom, Hiff.
      subst s1'. cbn [Server.connections_ Server.timeout_].
      unfold timed_out_at. split.
      - intros (c & Hc & Hto). exists c. apply map_lookup_filter_Some.
        split; [exact Hc|]. simpl. fold now.
        rewrite Hto; [discriminate|]. apply Hall, elem_of_dom. eauto.
      - intros [c Hc]. apply map_lookup_filter_Some in Hc as [Hc Hto].
        exists c. split; [exact Hc|]. intros _. simpl in Hto. fold now in Hto.
        destruct (is_timeout c now (Server.timeout_ s)); [contradiction|reflexivity]. }
    split; [exact Hdom|].
    rewrite <- (size_dom (D := gset Z) (Server.connections_ s')), Hdom, size_dom.
    pose proof (map_filter_union_complement (timed_out_at s)
                  (Server.connections_ s)) as Hu.
    pose proof (map_disjoint_filter_complement (timed_out_at s)
                  (Server.connections_ s)) as Hd.
    apply map_size_disj_union in Hd. rewrite Hu in Hd. lia.
Qed.

End Sweep.

(** ** The client *)

Section ClientFacts.
Context {E : Engine} {P : Platform}.

(** C10: while the client has a connection (with its engine), every
    datagram of positive length that libuv reports with a sender and
    without the partial flag is taken: whatever the sender [a], the
    length and the leading conv bytes of [buf], the connection's
    [last_active_time_] becomes the current clock reading and the bytes
    go to [ikcp_input]; the session left is the drain of the session
    whose engine received them. *)
Theorem client_feeds_any_datagram (cl : Client.KCPClient)
    (c : KCPConnection) (k : ikcpcb) (nread : Z) (buf : list Byte.byte)
    (a : sockaddr) (flags : Z) :
  Client.connection_ cl = Some c ->
  kcp_ c = Some k ->
  0 < nread ->
  Z.land flags UV_UDP_PARTIAL = 0 ->
  exists cl' c' r tr',
    Client.on_udp_recv cl nread buf (Some a) flags
    = Done (cl', EvKcpInput (conv_ c) buf nread :: tr') /\
    Client.connection_ cl' = Some c' /\
    last_active_time_ c' = u32 (steady_clock_ms (Client.clock_reads_ cl)) /\
    recv (set_kcp
            (update_active_time c
               (u32 (steady_clock_ms (Client.clock_reads_ cl))))
            (Some (snd (ikcp_input k buf nread))))
    = Done (r, c', tr') /\
    Forall (fun e => is_delivery_event (conv_ c) e = true) tr'.
Proof.
  intros Hc Hk Hn Hflags.
  unfold Client.on_udp_recv.
  destruct (nread <? 0) eqn:H0; [apply Z.ltb_lt in H0; lia|].
  destruct (nread =? 0) eqn:H1; [apply Z.eqb_eq in H1; lia|].
  rewrite bool_decide_eq_true_2 by eauto. simpl.
  rewrite Hflags. simpl.
  unfold Client.handle_udp_data, Client.get_current_ms. rewrite Hc.
  unfold input. simpl. rewrite Hk.
  destruct (ikcp_input k buf nread) as [ret k1]. simpl.
  set (c1 := set_kcp _ _).
  destruct (recv_done c1) as (r & c' & tr' & Hrecv & Hc' & Htr').
  rewrite Hrecv. simpl.
  eexists _, c', r, tr'. split; [reflexivity|]. split; [reflexivity|].
  split; [rewrite Hc'; reflexivity|]. split; [reflexivity|]. exact Htr'.
Qed.

End ClientFacts.

(** ** Concrete runs *)

Section Runs.

(** The timeout comparison one millisecond either side of a 30 s
    timeout, for a session last active 296 ms before the clock wraps. *)
Lemma is_timeout_wraparound_witness :
  is_timeout (session7 CONNECTED 4294967000)
    (u32 (4294967000 + 30000 + 1)) 30000 = true /\
  is_timeout (session7 CONNECTED 4294967000)
    (u32 (4294967000 + 30000 - 1)) 30000 = false.
Proof.
  pose proof (is_timeout_wraparound (session7 CONNECTED 4294967000) 30000
                ltac:(simpl; lia) ltac:(lia)) as (_ & _ & H1 & H2).
  split; [apply H1; lia | apply H2; lia].
Defined.

(** With timeout 0 the reading one millisecond "before" the deadline is
    2^32 - 1 ms after the last activity and counts as timed out; with
    timeout 2^32 - 1 nothing ever does, not even one millisecond past
    it. *)
Lemma is_timeout_edge_counterexample :
  is_timeout (session7 CONNECTED 5) (u32 (5 + 0 - 1)) 0 = true /\
  is_timeout (session7 CONNECTED 5) (u32 (5 + 4294967295 + 1)) 4294967295
  = false.
Proof. split; reflexivity. Qed.

(** Three calls of [close()] on a CONNECTED session of the server, with
    the adapter the server registers and after the application replaced
    the callbacks. *)
Lemma close_idempotent_witness :
  close_times 3 (server_session7 CONNECTED 0) = Undefined /\
  close_times 3 (app_session7 CONNECTED 0)
  = Done (set_state (app_session7 CONNECTED 0) DISCONNECTED,
          [EvStateChange 7 DISCONNECTING; EvStateChange 7 DISCONNECTED;
           EvClose (close_user 1) 7]).
Proof.
  split.
  - pose proof (close_idempotent (server_session7 CONNECTED 0) 3
                  ltac:(simpl; discriminate) ltac:(lia)) as [_ H].
    apply (H eq_refl).
  - pose proof (close_idempotent (app_session7 CONNECTED 0) 3
                  ltac:(simpl; discriminate) ltac:(lia)) as [H _].
    specialize (H ltac:(simpl; discriminate)). simpl in H.
    apply H.
Defined.

(** A DISCONNECTED session whose engine is still there: [send] is
    refused, [input] and [update] reach the engine. *)
Lemma disconnected_calls_witness :
  send (session7 DISCONNECTED 0) hello 2 = (-1, session7 DISCONNECTED 0, []) /\
  state_ (fst (update (P := clock) (session7 DISCONNECTED 0) 5))
  = DISCONNECTED /\
  snd (input (session7 DISCONNECTED 0) (datagram 7 hello) 26)
  = [EvKcpInput 7 (datagram 7 hello) 26] /\
  head (snd (update (P := clock) (session7 DISCONNECTED 0) 5))
  = Some (EvKcpUpdate 7 5).
Proof.
  pose proof (disconnected_calls (P := clock) (session7 DISCONNECTED 0)
                hello 2 5 eq_refl) as (H1 & H3 & _ & _ & H2).
  pose proof (disconnected_calls (P := clock) (session7 DISCONNECTED 0)
                (datagram 7 hello) 26 5 eq_refl) as (_ & H4 & _).
  destruct (H4 (ikcp_create 7) eq_refl) as (Hin & _ & Hup).
  split; [exact H1|]. split; [exact H2|]. split; [|exact Hup].
  rewrite Hin. reflexivity.
Defined.

(** On that session [update] still ticks the engine (its clock moves
    from 0 to 5) and [input] still queues the datagram's message. *)
Lemma disconnected_engine_counterexample :
  state_ (session7 DISCONNECTED 0) = DISCONNECTED /\
  kcp_ (fst (update (P := clock) (session7 DISCONNECTED 0) 5))
  <> kcp_ (session7 DISCONNECTED 0) /\
  kcp_ (snd (fst (input (session7 DISCONNECTED 0) (datagram 7 hello) 26)))
  <> kcp_ (session7 DISCONNECTED 0).
Proof.
  split; [reflexivity|]. split; vm_compute; discriminate.
Qed.

(** A 2000-byte payload on a CONNECTED session, and on a CONNECTING
    one. *)
Lemma send_udp_direct_policy_witness :
  send_udp_direct (P := clock) (session7 CONNECTED 0) big_payload 2000
  = (0, [EvWarnOversize 7 2000; EvUdpSend peer1 big_payload 2000]) /\
  send_udp_direct (P := clock) (session7 CONNECTING 0) big_payload 2000
  = (-1, []).
Proof.
  pose proof (send_udp_direct_policy (P := clock) (session7 CONNECTED 0)
                big_payload 2000) as (_ & H1).
  pose proof (send_udp_direct_policy (P := clock) (session7 CONNECTING 0)
                big_payload 2000) as (H2 & _).
  split.
  - apply (H1 eq_refl). exists 0%nat. reflexivity.
  - apply H2. simpl. discriminate.
Defined.

(** A 10-byte datagram at a server with one session. *)
Lemma short_datagram_dropped_witness :
  Server.handle_udp_data (P := clock)
    (running_server {[7 := server_session7 CONNECTED 1000]} None)
    (firstn 10 (datagram 7 hello)) 10 peer2
  = Done (running_server {[7 := server_session7 CONNECTED 1000]} None, []).
Proof.
  apply (short_datagram_dropped (P := clock)
           (running_server {[7 := server_session7 CONNECTED 1000]} None)
           (firstn 10 (datagram 7 hello)) 10 peer2).
  lia.
Defined.

(** [stop()] and the destructor on a running server with one session. *)
Lemma stop_keeps_sessions_witness :
  Server.connections_
    (fst (Server.stop
            (running_server {[7 := server_session7 CONNECTED 1000]} None)))
  = {[7 := server_session7 CONNECTED 1000]} /\
  Server.connections_
    (fst (Server.destroy
            (running_server {[7 := server_session7 CONNECTED 1000]} None)))
  = ∅.
Proof.
  pose proof (stop_keeps_sessions
                (running_server {[7 := server_session7 CONNECTED 1000]} None)
                eq_refl) as (_ & _ & _ & _ & H1 & _ & H2 & _).
  split; [exact H1 | exact H2].
Defined.

(** After [stop()] that session is still in the table, still
    CONNECTED, and its close callback was not called. *)
Lemma stop_leaves_sessions_counterexample :
  Server.running_
    (running_server {[7 := server_session7 CONNECTED 1000]} None) = true /\
  Server.connections_
    (fst (Server.stop
            (running_server {[7 := server_session7 CONNECTED 1000]} None)))
    !! 7 = Some (server_session7 CONNECTED 1000) /\
  Server.connections_
    (fst (Server.stop
            (running_server {[7 := server_session7 CONNECTED 1000]} None)))
  <> ∅ /\
  count_events is_close_call
    (snd (Server.stop
            (running_server {[7 := server_session7 CONNECTED 1000]} None)))
  = 0%nat.
Proof.
  split; [reflexivity|]. split; [reflexivity|]. split; [|reflexivity].
  simpl. apply insert_non_empty.
Qed.

Lemma keys_are_convs_session7 cb :
  keys_are_convs (running_server {[7 := server_session7 CONNECTED 1000]} cb).
Proof.
  intros k c. simpl. rewrite lookup_singleton_Some.
  intros [<- <-]. reflexivity.
Qed.

(** The sweep at 40000 ms over a table whose only session was last
    active at 1000 ms and has the server's close adapter. *)
Lemma sweep_erases_twice_witness :
  Server.update_connections (P := list_platform [40000])
    (running_server {[7 := server_session7 CONNECTED 1000]} None)
  = Undefined.
Proof.
  apply (sweep_erases_twice (P := list_platform [40000])
           (running_server {[7 := server_session7 CONNECTED 1000]} None)
           7 (server_session7 CONNECTED 1000)).
  - apply keys_are_convs_session7.
  - apply lookup_singleton_eq.
  - simpl. discriminate.
  - reflexivity.
  - reflexivity.
Defined.

(** The same sweep after the application replaced the callbacks: the
    timed-out session is closed and erased once, the table is empty. *)
Lemma sweep_leaves_live_sessions_witness :
  exists s' tr,
    Server.update_connections (P := list_platform [40000])
      (running_server {[7 := app_session7 CONNECTED 1000]} (Some app_handler))
    = Done (s', tr) /\
    Server.connections_ s' = ∅.
Proof.
  destruct (sweep_leaves_live_sessions (P := list_platform [40000])
              (running_server {[7 := app_session7 CONNECTED 1000]}
                 (Some app_handler)))
    as (s' & tr & Hrun & _ & Hdom & _).
  - intros k c. simpl. rewrite lookup_singleton_Some.
    intros [<- <-]. reflexivity.
  - intros k c. simpl. rewrite lookup_singleton_Some.
    intros [<- <-]. reflexivity.
  - exists s', tr. split; [exact Hrun|].
    apply (dom_empty_iff_L (D := gset Z)). rewrite Hdom. simpl.
    rewrite map_filter_singleton_False; [apply dom_empty_L|].
    intros Hn. apply Hn. reflexivity.
Defined.

Lemma session7_table_without (k : Z) cb :
  k <> 7 ->
  Server.connections_
    (running_server {[7 := server_session7 CONNECTED 1000]} cb) !! k = None.
Proof. intros Hk. simpl. apply lookup_singleton_ne. congruence. Qed.

(** A first datagram for conv 1234 from [peer2] at a server that has
    session 7 and an application handler. *)
Lemma demux_one_session_witness :
  exists s' tr c,
    Server.handle_udp_data (P := clock)
      (running_server {[7 := server_session7 CONNECTED 1000]}
         (Some app_handler))
      (datagram 1234 hello) 26 peer2 = Done (s', tr) /\
    Server.connections_ s' !! 1234 = Some c /\
    size (Server.connections_ s') = 2%nat /\
    addr_ c = peer2 /\ state_ c = CONNECTED /\
    count_events (is_new_connection 1234) tr = 1%nat.
Proof.
  destruct (demux_one_session (P := clock)
              (running_server {[7 := server_session7 CONNECTED 1000]}
                 (Some app_handler))
              (datagram 1234 hello) 26 peer2
              (keys_are_convs_session7 _) ltac:(lia))
    as (s' & tr & c & Hrun & _ & Hl & _ & _ & Hnew & _).
  change (read_u32 (datagram 1234 hello)) with 1234 in *.
  destruct (Hnew (session7_table_without 1234 _ ltac:(lia)))
    as (Hsz & Haddr & Hst & _ & Hcb).
  destruct (Hcb app_handler eq_refl) as (tr' & _ & Hcount & _).
  exists s', tr, c. repeat split; assumption.
Defined.

(** A first datagram whose conv bytes are all zero. *)
Lemma demux_accepts_conv_zero_witness :
  exists s' tr c,
    Server.handle_udp_data (P := clock)
      (running_server {[7 := server_session7 CONNECTED 1000]}
         (Some app_handler))
      (datagram 0 hello) 26 peer2 = Done (s', tr) /\
    Server.connections_ s' !! 0 = Some c /\
    conv_ c = 0 /\ state_ c = CONNECTED /\
    In (EvKcpInput 0 (datagram 0 hello) 26) tr /\
    head tr = Some (EvNewConnection 0).
Proof.
  destruct (demux_accepts_conv_zero (P := clock)
              (running_server {[7 := server_session7 CONNECTED 1000]}
                 (Some app_handler))
              (datagram 0 hello) 26 peer2
              ltac:(lia) eq_refl (session7_table_without 0 _ ltac:(lia)))
    as (s' & tr & c & Hrun & Hl & _ & Hconv & Hst & _ & Hin & Hhd & _).
  exists s', tr, c. repeat split; try assumption.
  apply (Hhd app_handler). reflexivity.
Defined.

(** A client connected under conv 7 takes a datagram that carries conv
    1234 and comes from [peer2], not from the server it connected to. *)
Lemma client_feeds_any_datagram_witness :
  exists cl' c' tr',
    Client.on_udp_recv (P := clock)
      (connected_client (session7 CONNECTED 0))
      26 (datagram 1234 hello) (Some peer2) 0
    = Done (cl', EvKcpInput 7 (datagram 1234 hello) 26 :: tr') /\
    Client.connection_ cl' = Some c' /\
    last_active_time_ c' = 1000.
Proof.
  destruct (client_feeds_any_datagram (P := clock)
              (connected_client (session7 CONNECTED 0))
              (session7 CONNECTED 0) (ikcp_create 7)
              26 (datagram 1234 hello) peer2 0
              eq_refl eq_refl ltac:(lia) eq_refl)
    as (cl' & c' & r & tr' & Hrun & Hc & Hlast & _).
  exists cl', c', tr'. repeat split; assumption.
Defined.

End Runs.

(** * Further properties of the code *)

(** ** recv and the server's echo *)

Section Draining.
Context {E : Engine} {P : Platform}.

Lemma run_data_callback_shape (c : KCPConnection) msg :
  fst (run_data_callback c msg)
  = set_kcp c (kcp_ (fst (run_data_callback c msg))) /\
  (is_Some (kcp_ c) -> is_Some (kcp_ (fst (run_data_callback c msg)))).
Proof.
  unfold run_data_callback.
  destruct (data_callback_ c) as [[|u]|]; simpl;
    try (rewrite set_kcp_same; split; [reflexivity | auto]).
  unfold send. destruct (kcp_ c) as [k|] eqn:Hk.
  - destruct (negb (State_eqb (state_ c) CONNECTED)).
    + simpl. rewrite set_kcp_same. split; [reflexivity|]. rewrite Hk. auto.
    + destruct (ikcp_send k msg (Z.of_nat (length msg))) as [ret k1]. simpl.
      split; [reflexivity | eauto].
  - simpl. rewrite set_kcp_same. split; [reflexivity|]. rewrite Hk. auto.
Qed.

Lemma recv_loop_drains (fuel : nat) :
  forall (c : KCPConnection) (b : bool) r c' tr,
    recv_loop fuel c b = Done (r, c', tr) ->
    c' = set_kcp c (kcp_ c') /\
    (exists k', kcp_ c' = Some k' /\ ikcp_recv k' = None) /\
    (r = true <->
     b = true \/ exists k, kcp_ c = Some k /\ is_Some (ikcp_recv k)).
Proof.
  induction fuel as [|fuel IH]; intros c b r c' tr; simpl.
  - destruct (kcp_ c) as [k|] eqn:Hk; [|discriminate].
    destruct (ikcp_recv k) as [[msg k1]|] eqn:Hr; [discriminate|].
    intros [= <- <- <-]. rewrite set_kcp_same. split; [reflexivity|].
    split; [eauto|]. split; [auto|].
    intros [Hb|(k0 & Hk0 & [x Hx])]; [exact Hb | congruence].
  - destruct (kcp_ c) as [k|] eqn:Hk; [|discriminate].
    destruct (ikcp_recv k) as [[msg k1]|] eqn:Hr.
    + pose proof (run_data_callback_shape (set_kcp c (Some k1)) msg) as [Hsh _].
      destruct (run_data_callback (set_kcp c (Some k1)) msg) as [c1 tr1].
      simpl in Hsh.
      destruct (recv_loop fuel c1 true) as [[[r2 c2] tr2]| |] eqn:Hrec;
        simpl; try discriminate.
      intros [= <- <- <-].
      destruct (IH _ _ _ _ _ Hrec) as (Hc2 & Hdr & Hr2).
      split; [rewrite Hc2, Hsh; reflexivity|]. split; [exact Hdr|].
      split; [intros _; right; eauto | intros _; apply Hr2; auto].
    + intros [= <- <- <-]. rewrite set_kcp_same. split; [reflexivity|].
      split; [eauto|]. split; [auto|].
      intros [Hb|(k0 & Hk0 & [x Hx])]; [exact Hb | congruence].
Qed.

Lemma recv_result (c : KCPConnection) :
  exists r c' tr,
    recv c = Done (r, c', tr) /\
    c' = set_kcp c (kcp_ c') /\
    (is_Some (kcp_ c) <-> is_Some (kcp_ c')) /\
    (forall k', kcp_ c' = Some k' -> ikcp_recv k' = None) /\
    (r = true <-> exists k, kcp_ c = Some k /\ is_Some (ikcp_recv k)).
Proof.
  destruct (recv_done c) as (r & c' & tr & Hrecv & Hc' & _).
  exists r, c', tr. split; [exact Hrecv|]. split; [exact Hc'|].
  unfold recv in Hrecv. destruct (kcp_ c) as [k|] eqn:Hk.
  - apply recv_loop_drains in Hrecv as (_ & (k' & Hk' & Hnone) & Hr).
    split; [split; eauto|]. split.
    + intros k0 Hk0. congruence.
    + rewrite Hr, Hk. split; [intros [Hf|H]; [discriminate | exact H] | auto].
  - injection Hrecv as <- <- <-. rewrite Hk.
    split; [reflexivity|]. split; [congruence|].
    split; [discriminate | intros (k & Hk0 & _); discriminate].
Qed.

(** [recv] always returns.  It changes nothing of the session but the
    engine, keeps an engine that was there, leaves it with no message
    to receive, and reports data exactly when the engine had a message
    at the start. *)
Theorem recv_drains (c : KCPConnection) :
  exists r c' tr,
    recv c = Done (r, c', tr) /\
    c' = set_kcp c (kcp_ c') /\
    (is_Some (kcp_ c) <-> is_Some (kcp_ c')) /\
    (forall k', kcp_ c' = Some k' -> ikcp_recv k' = None) /\
    (r = true <-> exists k, kcp_ c = Some k /\ is_Some (ikcp_recv k)).
Proof. exact (recv_result c). Qed.

Lemma recv_loop_echo (fuel : nat) :
  forall (c : KCPConnection) (b : bool) r c' tr k,
    data_callback_ c = Some data_server ->
    state_ c = CONNECTED ->
    kcp_ c = Some k ->
    recv_loop fuel c b = Done (r, c', tr) ->
    exists msgs k',
      echo_pulls k msgs k' /\
      tr = flat_map (echo_events (conv_ c)) msgs /\
      c' = set_kcp c (Some k') /\
      (r = true <-> b = true \/ msgs <> []).
Proof.
  induction fuel as [|fuel IH]; intros c b r c' tr k Hcb Hst Hk; simpl;
    rewrite Hk.
  - destruct (ikcp_recv k) as [[msg k1]|] eqn:Hr; [discriminate|].
    intros [= <- <- <-]. exists [], k.
    split; [constructor; exact Hr|]. split; [reflexivity|].
    split; [rewrite <- Hk, set_kcp_same; reflexivity|].
    split; [auto | intros [H|H]; [exact H | congruence]].
  - destruct (ikcp_recv k) as [[msg k1]|] eqn:Hr.
    + unfold run_data_callback, send. simpl. rewrite Hcb, Hst. simpl.
      destruct (ikcp_send k1 msg (Z.of_nat (length msg))) as [ret k2] eqn:Hs.
      destruct (recv_loop fuel (set_kcp (set_kcp c (Some k1)) (Some k2)) true)
        as [[[r2 c2] tr2]| |] eqn:Hrec; simpl; try discriminate.
      intros [= <- <- <-].
      destruct (IH (set_kcp (set_kcp c (Some k1)) (Some k2)) true r2 c2 tr2 k2
                  Hcb Hst eq_refl Hrec) as (msgs & k' & Hp & Htr & Hc2 & Hr2).
      exists (msg :: msgs), k'.
      split; [apply (echo_pulls_next k msg k1 msgs k' Hr); rewrite Hs; exact Hp|].
      split; [simpl in *; rewrite Htr; reflexivity|].
      split; [rewrite Hc2; reflexivity|].
      split; [intros _; right; discriminate | intros _; apply Hr2; auto].
    + intros [= <- <- <-]. exists [], k.
      split; [constructor; exact Hr|]. split; [reflexivity|].
      split; [rewrite <- Hk, set_kcp_same; reflexivity|].
      split; [auto | intros [H|H]; [exact H | congruence]].
Qed.

(** On a CONNECTED session that has the server's data adapter, [recv]
    emits, for each message [ikcp_recv] returns and in that order, the
    delivery followed by the echo of the same bytes through [send], and
    nothing else; each echo reaches the engine before the next message
    is pulled, and the session is left with the engine after the last
    pull.  It reports data exactly when a message was pulled.  Without
    engine it does nothing. *)
Theorem recv_echoes_each_message (c : KCPConnection) :
  data_callback_ c = Some data_server ->
  state_ c = CONNECTED ->
  (forall k, kcp_ c = Some k ->
   exists r msgs k',
     echo_pulls k msgs k' /\
     recv c = Done (r, set_kcp c (Some k'),
                    flat_map (echo_events (conv_ c)) msgs) /\
     (r = true <-> msgs <> [])) /\
  (kcp_ c = None -> recv c = Done (false, c, [])).
Proof.
  intros Hcb Hst. split.
  - intros k Hk.
    destruct (recv_done c) as (r & c' & tr & Hrecv & _ & _).
    pose proof Hrecv as Hrun. unfold recv in Hrun. rewrite Hk in Hrun.
    destruct (recv_loop_echo _ _ _ _ _ _ k Hcb Hst Hk Hrun)
      as (msgs & k' & Hp & Htr & Hc' & Hr).
    exists r, msgs, k'. split; [exact Hp|].
    split; [rewrite Hrecv, Htr, Hc'; reflexivity|].
    rewrite Hr. split; [intros [H|H]; [discriminate | exact H] | auto].
  - intros Hk. unfold recv. rewrite Hk. reflexivity.
Qed.

End Draining.

(** ** The server beyond the claims *)

Section ServerMore.
Context {E : Engine} {P : Platform}.

Lemma same_settings_refl (s : Server.KCPServer) : same_settings s s.
Proof. repeat split. Qed.

Lemma same_settings_trans (s1 s2 s3 : Server.KCPServer) :
  same_settings s1 s2 -> same_settings s2 s3 -> same_settings s1 s3.
Proof.
  unfold same_settings. intros (?&?&?&?&?&?&?) (?&?&?&?&?&?&?).
  repeat split; congruence.
Qed.

(** What [handle_udp_data] does on a datagram of at least 24 bytes,
    with the server's other fields in view. *)
Lemma handle_udp_data_frame (s : Server.KCPServer) data len addr :
  24 <= len ->
  exists s' tr c,
    Server.handle_udp_data s data len addr = Done (s', tr) /\
    same_settings s s' /\
    Server.connections_ s' = <[read_u32 data := c]> (Server.connections_ s) /\
    match Server.connections_ s !! read_u32 data with
    | Some c0 =>
        c = set_kcp (update_active_time c0
                       (u32 (steady_clock_ms (Server.clock_reads_ s))))
              (kcp_ c) /\
        (is_Some (kcp_ c0) -> is_Some (kcp_ c)) /\
        Server.clock_reads_ s' = S (Server.clock_reads_ s)
    | None =>
        conv_ c = read_u32 data /\ addr_ c = addr /\ state_ c = CONNECTED /\
        is_Some (kcp_ c) /\ udp_handle_ c = Some 0%nat /\
        last_active_time_ c
        = u32 (steady_clock_ms (S (Server.clock_reads_ s))) /\
        Server.clock_reads_ s' = S (S (Server.clock_reads_ s))
    end.
Proof.
  intros Hlen. apply Z.ltb_ge in Hlen.
  unfold Server.handle_udp_data. rewrite Hlen.
  destruct (Server.connections_ s !! read_u32 data) as [c0|] eqn:Hl.
  - unfold Server.find_or_create_connection. rewrite Hl. simpl. rewrite Hl.
    set (c2 := update_active_time c0 _).
    pose proof (input_shape c2 data len) as (Hin1 & _ & _).
    assert (Hin2 : is_Some (kcp_ c0) ->
                   is_Some (kcp_ (snd (fst (input c2 data len))))).
    { unfold input. subst c2. simpl. destruct (kcp_ c0) as [k|]; [|intros [? ?]; discriminate].
      destruct (ikcp_input k data len). simpl. eauto. }
    destruct (input c2 data len) as [[ret c3] tr2]. simpl in Hin1, Hin2.
    destruct (recv_result c3) as (r & c4 & tr3 & Hrecv & Hc4 & Hsome & _).
    rewrite Hrecv. simpl.
    eexists _, _, c4. split; [reflexivity|]. split; [repeat split|].
    split; [reflexivity|]. split; [|split; [|reflexivity]].
    + rewrite Hc4 at 1. rewrite Hin1. reflexivity.
    + intros H. apply Hsome, Hin2, H.
  - destruct (find_or_create_fresh s (read_u32 data) addr Hl)
      as (c1 & Hfc & Hk1 & Hconv1 & Haddr1 & Hst1 & _).
    assert (Hh1 : udp_handle_ c1 = Some 0%nat).
    { unfold Server.find_or_create_connection in Hfc. rewrite Hl in Hfc.
      simpl in Hfc.
      destruct (Server.new_connection_callback_ s) as [cb|].
      - injection Hfc as Hm. 
        apply (f_equal (fun m => m !! read_u32 data)) in Hm.
        rewrite insert_insert_eq, !lookup_insert_eq in Hm.
        injection Hm as <-. unfold Server.run_new_connection_callback.
        destruct (nc_set_data cb), (nc_set_close cb); reflexivity.
      - injection Hfc as Hm.
        apply (f_equal (fun m => m !! read_u32 data)) in Hm.
        rewrite !lookup_insert_eq in Hm. injection Hm as <-. reflexivity. }
    rewrite Hfc. simpl. rewrite lookup_insert_eq.
    set (c2 := update_active_time c1 _).
    pose proof (input_shape c2 data len) as (Hin1 & _ & _).
    assert (Hin2 : is_Some (kcp_ (snd (fst (input c2 data len))))).
    { unfold input. subst c2. simpl. rewrite Hk1.
      destruct (ikcp_input _ data len). simpl. eauto. }
    destruct (input c2 data len) as [[ret c3] tr2]. simpl in Hin1, Hin2.
    destruct (recv_result c3) as (r & c4 & tr3 & Hrecv & Hc4 & Hsome & _).
    rewrite Hrecv. simpl.
    eexists _, _, c4. split; [reflexivity|]. split; [repeat split|].
    split; [simpl; apply insert_insert_eq|].
    rewrite Hc4, Hin1. subst c2. simpl.
    repeat split; try assumption. apply Hsome, Hin2.
Qed.

(** A datagram changes the session it names and nothing else: every
    other session and every setting of the server stay as they were.
    For a conv already in the table the stored session keeps its peer
    address, state, conv and callbacks whatever the sender's address
    is; only its activity stamp (the clock reading) and its engine
    change. *)
Theorem demux_touches_one_session (s : Server.KCPServer)
    (data : list Byte.byte) (len : Z) (addr : sockaddr) :
  24 <= len ->
  exists s' tr,
    Server.handle_udp_data s data len addr = Done (s', tr) /\
    same_settings s s' /\
    (forall k, k <> read_u32 data ->
               Server.connections_ s' !! k = Server.connections_ s !! k) /\
    (forall c0, Server.connections_ s !! read_u32 data = Some c0 ->
       exists c,
         Server.connections_ s' !! read_u32 data = Some c /\
         addr_ c = addr_ c0 /\ state_ c = state_ c0 /\ conv_ c = conv_ c0 /\
         data_callback_ c = data_callback_ c0 /\
         close_callback_ c = close_callback_ c0 /\
         last_active_time_ c
         = u32 (steady_clock_ms (Server.clock_reads_ s)) /\
         size (Server.connections_ s') = size (Server.connections_ s)).
Proof.
  intros Hlen.
  destruct (handle_udp_data_frame s data len addr Hlen)
    as (s' & tr & c & Hrun & Hset & Hmap & Hcase).
  exists s', tr. split; [exact Hrun|]. split; [exact Hset|]. split.
  - intros k Hk. rewrite Hmap. apply lookup_insert_ne. congruence.
  - intros c0 Hc0. rewrite Hc0 in Hcase. destruct Hcase as (Hc & _ & _).
    exists c. split; [rewrite Hmap; apply lookup_insert_eq|].
    rewrite Hc. simpl. repeat split.
    rewrite Hmap. apply map_size_insert_Some. eauto.
Qed.

(** [on_udp_recv] acts only on a datagram of at least 24 bytes that
    comes with a sender and without the partial flag: in every other
    case the server is returned as it was and nothing is emitted. *)
Theorem on_udp_recv_acts_on_full_datagrams (s : Server.KCPServer)
    (nread : Z) (buf : list Byte.byte) (addr : option sockaddr) (flags : Z) :
  Server.on_udp_recv s nread buf addr flags <> Done (s, []) ->
  24 <= nread /\ is_Some addr /\ Z.land flags UV_UDP_PARTIAL = 0.
Proof.
  unfold Server.on_udp_recv, Server.handle_udp_data. intros H.
  destruct (nread <? 0) eqn:H0; [congruence|].
  destruct (nread =? 0) eqn:H1; [congruence|].
  destruct addr as [a|]; [|congruence].
  destruct (Z.land flags UV_UDP_PARTIAL =? 0) eqn:Hf; simpl in H; [|congruence].
  destruct (nread <? 24) eqn:H24; [congruence|].
  apply Z.ltb_ge in H24. apply Z.eqb_eq in Hf. eauto.
Qed.

(** New tunables are for sessions created afterwards: [set_kcp_config]
    leaves the table and its sessions alone, and the next session
    [find_or_create_connection] creates gets an engine configured with
    the new values. *)
Theorem set_kcp_config_not_retroactive (s : Server.KCPServer)
    (nodelay interval resend nc sndwnd rcvwnd mtu conv : Z)
    (addr : sockaddr) :
  Server.connections_ s !! conv = None ->
  let s0 := Server.set_kcp_config s nodelay interval resend nc sndwnd rcvwnd
              mtu in
  Server.connections_ s0 = Server.connections_ s /\
  exists c,
    Server.connections_ (fst (Server.find_or_create_connection s0 conv addr))
    = <[conv := c]> (Server.connections_ s) /\
    kcp_ c
    = Some (ikcp_setmtu
              (ikcp_wndsize (ikcp_nodelay (ikcp_create conv) nodelay interval
                               resend nc) sndwnd rcvwnd) mtu).
Proof.
  intros Hnone s0. split; [reflexivity|].
  destruct (find_or_create_fresh s0 conv addr Hnone) as (c & Hfc & Hk & _).
  exists c. rewrite Hfc. split; [reflexivity | exact Hk].
Qed.

(** [bind_and_listen] returns 0 exactly when the four libuv calls
    succeed, and then the server is running with reception and timer
    started.  When only [uv_timer_start] fails, reception has been
    started but [running_] is not set, so a [stop()] that follows on a
    server that was not running does nothing and reception stays on. *)
Theorem bind_and_listen_result (s : Server.KCPServer) (uv : uv_results) :
  (fst (Server.bind_and_listen s uv) = 0 <->
   0 <= r_ip4_addr uv /\ 0 <= r_bind uv /\ 0 <= r_recv_start uv
   /\ 0 <= r_timer_start uv) /\
  (fst (Server.bind_and_listen s uv) = 0 ->
   Server.running_ (snd (Server.bind_and_listen s uv)) = true /\
   Server.recv_active_ (snd (Server.bind_and_listen s uv)) = true /\
   Server.timer_active_ (snd (Server.bind_and_listen s uv)) = true) /\
  Server.connections_ (snd (Server.bind_and_listen s uv))
  = Server.connections_ s /\
  (Server.running_ s = false ->
   0 <= r_ip4_addr uv -> 0 <= r_bind uv -> 0 <= r_recv_start uv ->
   r_timer_start uv < 0 ->
   fst (Server.bind_and_listen s uv) = r_timer_start uv /\
   Server.recv_active_
     (fst (Server.stop (snd (Server.bind_and_listen s uv)))) = true).
Proof.
  unfold Server.bind_and_listen.
  destruct (r_ip4_addr uv <? 0) eqn:H1; [apply Z.ltb_lt in H1|apply Z.ltb_ge in H1];
  [|destruct (r_bind uv <? 0) eqn:H2; [apply Z.ltb_lt in H2|apply Z.ltb_ge in H2];
    [|destruct (r_recv_start uv <? 0) eqn:H3;
      [apply Z.ltb_lt in H3|apply Z.ltb_ge in H3];
      [|destruct (r_timer_start uv <? 0) eqn:H4;
        [apply Z.ltb_lt in H4|apply Z.ltb_ge in H4]]]]; simpl;
  (split; [split; [intros ?; lia | intros (?&?&?&?); lia]|]);
  (split; [try (intros ?; lia); intros _; repeat split|]);
  (split; [reflexivity|]); intros Hrun ? ? ? ?; try lia.
  split; [reflexivity|]. unfold Server.stop. simpl. rewrite Hrun. reflexivity.
Qed.

End ServerMore.

(** ** The sweep, when it has a result *)

Section SweepMore.
Context {E : Engine} {P : Platform}.

Lemma count_update_delivery conv k tr :
  Forall (fun e => is_delivery_event conv e = true) tr ->
  count_events (is_update_for k) tr = 0%nat.
Proof.
  induction 1 as [|e tr He _ IH]; simpl; [reflexivity|].
  rewrite IH. destruct e; simpl in *; try discriminate; reflexivity.
Qed.

Lemma count_update_close (c : KCPConnection) k :
  count_events (is_update_for k) (snd (close c)) = 0%nat.
Proof.
  unfold close. destruct (State_eqb (state_ c) DISCONNECTED); [reflexivity|].
  destruct (State_eqb (state_ c) CONNECTING || State_eqb (state_ c) CONNECTED);
    simpl; destruct (close_callback_ c); reflexivity.
Qed.

Lemma count_update_update (c : KCPConnection) now k :
  count_events (is_update_for k) (snd (update c now))
  = match kcp_ c with
    | Some _ => if conv_ c =? k then 1%nat else 0%nat
    | None => 0%nat
    end.
Proof.
  unfold update. destruct (kcp_ c) as [e|]; [|reflexivity].
  destruct (ikcp_update e now) as [e' outs]. simpl.
  assert (H : count_events (is_update_for k)
                (flat_map
                   (fun buf =>
                      snd (output (set_kcp c (Some e')) buf
                             (Z.of_nat (length buf)))) outs) = 0%nat).
  { induction outs as [|buf outs IH]; simpl; [reflexivity|].
    rewrite count_events_app, IH. unfold output.
    destruct (udp_handle_ (set_kcp c (Some e'))); reflexivity. }
  rewrite H. destruct (conv_ c =? k); reflexivity.
Qed.

Lemma update_keeps_engine (c : KCPConnection) now :
  is_Some (kcp_ c) <-> is_Some (kcp_ (fst (update c now))).
Proof.
  unfold update. destruct (kcp_ c) as [e|] eqn:He.
  - destruct (ikcp_update e now). simpl. split; eauto.
  - simpl. rewrite He. reflexivity.
Qed.

Lemma pending_next_subset (j k : Z) (m m' : gmap Z KCPConnection) :
  (forall b, j < b -> m' !! b = m !! b) ->
  k ∈ pending (Server.next_ j m) (dom m') ->
  k ∈ pending (Some j) (dom m) /\ k <> j.
Proof.
  intros Hsame Hk. apply pending_next_elem in Hk as [Hjk Hk]; [|exact Hsame].
  split; [|lia]. apply pending_elem. split; [lia|].
  apply elem_of_dom. rewrite <- Hsame by lia. apply elem_of_dom, Hk.
Qed.

(** What a sweep that ends has done, from iterator [it] on: the
    sessions before [it] are untouched, a session left in the table is
    the one that was there with at most its engine changed, each
    session was ticked at most once, and a session no longer in the
    table was not ticked. *)
Lemma sweep_loop_done_shape (now : Z) (fuel : nat) :
  forall (it : option Z) (s s' : Server.KCPServer) (tr : trace),
    keys_are_convs s ->
    Server.sweep_loop fuel now it s = Done (s', tr) ->
    same_settings s s' /\
    Server.clock_reads_ s' = Server.clock_reads_ s /\
    keys_are_convs s' /\
    (forall k, k ∉ pending it (dom (Server.connections_ s)) ->
               Server.connections_ s' !! k = Server.connections_ s !! k /\
               count_events (is_update_for k) tr = 0%nat) /\
    (forall k c', Server.connections_ s' !! k = Some c' ->
       exists c, Server.connections_ s !! k = Some c /\
                 c' = set_kcp c (kcp_ c') /\
                 (is_Some (kcp_ c) <-> is_Some (kcp_ c')) /\
                 (k ∈ pending it (dom (Server.connections_ s)) ->
                  is_timeout c now (Server.timeout_ s) = false /\
                  (is_Some (kcp_ c) ->
                   count_events (is_update_for k) tr = 1%nat))) /\
    (forall k, (count_events (is_update_for k) tr <= 1)%nat) /\
    (forall k, Server.connections_ s' !! k = None ->
               count_events (is_update_for k) tr = 0%nat).
Proof.
  induction fuel as [|fuel IH]; intros it s s' tr Hok Hrun.
  { destruct it as [j|]; simpl in Hrun; [discriminate|].
    injection Hrun as <- <-.
    split; [apply same_settings_refl|]. split; [reflexivity|].
    split; [exact Hok|]. split; [auto|]. split.
    - intros k c' Hc'. exists c'. rewrite set_kcp_same.
      repeat split; auto; simpl in *; set_solver.
    - split; intros; simpl; auto. }
  destruct it as [j|].
  2:{ simpl in Hrun. injection Hrun as <- <-.
      split; [apply same_settings_refl|]. split; [reflexivity|].
      split; [exact Hok|]. split; [auto|]. split.
      - intros k c' Hc'. exists c'. rewrite set_kcp_same.
        repeat split; auto; simpl in *; set_solver.
      - split; intros; simpl; auto. }
  destruct (Server.connections_ s !! j) as [cj|] eqn:Hj.
  2:{ simpl in Hrun. rewrite Hj in Hrun. discriminate. }
  assert (Hjin : j ∈ pending (Some j) (dom (Server.connections_ s))).
  { apply pending_elem. split; [lia | apply elem_of_dom; eauto]. }
  rewrite (sweep_loop_step fuel now j s cj Hj (Hok _ _ Hj)) in Hrun.
  destruct (is_timeout cj now (Server.timeout_ s)) eqn:Hto.
  - destruct (erased_by_adapter (Server.timeout_ s) now cj); [discriminate|].
    destruct (Server.sweep_loop fuel now _ _) as [[s2 tr2]| |] eqn:Hrest;
      simpl in Hrun; try discriminate.
    injection Hrun as <- <-.
    apply IH in Hrest;
      [|apply keys_are_convs_delete, Hok].
    destruct Hrest as (Hset & Hclk & Hok2 & Hout & Hin & Hle & Hgone).
    cbn [Server.connections_ Server.set_connections Server.timeout_
           Server.clock_reads_] in *.
    assert (Hsame : forall b, j < b ->
              delete j (Server.connections_ s) !! b
              = Server.connections_ s !! b)
      by (intros b Hb; apply lookup_delete_ne; lia).
    assert (Hnp : forall k,
              k ∉ pending (Some j) (dom (Server.connections_ s)) \/ k = j ->
              k ∉ pending (Server.next_ j (Server.connections_ s))
                    (dom (delete j (Server.connections_ s)))).
    { intros k Hk Hin'. apply pending_next_subset in Hin' as [Hp Hne];
        [|exact Hsame]. destruct Hk; [contradiction | congruence]. }
    split; [exact Hset|]. split; [exact Hclk|]. split; [exact Hok2|].
    split; [|split; [|split]].
    + intros k Hk.
      assert (k <> j) by (intros ->; contradiction).
      destruct (Hout k (Hnp k (or_introl Hk))) as [H1 H2].
      rewrite H1, lookup_delete_ne by congruence. split; [reflexivity|].
      rewrite count_events_app, count_update_close, H2. reflexivity.
    + intros k c' Hc'.
      destruct (Hin k c' Hc') as (c & Hc & Hshape & Heng & Hp).
      apply lookup_delete_Some in Hc as [Hne Hc].
      exists c. split; [exact Hc|]. split; [exact Hshape|].
      split; [exact Heng|]. intros Hk.
      rewrite count_events_app, count_update_close. simpl.
      apply Hp. apply pending_next_elem; [exact Hsame|].
      apply pending_elem in Hk as [Hle' _].
      split; [lia|]. apply elem_of_dom. rewrite lookup_delete_ne by congruence.
      eauto.
    + intros k. rewrite count_events_app, count_update_close. apply Hle.
    + intros k Hk. rewrite count_events_app, count_update_close. apply Hgone, Hk.
  - destruct (recv_result (fst (update cj now)))
      as (r & c2 & tr2 & Hrecv & Hc2 & Heng2 & _).
    destruct (recv_done (fst (update cj now))) as (r' & c2' & tr2' & Hrecv' & _ & Hdel).
    rewrite Hrecv in Hrecv'. injection Hrecv' as <- <- <-.
    rewrite Hrecv in Hrun. simpl in Hrun.
    destruct (Server.sweep_loop fuel now _ _) as [[s2 tr3]| |] eqn:Hrest;
      simpl in Hrun; try discriminate.
    injection Hrun as <- <-.
    assert (Hconv2 : conv_ c2 = j).
    { rewrite Hc2, update_shape. simpl. apply (Hok _ _ Hj). }
    apply IH in Hrest; [|apply keys_are_convs_insert; assumption].
    destruct Hrest as (Hset & Hclk & Hok2 & Hout & Hin & Hle & Hgone).
    cbn [Server.connections_ Server.set_connections Server.timeout_
           Server.clock_reads_] in *.
    assert (Hsame : forall b, j < b ->
              <[j := c2]> (Server.connections_ s) !! b
              = Server.connections_ s !! b)
      by (intros b Hb; apply lookup_insert_ne; lia).
    assert (Hnp : forall k,
              k ∉ pending (Some j) (dom (Server.connections_ s)) \/ k = j ->
              k ∉ pending (Server.next_ j (Server.connections_ s))
                    (dom (<[j := c2]> (Server.connections_ s)))).
    { intros k Hk Hin'. apply pending_next_subset in Hin' as [Hp Hne];
        [|exact Hsame]. destruct Hk; [contradiction | congruence]. }
    assert (Hcnt : forall k,
              count_events (is_update_for k)
                (snd (update cj now) ++ tr2 ++ tr3)
              = ((match kcp_ cj with
                  | Some _ => if (j =? k)%Z then 1 else 0
                  | None => 0
                  end) + count_events (is_update_for k) tr3)%nat).
    { intros k. rewrite !count_events_app, count_update_update.
      rewrite (count_update_delivery _ _ _ Hdel), (Hok _ _ Hj). lia. }
    destruct (Hout j (Hnp j (or_intror eq_refl))) as [Hj2 Hj0].
    rewrite lookup_insert_eq in Hj2.
    split; [exact Hset|]. split; [exact Hclk|]. split; [exact Hok2|].
    split; [|split; [|split]].
    + intros k Hk.
      assert (Hne : k <> j) by (intros ->; contradiction).
      destruct (Hout k (Hnp k (or_introl Hk))) as [H1 H2].
      rewrite H1, lookup_insert_ne by congruence. split; [reflexivity|].
      rewrite Hcnt, H2. destruct (kcp_ cj); [|reflexivity].
      destruct (j =? k) eqn:Hjk; [apply Z.eqb_eq in Hjk; congruence | reflexivity].
    + intros k c' Hc'. destruct (decide (k = j)) as [->|Hne].
      * rewrite Hj2 in Hc'. injection Hc' as <-.
        exists cj. split; [exact Hj|].
        split; [rewrite Hc2 at 1; rewrite update_shape; reflexivity|].
        split; [rewrite <- Heng2; apply update_keeps_engine|].
        intros _. split; [exact Hto|]. intros [e He].
        rewrite Hcnt, Hj0, He, Z.eqb_refl. reflexivity.
      * destruct (Hin k c' Hc') as (c & Hc & Hshape & Heng & Hp).
        rewrite lookup_insert_ne in Hc by congruence.
        exists c. split; [exact Hc|]. split; [exact Hshape|].
        split; [exact Heng|]. intros Hk.
        assert (Hk' : k ∈ pending (Server.next_ j (Server.connections_ s))
                        (dom (<[j := c2]> (Server.connections_ s)))).
        { apply pending_next_elem; [exact Hsame|].
          apply pending_elem in Hk as [Hle' _].
          split; [lia|]. apply elem_of_dom.
          rewrite lookup_insert_ne by congruence. eauto. }
        destruct (Hp Hk') as [Hto' Hone]. split; [exact Hto'|].
        intros He. rewrite Hcnt, (Hone He).
        destruct (kcp_ cj); [|reflexivity].
        destruct (j =? k) eqn:Hjk; [apply Z.eqb_eq in Hjk; congruence | reflexivity].
    + intros k. rewrite Hcnt. destruct (decide (k = j)) as [->|Hne].
      * rewrite Hj0. destruct (kcp_ cj); [rewrite Z.eqb_refl|]; lia.
      * specialize (Hle k). destruct (kcp_ cj); [|lia].
        destruct (j =? k) eqn:Hjk; [apply Z.eqb_eq in Hjk; congruence | lia].
    + intros k Hk. destruct (decide (k = j)) as [->|Hne]; [congruence|].
      rewrite Hcnt, (Hgone k Hk). destruct (kcp_ cj); [|reflexivity].
      destruct (j =? k) eqn:Hjk; [apply Z.eqb_eq in Hjk; congruence | reflexivity].
Qed.

End SweepMore.

Section SweepResult.
Context {E : Engine} {P : Platform}.


Lemma update_connections_unfold (s : Server.KCPServer) :
  Server.update_connections s
  = Server.sweep_loop (size (Server.connections_ s))
      (u32 (steady_clock_ms (Server.clock_reads_ s)))
      (Server.begin_ (Server.connections_ s))
      (snd (Server.get_current_ms s)).
Proof. reflexivity. Qed.

(** The sweep ends when no session is closed through the adapter. *)
Lemma update_connections_safe_done (s : Server.KCPServer) :
  keys_are_convs s ->
  (forall k c, Server.connections_ s !! k = Some c ->
               erased_by_adapter (Server.timeout_ s)
                 (u32 (steady_clock_ms (Server.clock_reads_ s))) c = false) ->
  exists s' tr, Server.update_connections s = Done (s', tr).
Proof.
  intros Hok Hsafe. rewrite update_connections_unfold.
  destruct (sweep_loop_safe (u32 (steady_clock_ms (Server.clock_reads_ s)))
              (size (Server.connections_ s))
              (Server.begin_ (Server.connections_ s))
              (snd (Server.get_current_ms s)))
    as (s' & tr & Hrun & _).
  - intros k c. apply Hok.
  - intros j Hj. apply begin_Some in Hj as [Hj _]. exact Hj.
  - intros k c _ Hc. apply (Hsafe k c Hc).
  - apply (pending_le_size _ (Server.connections_ s)).
  - eauto.
Qed.

(** The sweep has a result exactly when it closes no session through
    the adapter the server registers: no session of the table is timed
    out at the clock reading of the sweep, not yet DISCONNECTED, and
    still carrying that adapter. *)
Theorem sweep_defined_iff (s : Server.KCPServer) :
  keys_are_convs s ->
  ((exists s' tr, Server.update_connections s = Done (s', tr)) <->
   forall k c, Server.connections_ s !! k = Some c ->
               erased_by_adapter (Server.timeout_ s)
                 (u32 (steady_clock_ms (Server.clock_reads_ s))) c = false).
Proof.
  intros Hok. split; [|apply update_connections_safe_done, Hok].
  intros (s' & tr & Hrun) k c Hk.
  destruct (erased_by_adapter _ _ c) eqn:Hbad; [|reflexivity].
  rewrite update_connections_unfold in Hrun.
  destruct (Server.begin_ (Server.connections_ s)) as [j|] eqn:Hb.
  - pose proof (begin_Some _ _ Hb) as [Hj Hmin].
    rewrite (sweep_loop_undefined _ _ j) in Hrun; [discriminate| | | |].
    + intros k' c'. apply Hok.
    + exact Hj.
    + exists k, c. split; [apply Hmin; eauto|]. split; [exact Hk | exact Hbad].
    + apply (pending_le_size _ (Server.connections_ s)).
  - apply begin_None in Hb. rewrite Hb, lookup_empty in Hk. discriminate.
Qed.


End SweepResult.

(** ** Closing a server session by hand, and what the table keeps *)

Section ServerInvariant.
Context {E : Engine} {P : Platform}.

(** [close()] through a pointer to a session of the table that is not
    yet DISCONNECTED.  With the adapter the server registered, the
    callback erases the session, which destroys it, while [close()] is
    still running and about to read it: the call has no defined result,
    and it agrees with [close_call] on the session alone.  With any
    other close callback, or none, the session stays in the table,
    DISCONNECTED, nothing else in the server changes, the callback is
    called once if there is one, and a second [close()] does nothing. *)
Theorem close_session_and_table (s : Server.KCPServer) (k : Z)
    (c : KCPConnection) :
  Server.connections_ s !! k = Some c ->
  conv_ c = k ->
  state_ c <> DISCONNECTED ->
  (close_callback_ c = Some close_server ->
   Server.close_session s k = Undefined /\ close_call c = Undefined) /\
  (close_callback_ c <> Some close_server ->
   exists tr,
     Server.close_session s k
     = Done (Server.set_connections s
               (<[k := set_state c DISCONNECTED]> (Server.connections_ s)),
             tr)
     /\ close_call c = Done (set_state c DISCONNECTED, tr)
     /\ count_events is_close_call tr
        = match close_callback_ c with Some _ => 1%nat | None => 0%nat end
     /\ Server.close_session
          (Server.set_connections s
             (<[k := set_state c DISCONNECTED]> (Server.connections_ s))) k
        = Done (Server.set_connections s
                  (<[k := set_state c DISCONNECTED]> (Server.connections_ s)),
                [])).
Proof.
  intros Hk Hconv Hst.
  pose proof (close_in_table s k c Hconv) as Hclose.
  pose proof (close_first c Hst) as Hfirst.
  pose proof (destroyed_by_close c) as Hd.
  assert (Hcount : count_events is_close_call (snd (close c))
                   = match close_callback_ c with
                     | Some _ => 1%nat
                     | None => 0%nat
                     end).
  { rewrite Hfirst. simpl. rewrite count_events_app.
    destruct (State_eqb (state_ c) CONNECTING || State_eqb (state_ c) CONNECTED),
             (close_callback_ c); reflexivity. }
  apply State_eqb_neq in Hst. rewrite Hst in Hclose, Hd. simpl in Hclose, Hd.
  unfold Server.close_session at 1 2, close_call. rewrite Hk.
  destruct (close c) as [c' tr] eqn:Hc. simpl in Hclose, Hcount, Hd.
  injection Hfirst as Hc' _.
  split.
  - intros Hcb. rewrite Hcb in Hclose, Hd. rewrite Hclose, Hd. simpl.
    rewrite lookup_delete_eq. split; reflexivity.
  - intros Hcb. exists tr.
    assert (Hno : match close_callback_ c with
                  | Some close_server => true
                  | _ => false
                  end = false).
    { destruct (close_callback_ c) as [[|u]|]; congruence. }
    rewrite Hno in Hclose, Hd. rewrite Hclose, Hd, Hc'. simpl.
    rewrite lookup_insert_eq.
    split; [reflexivity|]. split; [reflexivity|]. split; [exact Hcount|].
    unfold Server.close_session. simpl. rewrite lookup_insert_eq.
    unfold close. simpl. unfold Server.run_close_callbacks. simpl.
    rewrite lookup_insert_eq, insert_insert_eq. reflexivity.
Qed.

Lemma table_ok_keys (s : Server.KCPServer) : table_ok s -> keys_are_convs s.
Proof. intros H k c Hc. apply (H k c Hc). Qed.

Lemma server_step_table_ok (s s' : Server.KCPServer) call tr :
  table_ok s -> server_step s call = Done (s', tr) -> table_ok s'.
Proof.
  intros Hok. destruct call; simpl.
  - intros [= <- _]. unfold Server.bind_and_listen.
    repeat match goal with |- context [if ?b then _ else _] => destruct b end;
      exact Hok.
  - intros [= <- _]. exact Hok.
  - intros [= <- _]. exact Hok.
  - intros [= <- _]. exact Hok.
  - unfold Server.on_udp_recv.
    destruct (nread <? 0); [intros [= <- _]; exact Hok|].
    destruct (nread =? 0); [intros [= <- _]; exact Hok|].
    destruct addr as [a|]; [|intros [= <- _]; exact Hok].
    destruct (negb (Z.land flags UV_UDP_PARTIAL =? 0));
      [intros [= <- _]; exact Hok|].
    destruct (Z_lt_ge_dec nread 24) as [Hlt|Hge].
    + unfold Server.handle_udp_data. apply Z.ltb_lt in Hlt. rewrite Hlt.
      intros [= <- _]. exact Hok.
    + destruct (handle_udp_data_frame s buf nread a ltac:(lia))
        as (s1 & tr1 & c & Hrun & _ & Hmap & Hcase).
      rewrite Hrun. intros [= <- _]. intros k c'. rewrite Hmap, lookup_insert.
      case_decide as Hk; [|apply Hok]. intros [= <-]. subst k.
      destruct (Server.connections_ s !! read_u32 buf) as [c0|] eqn:Hl.
      * destruct Hcase as (Hc & Heng & _).
        destruct (Hok _ _ Hl) as (H1 & H2 & H3 & H4).
        rewrite Hc. repeat split; simpl; auto.
      * destruct Hcase as (H1 & _ & H2 & H3 & H4 & _).
        repeat split; auto; rewrite H4; eauto.
  - unfold Server.on_timer. intros Hrun.
    apply sweep_loop_done_shape in Hrun;
      [|intros k c; apply (table_ok_keys s Hok)].
    destruct Hrun as (_ & _ & _ & _ & Hin & _).
    intros k c' Hc'. destruct (Hin k c' Hc') as (c & Hc & Hshape & Heng & _).
    cbn [Server.get_current_ms snd Server.connections_] in Hc.
    destruct (Hok _ _ Hc) as (H1 & H2 & H3 & H4).
    rewrite Hshape. repeat split; simpl; auto. apply Heng, H3.
  - unfold Server.stop. destruct (negb (Server.running_ s));
      intros [= <- _]; exact Hok.
Qed.

(** However the application and libuv call a server, the table keeps
    its shape: after any sequence of calls that has a result, every
    session of the table is stored under its own conv, is CONNECTED,
    and has its engine and the server's UDP handle. *)
Theorem server_table_invariant (calls : list server_call) :
  forall (s s' : Server.KCPServer) (tr : trace),
    table_ok s ->
    server_run s calls = Done (s', tr) ->
    table_ok s'.
Proof.
  induction calls as [|call rest IH]; intros s s' tr Hok; simpl.
  - intros [= <- _]. exact Hok.
  - destruct (server_step s call) as [[s1 tr1]| |] eqn:Hstep;
      simpl; try discriminate.
    destruct (server_run s1 rest) as [[s2 tr2]| |] eqn:Hrest;
      simpl; try discriminate.
    intros [= <- _].
    apply (IH s1 s2 tr2); [|exact Hrest].
    apply (server_step_table_ok s s1 call tr1 Hok Hstep).
Qed.

End ServerInvariant.

(** ** The client beyond the claims *)

Section ClientMore.
Context {E : Engine} {P : Platform}.

(** [connect] as the language defines it.  While a connection exists it
    returns -1 and changes nothing; a failure of [uv_ip4_addr],
    [uv_udp_bind] or [uv_udp_recv_start] is returned with the client
    unchanged.  Past these the session is constructed from the address
    of the local [struct sockaddr_in], 16 bytes of which the constructor
    copies 128: the call has no defined result, whatever
    [uv_timer_start] would give.  So every defined result of [connect]
    is an error with the client as it was, never 0. *)
Theorem connect_result (cl : Client.KCPClient) (a : sockaddr) (conv : Z)
    (uv : uv_results) :
  (is_Some (Client.connection_ cl) ->
   Client.connect cl a conv uv = Done (-1, cl)) /\
  (Client.connection_ cl = None ->
   (r_ip4_addr uv < 0 ->
    Client.connect cl a conv uv = Done (r_ip4_addr uv, cl)) /\
   (0 <= r_ip4_addr uv -> r_bind uv < 0 ->
    Client.connect cl a conv uv = Done (r_bind uv, cl)) /\
   (0 <= r_ip4_addr uv -> 0 <= r_bind uv -> r_recv_start uv < 0 ->
    Client.connect cl a conv uv = Done (r_recv_start uv, cl)) /\
   (0 <= r_ip4_addr uv -> 0 <= r_bind uv -> 0 <= r_recv_start uv ->
    Client.connect cl a conv uv = Undefined)) /\
  (forall ret cl',
     Client.connect cl a conv uv = Done (ret, cl') -> ret < 0 /\ cl' = cl).
Proof.
  unfold Client.connect, Client.connect_from.
  destruct (Client.connection_ cl) as [c0|] eqn:Hc.
  { split; [reflexivity|]. split; [discriminate|].
    intros ret cl' [= <- <-]. split; [lia | reflexivity]. }
  split; [intros [? ?]; discriminate|].
  destruct (r_ip4_addr uv <? 0) eqn:H1; [apply Z.ltb_lt in H1|apply Z.ltb_ge in H1].
  { split; [|intros ret cl' [= <- <-]; auto].
    intros _. split; [reflexivity|]. repeat split; intros; lia. }
  destruct (r_bind uv <? 0) eqn:H2; [apply Z.ltb_lt in H2|apply Z.ltb_ge in H2].
  { split; [|intros ret cl' [= <- <-]; auto].
    intros _. split; [intros; lia|]. split; [reflexivity|].
    split; intros; lia. }
  destruct (r_recv_start uv <? 0) eqn:H3;
    [apply Z.ltb_lt in H3|apply Z.ltb_ge in H3].
  { split; [|intros ret cl' [= <- <-]; auto].
    intros _. split; [intros; lia|]. split; [intros; lia|].
    split; [reflexivity | intros; lia]. }
  simpl. split; [|discriminate].
  intros _. split; [intros; lia|]. split; [intros; lia|].
  split; [intros; lia | reflexivity].
Qed.

(** The constructor succeeds on an address object of full size. *)
Lemma new_KCPConnection_from_full extent conv h (a : sockaddr) :
  sizeof_sockaddr_storage <= extent ->
  new_KCPConnection_from extent conv h a = Done (new_KCPConnection conv h a).
Proof.
  intros H. unfold new_KCPConnection_from.
  apply Z.ltb_ge in H. rewrite H. reflexivity.
Qed.

(** [connect] where the 128 bytes the constructor copies can be read at
    the local server address.  It then always returns; it returns 0
    exactly when the client had no connection and the four libuv calls
    succeed.  The client is then running with one session: CONNECTED,
    for the given conv and server address, with an engine configured
    from the client's tunables, stamped with the clock, and without
    callbacks.  While a connection exists it returns -1 and changes
    nothing. *)
Theorem connect_creates_session (extent : Z) (cl : Client.KCPClient)
    (a : sockaddr) (conv : Z) (uv : uv_results) :
  sizeof_sockaddr_storage <= extent ->
  exists ret cl',
    Client.connect_from extent cl a conv uv = Done (ret, cl') /\
    (ret = 0 <->
     Client.connection_ cl = None /\ 0 <= r_ip4_addr uv /\ 0 <= r_bind uv
     /\ 0 <= r_recv_start uv /\ 0 <= r_timer_start uv) /\
    (ret = 0 ->
     Client.running_ cl' = true /\
     Client.timer_active_ cl' = true /\
     Client.recv_active_ cl' = true /\
     Client.is_connected cl' = true /\
     exists c,
       Client.connection_ cl' = Some c /\
       conv_ c = conv /\ addr_ c = a /\ state_ c = CONNECTED /\
       kcp_ c = Some (configured_engine (Client.config_ cl) conv) /\
       last_active_time_ c = u32 (steady_clock_ms (Client.clock_reads_ cl)) /\
       data_callback_ c = None /\ close_callback_ c = None) /\
    (is_Some (Client.connection_ cl) -> ret = -1 /\ cl' = cl).
Proof.
  intros Hext. unfold Client.connect_from.
  rewrite (new_KCPConnection_from_full _ _ _ _ Hext).
  destruct (Client.connection_ cl) as [c0|] eqn:Hc.
  { eexists _, _. split; [reflexivity|].
    split; [split; [intros H; discriminate | intros (H & _); discriminate]|].
    split; [intros H; discriminate | auto]. }
  destruct (r_ip4_addr uv <? 0) eqn:H1; [apply Z.ltb_lt in H1|apply Z.ltb_ge in H1];
  [|destruct (r_bind uv <? 0) eqn:H2; [apply Z.ltb_lt in H2|apply Z.ltb_ge in H2];
    [|destruct (r_recv_start uv <? 0) eqn:H3;
      [apply Z.ltb_lt in H3|apply Z.ltb_ge in H3];
      [|destruct (r_timer_start uv <? 0) eqn:H4;
        [apply Z.ltb_lt in H4|apply Z.ltb_ge in H4]]]]; simpl;
  (eexists _, _; split; [reflexivity|]);
  (split; [split; [intros ?; try lia; repeat split; lia | intros (?&?&?&?&?); lia]|]);
  (split; [|intros [? ?]; discriminate]); try (intros ?; lia).
  intros _. do 4 (split; [reflexivity|]).
  eexists. split; [reflexivity|]. simpl. repeat split.
Qed.

(** When only [uv_timer_start] fails (and the constructor's copy can
    read its 128 bytes), [connect] reports the failure but the session
    it created stays: the client is not running, yet [is_connected] is
    true, reception is on, any further [connect] is refused with -1,
    and [stop()] does nothing (the session is neither closed nor
    dropped). *)
Theorem connect_timer_failure (extent : Z) (cl : Client.KCPClient)
    (a : sockaddr) (conv : Z) (uv : uv_results) :
  sizeof_sockaddr_storage <= extent ->
  Client.connection_ cl = None ->
  Client.running_ cl = false ->
  0 <= r_ip4_addr uv -> 0 <= r_bind uv -> 0 <= r_recv_start uv ->
  r_timer_start uv < 0 ->
  exists cl',
    Client.connect_from extent cl a conv uv = Done (r_timer_start uv, cl') /\
    Client.running_ cl' = false /\
    Client.timer_active_ cl' = Client.timer_active_ cl /\
    Client.recv_active_ cl' = true /\
    Client.is_connected cl' = true /\
    (forall extent' a' conv' uv',
       Client.connect_from extent' cl' a' conv' uv' = Done (-1, cl')) /\
    Client.stop cl' = (cl', []).
Proof.
  intros Hext Hc Hrun H1 H2 H3 H4. unfold Client.connect_from.
  rewrite (new_KCPConnection_from_full _ _ _ _ Hext).
  rewrite Hc.
  apply Z.ltb_ge in H1, H2, H3. apply Z.ltb_lt in H4.
  rewrite H1, H2, H3. simpl. rewrite H4.
  eexists. split; [reflexivity|]. simpl.
  split; [exact Hrun|]. split; [reflexivity|]. split; [reflexivity|].
  split; [reflexivity|]. split; [reflexivity|].
  unfold Client.stop. simpl. rewrite Hrun. reflexivity.
Qed.

(** Callbacks given to a client that has no connection are dropped:
    [set_data_callback] and [set_close_callback] before [connect] have
    no effect, the session a successful [connect] then creates (the
    constructor's copy reading its 128 bytes) has no callbacks, and
    closing it by [disconnect] calls none. *)
Theorem callbacks_before_connect_are_dropped (extent : Z)
    (cl : Client.KCPClient) (d : option DataCallback)
    (f : option CloseCallback) (a : sockaddr) (conv : Z) (uv : uv_results) :
  sizeof_sockaddr_storage <= extent ->
  Client.connection_ cl = None ->
  0 <= r_ip4_addr uv -> 0 <= r_bind uv -> 0 <= r_recv_start uv ->
  0 <= r_timer_start uv ->
  let cl0 := Client.set_close_callback (Client.set_data_callback cl d) f in
  cl0 = cl /\
  exists cl' c,
    Client.connect_from extent cl0 a conv uv = Done (0, cl') /\
    Client.connection_ cl' = Some c /\
    data_callback_ c = None /\ close_callback_ c = None /\
    count_events is_close_call (snd (Client.disconnect cl')) = 0%nat.
Proof.
  intros Hext Hc H1 H2 H3 H4 cl0.
  assert (H0 : cl0 = cl).
  { subst cl0. unfold Client.set_close_callback, Client.set_data_callback.
    rewrite Hc. rewrite Hc. reflexivity. }
  split; [exact H0|]. rewrite H0. clear cl0 H0.
  unfold Client.connect_from.
  rewrite (new_KCPConnection_from_full _ _ _ _ Hext).
  rewrite Hc.
  apply Z.ltb_ge in H1, H2, H3, H4.
  rewrite H1, H2, H3. simpl. rewrite H4.
  eexists _, _. split; [reflexivity|]. simpl.
  split; [reflexivity|]. repeat split.
Qed.

(** [disconnect] on a client whose session is not yet DISCONNECTED
    closes it, calling its close callback once if it has one, drops it
    and turns the timer and reception off.  Afterwards the client is
    not connected, [send] returns -1, and [disconnect] and [stop] do
    nothing more. *)
Theorem disconnect_closes_once (cl : Client.KCPClient) (c : KCPConnection) :
  Client.connection_ cl = Some c ->
  state_ c <> DISCONNECTED ->
  let cl' := fst (Client.disconnect cl) in
  Client.connection_ cl' = None /\
  Client.running_ cl' = false /\
  Client.timer_active_ cl' = false /\
  Client.recv_active_ cl' = false /\
  Client.is_connected cl' = false /\
  count_events is_close_call (snd (Client.disconnect cl))
  = match close_callback_ c with Some _ => 1%nat | None => 0%nat end /\
  Client.disconnect cl' = (cl', []) /\
  Client.stop cl' = (cl', []) /\
  (forall data len, Client.send cl' data len = (-1, cl', [])).
Proof.
  intros Hc Hst cl'. subst cl'.
  pose proof (close_first c Hst) as Hfirst.
  assert (Hd : Client.disconnect cl
               = ({| Client.running_ := false; Client.timer_active_ := false;
                     Client.recv_active_ := false;
                     Client.loop_stopped_ := Client.loop_stopped_ cl;
                     Client.config_ := Client.config_ cl;
                     Client.connection_ := None;
                     Client.clock_reads_ := Client.clock_reads_ cl |},
                  snd (close c))).
  { unfold Client.disconnect. rewrite Hc. destruct (close c). reflexivity. }
  rewrite Hd. simpl. do 5 (split; [reflexivity|]). split.
  - rewrite Hfirst. simpl. rewrite count_events_app. simpl.
    destruct (State_eqb (state_ c) CONNECTING || State_eqb (state_ c) CONNECTED),
             (close_callback_ c); reflexivity.
  - split; [reflexivity|]. split; [reflexivity|]. intros data len. reflexivity.
Qed.

(** A timer tick of the client ticks and drains its connection and
    nothing more.  It takes one clock reading [now]; the events are
    those of [update] at [now] (with an engine: the engine's tick,
    [ikcp_update], first and once, then the datagrams it flushed)
    followed by the deliveries of the drain; the connection left is the
    drain of the ticked one, with no message left to receive, and with
    its state, activity stamp, address and callbacks as they were; the
    client's flags and tunables are unchanged and no close callback is
    called.  The client has no inactivity timeout. *)
Theorem client_tick_keeps_connection (cl : Client.KCPClient)
    (c : KCPConnection) :
  Client.connection_ cl = Some c ->
  let now := u32 (steady_clock_ms (Client.clock_reads_ cl)) in
  exists cl' c' tr,
    Client.update_connection cl = Done (cl', tr) /\
    Client.connection_ cl' = Some c' /\
    c' = set_kcp c (kcp_ c') /\
    (is_Some (kcp_ c) <-> is_Some (kcp_ c')) /\
    Client.running_ cl' = Client.running_ cl /\
    Client.clock_reads_ cl' = S (Client.clock_reads_ cl) /\
    count_events is_close_call tr = 0%nat /\
    Client.timer_active_ cl' = Client.timer_active_ cl /\
    Client.recv_active_ cl' = Client.recv_active_ cl /\
    Client.loop_stopped_ cl' = Client.loop_stopped_ cl /\
    Client.config_ cl' = Client.config_ cl /\
    (exists r tr2,
       recv (fst (update c now)) = Done (r, c', tr2) /\
       tr = snd (update c now) ++ tr2 /\
       Forall (fun e => is_delivery_event (conv_ c) e = true) tr2) /\
    (forall k', kcp_ c' = Some k' -> ikcp_recv k' = None) /\
    (forall k, kcp_ c = Some k ->
       fst (update c now) = set_kcp c (Some (fst (ikcp_update k now))) /\
       head tr = Some (EvKcpUpdate (conv_ c) now) /\
       count_events (is_update_for (conv_ c)) tr = 1%nat) /\
    (kcp_ c = None -> c' = c /\ tr = []).
Proof.
  intros Hc now. unfold Client.update_connection, Client.get_current_ms.
  rewrite Hc. fold now.
  pose proof (update_shape c now) as Hup.
  pose proof (update_keeps_engine c now) as Heng.
  pose proof (count_update_update c now (conv_ c)) as Hcu.
  assert (Hcl : count_events is_close_call (snd (update c now)) = 0%nat).
  { unfold update. destruct (kcp_ c) as [e|]; [|reflexivity].
    destruct (ikcp_update e now) as [e' outs]. simpl.
    induction outs as [|buf outs IH]; simpl; [reflexivity|].
    rewrite count_events_app, IH. unfold output.
    destruct (udp_handle_ (set_kcp c (Some e'))); reflexivity. }
  assert (Hk : forall k, kcp_ c = Some k ->
             fst (update c now) = set_kcp c (Some (fst (ikcp_update k now)))
             /\ head (snd (update c now)) = Some (EvKcpUpdate (conv_ c) now)).
  { intros k Hk. unfold update. rewrite Hk.
    destruct (ikcp_update k now) as [k1 outs]. split; reflexivity. }
  assert (Hn : kcp_ c = None -> update c now = (c, [])).
  { intros Hk0. unfold update. rewrite Hk0. reflexivity. }
  destruct (update c now) as [c1 tr1]. simpl in Hup, Heng, Hcl, Hcu, Hk, Hn.
  destruct (recv_result c1) as (r & c2 & tr2 & Hrecv & Hc2 & Heng2 & Hdr & _).
  destruct (recv_done c1) as (r' & c2' & tr2' & Hrecv' & _ & Hdel).
  rewrite Hrecv in Hrecv'. injection Hrecv' as <- <- <-.
  assert (Hconv1 : conv_ c1 = conv_ c) by (rewrite Hup; reflexivity).
  rewrite Hconv1 in Hdel.
  rewrite Hrecv. simpl.
  eexists _, c2, _. split; [reflexivity|]. split; [reflexivity|].
  split; [rewrite Hc2 at 1; rewrite Hup; reflexivity|].
  split; [rewrite Heng; exact Heng2|]. split; [reflexivity|].
  split; [reflexivity|].
  split.
  { rewrite count_events_app, Hcl. clear -Hdel.
    induction Hdel as [|e tr He _ IH]; simpl; [reflexivity|].
    destruct e; simpl in *; try discriminate; exact IH. }
  do 4 (split; [reflexivity|]).
  split; [exists r, tr2; split; [exact Hrecv|]; split; [reflexivity | exact Hdel]|].
  split; [exact Hdr|].
  split.
  - intros k Hk0. destruct (Hk k Hk0) as [Hf Hh]. split; [exact Hf|].
    split.
    + destruct tr1 as [|e tr1]; [discriminate|]. exact Hh.
    + rewrite count_events_app, Hcu, Hk0, Z.eqb_refl.
      rewrite (count_update_delivery _ _ _ Hdel). reflexivity.
  - intros Hk0. injection (Hn Hk0) as -> ->.
    unfold recv in Hrecv. rewrite Hk0 in Hrecv.
    injection Hrecv as _ <- <-. split; reflexivity.
Qed.

End ClientMore.

Section ClientInvariant.
Context {E : Engine} {P : Platform}.

Lemma send_shape (c : KCPConnection) data len :
  snd (fst (send c data len)) = set_kcp c (kcp_ (snd (fst (send c data len))))
  /\ (is_Some (kcp_ c) -> is_Some (kcp_ (snd (fst (send c data len))))).
Proof.
  unfold send. destruct (kcp_ c) as [k|] eqn:Hk.
  - destruct (negb (State_eqb (state_ c) CONNECTED)).
    + simpl. rewrite set_kcp_same. split; [reflexivity|]. rewrite Hk. auto.
    + destruct (ikcp_send k data len). simpl. split; [reflexivity | eauto].
  - simpl. rewrite set_kcp_same. split; [reflexivity|]. rewrite Hk. auto.
Qed.

Lemma input_keeps_engine (c : KCPConnection) data len :
  is_Some (kcp_ c) -> is_Some (kcp_ (snd (fst (input c data len)))).
Proof.
  unfold input. destruct (kcp_ c) as [k|]; [|intros [? ?]; discriminate].
  destruct (ikcp_input k data len). simpl. eauto.
Qed.

(** Replacing the connection by one that differs in engine, activity
    stamp or callbacks only keeps a client in shape. *)
Lemma client_ok_set_connection (cl : Client.KCPClient) (c c' : KCPConnection) :
  client_ok cl ->
  Client.connection_ cl = Some c ->
  state_ c' = state_ c -> udp_handle_ c' = udp_handle_ c ->
  (is_Some (kcp_ c) -> is_Some (kcp_ c')) ->
  forall n,
    client_ok
      {| Client.running_ := Client.running_ cl;
         Client.timer_active_ := Client.timer_active_ cl;
         Client.recv_active_ := Client.recv_active_ cl;
         Client.loop_stopped_ := Client.loop_stopped_ cl;
         Client.config_ := Client.config_ cl;
         Client.connection_ := Some c';
         Client.clock_reads_ := n |}.
Proof.
  intros (H1 & H2 & H3) Hc Hst Hh Hk n.
  destruct (H1 c Hc) as (Ha & Hb & Hd).
  split; [|split]; simpl.
  - intros c0 [= <-]. rewrite Hst, Hh. auto.
  - intros Hr. destruct (H2 Hr) as (_ & Ht & Hv). eauto.
  - discriminate.
Qed.

Lemma client_step_ok (cl cl' : Client.KCPClient) call tr :
  client_ok cl -> client_step cl call = Done (cl', tr) -> client_ok cl'.
Proof.
  intros Hok. pose proof Hok as (H1 & H2 & H3). destruct call; simpl.
  - unfold Client.connect_from.
    destruct (Client.connection_ cl) as [c|] eqn:Hc;
      [simpl; intros [= <- _]; exact Hok|].
    destruct (r_ip4_addr uv <? 0); [simpl; intros [= <- _]; exact Hok|].
    destruct (r_bind uv <? 0); [simpl; intros [= <- _]; exact Hok|].
    destruct (r_recv_start uv <? 0); [simpl; intros [= <- _]; exact Hok|].
    unfold new_KCPConnection_from.
    destruct (extent <? sizeof_sockaddr_storage); [simpl; discriminate|].
    assert (Hrun : Client.running_ cl = false).
    { destruct (Client.running_ cl); [|reflexivity].
      destruct (H2 eq_refl) as ([? ?] & _). discriminate. }
    simpl. destruct (r_timer_start uv <? 0); simpl; intros [= <- _].
    + split; [|split]; simpl.
      * intros c [= <-]. simpl. eauto.
      * rewrite Hrun. discriminate.
      * discriminate.
    + split; [|split]; simpl.
      * intros c [= <-]. simpl. eauto.
      * intros _. eauto.
      * discriminate.
  - unfold Client.send.
    destruct (Client.connection_ cl) as [c|] eqn:Hc;
      [|intros [= <- _]; exact Hok].
    pose proof (send_shape c data len) as [Hs He].
    destruct (send c data len) as [[ret c'] tr']. simpl in Hs, He.
    intros [= <- _].
    apply (client_ok_set_connection cl c c' Hok Hc);
      [rewrite Hs; reflexivity | rewrite Hs; reflexivity | exact He].
  - intros [= <- _]. unfold Client.set_data_callback.
    destruct (Client.connection_ cl) as [c|] eqn:Hc; [|exact Hok].
    apply (client_ok_set_connection cl c _ Hok Hc); auto.
  - intros [= <- _]. unfold Client.set_close_callback.
    destruct (Client.connection_ cl) as [c|] eqn:Hc; [|exact Hok].
    apply (client_ok_set_connection cl c _ Hok Hc); auto.
  - intros [= <- _]. exact Hok.
  - unfold Client.on_udp_recv.
    destruct (nread <? 0); [intros [= <- _]; exact Hok|].
    destruct ((nread =? 0) || negb (bool_decide (is_Some addr)));
      [intros [= <- _]; exact Hok|].
    destruct (negb (Z.land flags UV_UDP_PARTIAL =? 0));
      [intros [= <- _]; exact Hok|].
    unfold Client.handle_udp_data, Client.get_current_ms.
    destruct (Client.connection_ cl) as [c|] eqn:Hc;
      [|intros [= <- _]; exact Hok].
    set (c1 := update_active_time c _).
    pose proof (input_shape c1 buf nread) as (Hin & _ & _).
    pose proof (input_keeps_engine c1 buf nread) as Hie.
    destruct (input c1 buf nread) as [[ret c2] tr1]. simpl in Hin, Hie.
    destruct (recv_result c2) as (r & c3 & tr2 & Hrecv & Hc3 & He3 & _).
    rewrite Hrecv. simpl. intros [= <- _].
    apply (client_ok_set_connection cl c c3 Hok Hc);
      [rewrite Hc3, Hin; reflexivity | rewrite Hc3, Hin; reflexivity |].
    intros Hk. apply He3, Hie, Hk.
  - unfold Client.on_timer, Client.update_connection, Client.get_current_ms.
    destruct (Client.connection_ cl) as [c|] eqn:Hc;
      [|intros [= <- _]; exact Hok].
    pose proof (update_shape c (u32 (steady_clock_ms (Client.clock_reads_ cl))))
      as Hup.
    pose proof (update_keeps_engine c
                  (u32 (steady_clock_ms (Client.clock_reads_ cl)))) as Hue.
    destruct (update c _) as [c1 tr1]. simpl in Hup, Hue.
    destruct (recv_result c1) as (r & c2 & tr2 & Hrecv & Hc2 & He2 & _).
    rewrite Hrecv. simpl. intros [= <- _].
    apply (client_ok_set_connection cl c c2 Hok Hc);
      [rewrite Hc2, Hup; reflexivity | rewrite Hc2, Hup; reflexivity |].
    intros Hk. apply He2, Hue, Hk.
  - unfold Client.disconnect.
    destruct (Client.connection_ cl) as [c|] eqn:Hc;
      [|intros [= <- _]; exact Hok].
    destruct (close c) as [c' tr']. intros [= <- _].
    split; [|split]; simpl; [discriminate | discriminate | auto].
  - unfold Client.stop.
    destruct (negb (Client.running_ cl)) eqn:Hr;
      [intros [= <- _]; exact Hok|].
    unfold Client.disconnect.
    destruct (Client.connection_ cl) as [c|] eqn:Hc.
    + destruct (close c) as [c' tr']. intros [= <- _].
      split; [|split]; simpl; [discriminate | discriminate | auto].
    + intros [= <- _]. split; [|split]; simpl.
      * rewrite Hc. discriminate.
      * rewrite Hc. exact H2.
      * intros _. apply H3. reflexivity.
Qed.

(** However the application and libuv call a client that is in shape
    (a new client is), after any sequence of calls that has a result a
    connection, when there is one, is CONNECTED with its engine and UDP
    handle; a running client has its connection, timer and reception;
    and without connection neither timer nor reception is on. *)
Theorem client_invariant (calls : list client_call) :
  forall (cl cl' : Client.KCPClient) (tr : trace),
    client_ok cl ->
    client_run cl calls = Done (cl', tr) ->
    client_ok cl'.
Proof.
  induction calls as [|call rest IH]; intros cl cl' tr Hok; simpl.
  - intros [= <- _]. exact Hok.
  - destruct (client_step cl call) as [[cl1 tr1]| |] eqn:Hstep;
      simpl; try discriminate.
    destruct (client_run cl1 rest) as [[cl2 tr2]| |] eqn:Hrest;
      simpl; try discriminate.
    intros [= <- _].
    apply (IH cl1 cl2 tr2); [|exact Hrest].
    apply (client_step_ok cl cl1 call tr1 Hok Hstep).
Qed.

(** On such a client [send] returns 0 exactly when there is a
    connection and its engine accepts the bytes; without connection it
    returns -1 and changes nothing. *)
Theorem client_send_result (cl : Client.KCPClient) (data : list Byte.byte)
    (len : Z) :
  client_ok cl ->
  (fst (fst (Client.send cl data len)) = 0 <->
   exists c k, Client.connection_ cl = Some c /\ kcp_ c = Some k /\
               0 <= fst (ikcp_send k data len)) /\
  (Client.connection_ cl = None -> Client.send cl data len = (-1, cl, [])).
Proof.
  intros (H1 & _ & _). unfold Client.send.
  destruct (Client.connection_ cl) as [c|] eqn:Hc.
  - split; [|discriminate].
    destruct (H1 c eq_refl) as (Hst & [k Hk] & _).
    unfold send. rewrite Hk, Hst. simpl.
    destruct (ikcp_send k data len) as [ret k'] eqn:Hs. simpl.
    destruct (ret <? 0) eqn:Hret; simpl.
    + apply Z.ltb_lt in Hret. split; [intros ->; lia|].
      intros (c0 & k0 & Hc0 & Hk0 & Hge). injection Hc0 as <-.
      assert (k0 = k) by congruence. subst k0. rewrite Hs in Hge.
      simpl in Hge. lia.
    + apply Z.ltb_ge in Hret. split; [|reflexivity].
      intros _. exists c, k. rewrite Hs. auto.
  - split; [|reflexivity]. simpl.
    split; [discriminate | intros (c & k & Hc0 & _); discriminate].
Qed.

End ClientInvariant.

(** ** More concrete runs *)

Section MoreRuns.

(** The server session whose engine holds [hello] delivers and echoes
    it. *)
Lemma recv_echoes_each_message_witness :
  exists r msgs k',
    echo_pulls {| sk_conv := 7; sk_current := 0; sk_mtu := 1400;
                  sk_rcv_queue := [hello]; sk_snd_queue := [] |} msgs k' /\
    recv fed_session7
    = Done (r, set_kcp fed_session7 (Some k'),
            flat_map (echo_events 7) msgs) /\
    (r = true <-> msgs <> []).
Proof.
  pose proof (recv_echoes_each_message fed_session7 eq_refl eq_refl)
    as [H _].
  exact (H _ eq_refl).
Defined.

(** A datagram for session 7 that comes from [peer2] instead of
    [peer1]: the session keeps [peer1]. *)
Lemma demux_touches_one_session_witness :
  exists s' tr c,
    Server.handle_udp_data (P := clock)
      (running_server {[7 := server_session7 CONNECTED 1000]} None)
      (datagram 7 hello) 26 peer2 = Done (s', tr) /\
    Server.connections_ s' !! 7 = Some c /\ addr_ c = peer1.
Proof.
  destruct (demux_touches_one_session (P := clock)
              (running_server {[7 := server_session7 CONNECTED 1000]} None)
              (datagram 7 hello) 26 peer2 ltac:(lia))
    as (s' & tr & Hrun & _ & _ & Hknown).
  change (read_u32 (datagram 7 hello)) with 7 in Hknown.
  destruct (Hknown (server_session7 CONNECTED 1000)
              (lookup_singleton_eq _ _))
    as (c & Hc & Haddr & _).
  exists s', tr, c. repeat split; assumption.
Defined.

(** A first datagram for conv 1234 is not dropped, and it is a full
    datagram with a sender. *)
Lemma on_udp_recv_acts_on_full_datagrams_witness :
  24 <= 26 /\ is_Some (Some peer1) /\ Z.land 0 2 = 0.
Proof.
  apply (on_udp_recv_acts_on_full_datagrams (P := clock)
           (running_server {[7 := server_session7 CONNECTED 1000]} None)
           26 (datagram 1234 hello) (Some peer1) 0).
  destruct (handle_udp_data_fresh (P := clock)
              (running_server {[7 := server_session7 CONNECTED 1000]} None)
              (datagram 1234 hello) 26 peer1 ltac:(lia)
              (session7_table_without 1234 _ ltac:(lia)))
    as (s' & c & tr3 & Hrun & _).
  unfold Server.on_udp_recv. simpl. rewrite Hrun. simpl.
  intros H. discriminate H.
Defined.

(** New tunables (mtu 1200, windows 64) and then a first datagram for
    conv 9 at a server that already has session 7. *)
Lemma set_kcp_config_not_retroactive_witness :
  Server.connections_
    (Server.set_kcp_config
       (running_server {[7 := server_session7 CONNECTED 1000]} None)
       0 40 0 0 64 64 1200)
  = {[7 := server_session7 CONNECTED 1000]} /\
  exists c,
    Server.connections_
      (fst (Server.find_or_create_connection (P := clock)
              (Server.set_kcp_config
                 (running_server {[7 := server_session7 CONNECTED 1000]} None)
                 0 40 0 0 64 64 1200) 9 peer2))
    = <[9 := c]> {[7 := server_session7 CONNECTED 1000]} /\
    kcp_ c = Some {| sk_conv := 9; sk_current := 0; sk_mtu := 1200;
                     sk_rcv_queue := []; sk_snd_queue := [] |}.
Proof.
  exact (set_kcp_config_not_retroactive (P := clock)
           (running_server {[7 := server_session7 CONNECTED 1000]} None)
           0 40 0 0 64 64 1200 9 peer2
           (session7_table_without 9 _ ltac:(lia))).
Defined.

(** [bind_and_listen] on a new server when the timer cannot be started,
    then [stop()]: reception is still on. *)
Lemma bind_and_listen_result_witness :
  fst (Server.bind_and_listen Server.new_KCPServer uv_timer_fails) = -22 /\
  Server.recv_active_
    (fst (Server.stop
            (snd (Server.bind_and_listen Server.new_KCPServer
                    uv_timer_fails)))) = true.
Proof.
  pose proof (bind_and_listen_result Server.new_KCPServer uv_timer_fails)
    as (_ & _ & _ & H).
  apply H; simpl; [reflexivity | lia | lia | lia | lia].
Defined.

Lemma keys_are_convs_app_session7 cb :
  keys_are_convs (running_server {[7 := app_session7 CONNECTED 1000]} cb).
Proof.
  intros k c. simpl. rewrite lookup_singleton_Some.
  intros [<- <-]. reflexivity.
Qed.

Lemma app_session7_safe cb now k c :
  Server.connections_
    (running_server {[7 := app_session7 CONNECTED 1000]} cb) !! k = Some c ->
  erased_by_adapter 30000 now c = false.
Proof.
  simpl. rewrite lookup_singleton_Some. intros [<- <-].
  unfold erased_by_adapter. simpl. apply andb_false_r.
Qed.

(** The sweep over a session whose close callback the application
    replaced has a result. *)
Lemma sweep_defined_iff_witness :
  exists s' tr,
    Server.update_connections (P := list_platform [40000])
      (running_server {[7 := app_session7 CONNECTED 1000]} (Some app_handler))
    = Done (s', tr).
Proof.
  apply (sweep_defined_iff (P := list_platform [40000])
           (running_server {[7 := app_session7 CONNECTED 1000]}
              (Some app_handler))
           (keys_are_convs_app_session7 _)).
  intros k c. apply app_session7_safe.
Defined.


(** [close()] by hand on session 7 of a server, with the server's
    adapter on it and after the application replaced the callbacks. *)
Lemma close_session_and_table_witness :
  Server.close_session
    (running_server {[7 := server_session7 CONNECTED 1000]} None) 7
  = Undefined /\
  exists tr,
    Server.close_session
      (running_server {[7 := app_session7 CONNECTED 1000]} None) 7
    = Done (Server.set_connections
              (running_server {[7 := app_session7 CONNECTED 1000]} None)
              (<[7 := set_state (app_session7 CONNECTED 1000) DISCONNECTED]>
                 {[7 := app_session7 CONNECTED 1000]}), tr) /\
    count_events is_close_call tr = 1%nat.
Proof.
  split.
  - destruct (close_session_and_table
                (running_server {[7 := server_session7 CONNECTED 1000]} None)
                7 (server_session7 CONNECTED 1000)
                (lookup_singleton_eq _ _) eq_refl ltac:(simpl; discriminate))
      as [H _].
    apply (H eq_refl).
  - destruct (close_session_and_table
                (running_server {[7 := app_session7 CONNECTED 1000]} None)
                7 (app_session7 CONNECTED 1000)
                (lookup_singleton_eq _ _) eq_refl ltac:(simpl; discriminate))
      as [_ H].
    destruct (H ltac:(simpl; discriminate)) as (tr & Hrun & _ & Hcount & _).
    exists tr. split; [exact Hrun | exact Hcount].
Defined.

(** A new server that is given one first datagram. *)
Lemma server_table_invariant_witness :
  exists s' tr,
    server_run (P := clock) Server.new_KCPServer
      [SrvDatagram 26 (datagram 1234 hello) (Some peer1) 0] = Done (s', tr) /\
    table_ok s'.
Proof.
  destruct (handle_udp_data_fresh (P := clock) Server.new_KCPServer
              (datagram 1234 hello) 26 peer1 ltac:(lia)
              (lookup_empty _))
    as (s' & c & tr3 & Hrun & _).
  assert (H : server_run (P := clock) Server.new_KCPServer
                [SrvDatagram 26 (datagram 1234 hello) (Some peer1) 0]
              = Done (s', (EvKcpInput 1234 (datagram 1234 hello) 26 :: tr3)
                          ++ [])).
  { simpl. unfold Server.on_udp_recv. simpl. rewrite Hrun. reflexivity. }
  eexists s', _. split; [exact H|].
  apply (server_table_invariant (P := clock)
           [SrvDatagram 26 (datagram 1234 hello) (Some peer1) 0]
           Server.new_KCPServer s'
           ((EvKcpInput 1234 (datagram 1234 hello) 26 :: tr3) ++ []));
    [|exact H].
  intros k c0 Hc0. simpl in Hc0. rewrite lookup_empty in Hc0. discriminate.
Defined.

(** [connect] on a new client when every libuv call succeeds. *)
Lemma connect_result_witness :
  Client.connect (P := clock) Client.new_KCPClient peer1 7 uv_ok = Undefined.
Proof.
  pose proof (connect_result (P := clock) Client.new_KCPClient peer1 7 uv_ok)
    as (_ & H & _).
  destruct (H eq_refl) as (_ & _ & _ & H4).
  apply H4; simpl; lia.
Defined.

(** The same where the constructor can read its 128 bytes. *)
Lemma connect_creates_session_witness :
  exists cl',
    Client.connect_from (P := clock) 128 Client.new_KCPClient peer1 7 uv_ok
    = Done (0, cl') /\
    Client.is_connected cl' = true.
Proof.
  destruct (connect_creates_session (P := clock) 128 Client.new_KCPClient
              peer1 7 uv_ok ltac:(unfold sizeof_sockaddr_storage; lia))
    as (ret & cl' & Hrun & Hiff & Hok & _).
  assert (Hret : ret = 0).
  { apply Hiff. simpl. repeat split; lia. }
  exists cl'. split; [rewrite Hrun, Hret; reflexivity|].
  apply (Hok Hret).
Defined.

(** [connect] on a new client when the timer cannot be started. *)
Lemma connect_timer_failure_witness :
  exists cl',
    Client.connect_from (P := clock) 128 Client.new_KCPClient peer1 7
      uv_timer_fails = Done (-22, cl') /\
    Client.is_connected cl' = true /\
    Client.stop cl' = (cl', []).
Proof.
  destruct (connect_timer_failure (P := clock) 128 Client.new_KCPClient
              peer1 7 uv_timer_fails
              ltac:(unfold sizeof_sockaddr_storage; lia) eq_refl eq_refl
              ltac:(simpl; lia) ltac:(simpl; lia) ltac:(simpl; lia)
              ltac:(simpl; lia))
    as (cl' & H1 & _ & _ & _ & H2 & _ & H3).
  exists cl'. split; [exact H1|]. split; [exact H2 | exact H3].
Defined.

(** Callbacks set on a new client before a successful [connect], as
    examples/client_main.cpp does. *)
Lemma callbacks_before_connect_are_dropped_witness :
  exists cl' c,
    Client.connect_from (P := clock) 128
      (Client.set_close_callback
         (Client.set_data_callback Client.new_KCPClient (Some (data_user 1)))
         (Some (close_user 1)))
      peer1 1234 uv_ok = Done (0, cl') /\
    Client.connection_ cl' = Some c /\
    data_callback_ c = None /\ close_callback_ c = None.
Proof.
  destruct (callbacks_before_connect_are_dropped (P := clock) 128
              Client.new_KCPClient (Some (data_user 1)) (Some (close_user 1))
              peer1 1234 uv_ok
              ltac:(unfold sizeof_sockaddr_storage; lia) eq_refl
              ltac:(simpl; lia) ltac:(simpl; lia) ltac:(simpl; lia)
              ltac:(simpl; lia))
    as [_ (cl' & c & Hrun & Hc & Hd & Hf & _)].
  exists cl', c. repeat split; assumption.
Defined.

(** [disconnect] on a client whose session has a close callback. *)
Lemma disconnect_closes_once_witness :
  Client.connection_
    (fst (Client.disconnect (connected_client client_session7))) = None /\
  count_events is_close_call
    (snd (Client.disconnect (connected_client client_session7))) = 1%nat.
Proof.
  destruct (disconnect_closes_once (connected_client client_session7)
              client_session7 eq_refl ltac:(simpl; discriminate))
    as (H1 & _ & _ & _ & _ & H2 & _).
  split; [exact H1 | exact H2].
Defined.

(** A timer tick of a connected client at clock reading 1000. *)
Lemma client_tick_keeps_connection_witness :
  exists cl' c' tr,
    Client.update_connection (P := clock) (connected_client client_session7)
    = Done (cl', tr) /\
    Client.connection_ cl' = Some c' /\
    state_ c' = CONNECTED /\ last_active_time_ c' = 0 /\
    head tr = Some (EvKcpUpdate 7 1000).
Proof.
  destruct (client_tick_keeps_connection (P := clock)
              (connected_client client_session7) client_session7 eq_refl)
    as (cl' & c' & tr & Hrun & Hc & Hshape & _ & _ & _ & _ & _ & _ & _ & _
        & _ & _ & Hk & _).
  exists cl', c', tr. split; [exact Hrun|]. split; [exact Hc|].
  rewrite Hshape. split; [reflexivity|]. split; [reflexivity|].
  apply (Hk (ikcp_create 7) eq_refl).
Defined.

Lemma client_ok_new : client_ok Client.new_KCPClient.
Proof.
  split; [|split]; simpl; [discriminate | discriminate | auto].
Qed.

Lemma client_ok_connected :
  client_ok (connected_client client_session7).
Proof.
  split; [|split]; simpl.
  - intros c [= <-]. simpl. eauto.
  - intros _. eauto.
  - discriminate.
Qed.

Lemma client_run_send_tick_connect :
  exists cl' tr,
    client_run (P := clock) (connected_client client_session7)
      [CliSend hello 2; CliTimer; CliConnect sizeof_sockaddr_in peer2 9 uv_ok]
    = Done (cl', tr).
Proof.
  unfold client_run, client_step. simpl.
  unfold Client.send. simpl. unfold send. simpl.
  unfold Client.on_timer, Client.update_connection. simpl.
  unfold recv. simpl. eauto.
Qed.

(** A connected client that sends, is ticked, and is asked to connect
    again. *)
Lemma client_invariant_witness :
  exists cl' tr,
    client_run (P := clock) (connected_client client_session7)
      [CliSend hello 2; CliTimer; CliConnect sizeof_sockaddr_in peer2 9 uv_ok]
    = Done (cl', tr) /\
    client_ok cl'.
Proof.
  destruct client_run_send_tick_connect as (cl' & tr & H).
  exists cl', tr. split; [exact H|].
  exact (client_invariant (P := clock)
           [CliSend hello 2; CliTimer;
            CliConnect sizeof_sockaddr_in peer2 9 uv_ok]
           (connected_client client_session7) cl' tr client_ok_connected H).
Defined.

(** [send] on a connected client. *)
Lemma client_send_result_witness :
  fst (fst (Client.send (connected_client client_session7) hello 2)) = 0.
Proof.
  apply (client_send_result (connected_client client_session7) hello 2
           client_ok_connected).
  exists client_session7, (ikcp_create 7). repeat split. simpl. lia.
Defined.

End MoreRuns.
